(** * Flight schedule parser and query tool: a shallow embedding

    This development embeds the validation and query core of
    [flight_parser.py] and proves the properties its specification states.

    Text is modelled by Rocq's [string] (a sequence of 8-bit characters).
    The character predicates below are those of Python's [str] methods on
    the ASCII range; characters above 127 are classified as neither
    letters, digits nor white space, so the model is exact for ASCII text.
    The arrow of the diagnostic messages (U+2192) is written as its UTF-8
    bytes. *)

From Stdlib Require Import ZArith List Ascii String Bool Lia DecimalString.
From Stdlib Require Import Floats.SpecFloat.
From stdpp Require Import gmap strings.

Import ListNotations.
Local Open Scope list_scope.

(** ** Python string primitives *)

Module PyStr.

Definition code (c : ascii) : nat := nat_of_ascii c.

Definition between (lo hi : nat) (c : ascii) : bool :=
  Nat.leb lo (code c) && Nat.leb (code c) hi.

(** [str.isspace] on the ASCII range: TAB, LF, VT, FF, CR, the four
    separators FS, GS, RS, US, and the space. *)
Definition isspace (c : ascii) : bool := between 9 13 c || between 28 32 c.

(** The C-level [Py_ISSPACE] used inside [float()]: no FS..US. *)
Definition c_isspace (c : ascii) : bool := between 9 13 c || between 32 32 c.

Definition isdigit (c : ascii) : bool := between 48 57 c.
Definition isupper_char (c : ascii) : bool := between 65 90 c.
Definition islower_char (c : ascii) : bool := between 97 122 c.
Definition isalpha_char (c : ascii) : bool := isupper_char c || islower_char c.
Definition isalnum_char (c : ascii) : bool := isalpha_char c || isdigit c.

Fixpoint all_chars (p : ascii -> bool) (s : string) : bool :=
  match s with
  | EmptyString => true
  | String c r => p c && all_chars p r
  end.

Fixpoint any_char (p : ascii -> bool) (s : string) : bool :=
  match s with
  | EmptyString => false
  | String c r => p c || any_char p r
  end.

Definition is_empty (s : string) : bool :=
  match s with EmptyString => true | String _ _ => false end.

(** [s.isalnum()], [s.isalpha()]: every character qualifies and there is
    at least one character. *)
Definition isalnum (s : string) : bool := negb (is_empty s) && all_chars isalnum_char s.
Definition isalpha (s : string) : bool := negb (is_empty s) && all_chars isalpha_char s.

(** [s.isupper()]: no lowercase letter and at least one uppercase letter. *)
Definition isupper (s : string) : bool :=
  negb (any_char islower_char s) && any_char isupper_char s.

Definition lower_char (c : ascii) : ascii :=
  if isupper_char c then ascii_of_nat (code c + 32) else c.

Fixpoint lower (s : string) : string :=
  match s with
  | EmptyString => EmptyString
  | String c r => String (lower_char c) (lower r)
  end.

Fixpoint lstrip_by (p : ascii -> bool) (s : string) : string :=
  match s with
  | EmptyString => EmptyString
  | String c r => if p c then lstrip_by p r else s
  end.

Fixpoint rstrip_by (p : ascii -> bool) (s : string) : string :=
  match s with
  | EmptyString => EmptyString
  | String c r =>
      match rstrip_by p r with
      | EmptyString => if p c then EmptyString else String c EmptyString
      | r' => String c r'
      end
  end.

(** [s.strip()] *)
Definition strip (s : string) : string := rstrip_by isspace (lstrip_by isspace s).

(** [s.rstrip("\n")] *)
Definition rstrip_newline (s : string) : string :=
  rstrip_by (Ascii.eqb "010"%char) s.

(** [s.split(sep)] for a one-character separator: never an empty list. *)
Fixpoint split (sep : ascii) (s : string) : list string :=
  match s with
  | EmptyString => [EmptyString]
  | String c r =>
      if Ascii.eqb c sep then EmptyString :: split sep r
      else match split sep r with
           | h :: t => String c h :: t
           | [] => [String c EmptyString]
           end
  end.

(** [s.startswith(p)] *)
Fixpoint startswith (p s : string) : bool :=
  match p, s with
  | EmptyString, _ => true
  | String a p', String b s' => Ascii.eqb a b && startswith p' s'
  | String _ _, EmptyString => false
  end.

(** [sep.join(l)] *)
Definition join (sep : string) (l : list string) : string := String.concat sep l.

(** [str(n)] for a non-negative integer. *)
Definition of_nat (n : nat) : string := NilZero.string_of_uint (Nat.to_uint n).

Definition digit_val (c : ascii) : Z := Z.of_nat (code c) - 48.

(** [int(s)] on a string of decimal digits, after the white-space strip
    that [int] performs. *)
Fixpoint int_digits (acc : Z) (s : string) : Z :=
  match s with
  | EmptyString => acc
  | String c r => int_digits (10 * acc + digit_val c) r
  end.

Definition int (s : string) : Z := int_digits 0 (strip s).

End PyStr.

(** ** [datetime.strptime] with [DATE_FORMAT] *)

Module Regex.

(** A backtracking matcher yields its candidate matches in priority
    order, each with the unread rest of the subject. *)
Definition matcher (A : Type) : Type := string -> list (A * string).

Definition ret {A} (a : A) : matcher A := fun s => [(a, s)].

Definition bind {A B} (m : matcher A) (k : A -> matcher B) : matcher B :=
  fun s => flat_map (fun ar => k (fst ar) (snd ar)) (m s).

Definition alt {A} (m1 m2 : matcher A) : matcher A := fun s => m1 s ++ m2 s.

Definition class (p : ascii -> bool) : matcher string :=
  fun s => match s with
           | String c r => if p c then [(String c EmptyString, r)] else []
           | EmptyString => []
           end.

Definition lit (c : ascii) : matcher string := class (Ascii.eqb c).

Definition cat (m1 m2 : matcher string) : matcher string :=
  bind m1 (fun a => bind m2 (fun b => ret (a +:+ b))).

(** Greedy [p*]: longest candidate first. *)
Fixpoint star (p : ascii -> bool) (s : string) : list (string * string) :=
  match s with
  | String c r =>
      if p c
      then map (fun ar => (String c (fst ar), snd ar)) (star p r) ++ [(EmptyString, s)]
      else [(EmptyString, s)]
  | EmptyString => [(EmptyString, EmptyString)]
  end.

Definition plus (p : ascii -> bool) : matcher string := cat (class p) (star p).

(** [re.match]: the first candidate, if any. *)
Definition first_match {A} (m : matcher A) (s : string) : option (A * string) :=
  hd_error (m s).

End Regex.

Notation "'let*' x ':=' m 'in' k" := (Regex.bind m (fun x => k))
  (at level 10, x name, m at level 100, k at level 200).

Module Datetime.

Import PyStr Regex.
Local Open Scope Z_scope.

(** A naive [datetime] with minute precision (seconds are always 0 under
    [DATE_FORMAT]). *)
Record datetime : Type := mk_datetime
  { year : Z; month : Z; day : Z; hour : Z; minute : Z }.

Definition is_char (c : ascii) : ascii -> bool := Ascii.eqb c.

(** The pieces of the regular expression that [_strptime] compiles from
    ["%Y-%m-%d %H:%M"]. *)

(** [%Y] is [\d\d\d\d]. *)
Definition re_Y : matcher string :=
  cat (class isdigit) (cat (class isdigit) (cat (class isdigit) (class isdigit))).

(** [%m] is [1[0-2]|0[1-9]|[1-9]]. *)
Definition re_m : matcher string :=
  alt (cat (lit "1") (class (between 48 50)))
 (alt (cat (lit "0") (class (between 49 57)))
      (class (between 49 57))).

(** [%d] is [3[0-1]|[1-2]\d|0[1-9]|[1-9]| [1-9]]. *)
Definition re_d : matcher string :=
  alt (cat (lit "3") (class (between 48 49)))
 (alt (cat (class (between 49 50)) (class isdigit))
 (alt (cat (lit "0") (class (between 49 57)))
 (alt (class (between 49 57))
      (cat (lit " ") (class (between 49 57)))))).

(** [%H] is [2[0-3]|[0-1]\d|\d]. *)
Definition re_H : matcher string :=
  alt (cat (lit "2") (class (between 48 51)))
 (alt (cat (class (between 48 49)) (class isdigit))
      (class isdigit)).

(** [%M] is [[0-5]\d|\d]. *)
Definition re_M : matcher string :=
  alt (cat (class (between 48 53)) (class isdigit))
      (class isdigit).

(** The whole pattern; the space of the format is compiled to [\s+]. *)
Definition date_regex : matcher (string * string * string * string * string) :=
  let* Y := re_Y in
  let* _ := lit "-" in
  let* m := re_m in
  let* _ := lit "-" in
  let* d := re_d in
  let* _ := plus isspace in
  let* H := re_H in
  let* _ := lit ":" in
  let* M := re_M in
  ret (Y, m, d, H, M).

Definition is_leap (y : Z) : bool :=
  (y mod 4 =? 0) && (negb (y mod 100 =? 0) || (y mod 400 =? 0)).

Definition days_in_month (y m : Z) : Z :=
  if m =? 2 then (if is_leap y then 29 else 28)
  else if (m =? 4) || (m =? 6) || (m =? 9) || (m =? 11) then 30
  else 31.

(** The range checks of the [datetime] constructor. *)
Definition valid_fields (y m d H M : Z) : bool :=
  (1 <=? y) && (y <=? 9999) && (1 <=? m) && (m <=? 12) &&
  (1 <=? d) && (d <=? days_in_month y m) &&
  (0 <=? H) && (H <=? 23) && (0 <=? M) && (M <=? 59).

(** [datetime.strptime(s, DATE_FORMAT)]; [None] stands for [ValueError].
    The match must consume the whole string. *)
Definition strptime (s : string) : option datetime :=
  match first_match date_regex s with
  | Some ((Y, m, d, H, M), rest) =>
      if is_empty rest then
        let y := int Y in let mo := int m in let dd := int d in
        let hh := int H in let mi := int M in
        if valid_fields y mo dd hh mi
        then Some (mk_datetime y mo dd hh mi)
        else None
      else None
  | None => None
  end.

(** Ordering of naive datetimes: lexicographic on the fields. *)
Definition lex (c1 c2 : comparison) : comparison :=
  match c1 with Eq => c2 | _ => c1 end.

Definition compare (a b : datetime) : comparison :=
  lex (year a ?= year b)
 (lex (month a ?= month b)
 (lex (day a ?= day b)
 (lex (hour a ?= hour b)
      (minute a ?= minute b)))).

Definition ltb (a b : datetime) : bool :=
  match compare a b with Lt => true | _ => false end.
Definition leb (a b : datetime) : bool :=
  match compare a b with Gt => false | _ => true end.
Definition gtb (a b : datetime) : bool := ltb b a.

End Datetime.

(** ** [float()] *)

Module PyFloat.

Import PyStr.
Local Open Scope Z_scope.

(** IEEE 754 binary64, as Python's [float]. *)
Definition prec : Z := 53.
Definition emax : Z := 1024.

Definition zero : spec_float := S754_zero false.
Definition one : spec_float := SFone prec emax.

Definition ltb (x y : spec_float) : bool := SFltb x y.
Definition eqb (x y : spec_float) : bool := SFeqb x y.
Definition leb (x y : spec_float) : bool := SFleb x y.
Definition gtb (x y : spec_float) : bool := SFltb y x.

(** The correctly rounded (to nearest, ties to even) value of
    [m * 10^e], signed; beyond the largest finite value the result is an
    infinity, as [float()] asks of the C conversion. *)
Definition of_decimal (neg : bool) (m e : Z) : spec_float :=
  match m with
  | Zpos _ =>
      SFdiv prec emax
        (S754_finite neg (Z.to_pos (m * 10 ^ Z.max e 0)) 0)
        (S754_finite false (Z.to_pos (10 ^ Z.max (- e) 0)) 0)
  | _ => S754_zero neg
  end.

(** [float(n)] for a Python [int]: [None] stands for [OverflowError]. *)
Definition of_int (n : Z) : option spec_float :=
  match binary_normalize prec emax n 0 false with
  | S754_infinity _ => None
  | x => Some x
  end.

Fixpoint span_digits (s : string) : string * string :=
  match s with
  | String c r =>
      if isdigit c
      then let '(d, rest) := span_digits r in (String c d, rest)
      else (EmptyString, s)
  | EmptyString => (EmptyString, EmptyString)
  end.

Definition parse_sign (s : string) : bool * string :=
  match s with
  | String c r =>
      if Ascii.eqb c "-" then (true, r)
      else if Ascii.eqb c "+" then (false, r)
      else (false, s)
  | EmptyString => (false, s)
  end.

(** The exponent part: without at least one digit nothing is consumed. *)
Definition parse_exponent (s : string) : Z * string :=
  match s with
  | String c r =>
      if Ascii.eqb c "e" || Ascii.eqb c "E" then
        let '(esign, r1) := parse_sign r in
        let '(ds, r2) := span_digits r1 in
        if is_empty ds then (0, s)
        else ((if esign then - int_digits 0 ds else int_digits 0 ds), r2)
      else (0, s)
  | EmptyString => (0, s)
  end.

(** The decimal scanner of the C conversion: sign, digits, optional point
    and digits, optional exponent; at least one digit.  Returns the value
    and the unread rest, or [None] when nothing can be read. *)
Definition strtod (s : string) : option (spec_float * string) :=
  let '(neg, s1) := parse_sign s in
  let '(ip, s2) := span_digits s1 in
  let '(fp, s3) :=
    match s2 with
    | String c r => if Ascii.eqb c "." then span_digits r else (EmptyString, s2)
    | EmptyString => (EmptyString, s2)
    end in
  if is_empty ip && is_empty fp then None
  else
    let '(e, s4) := parse_exponent s3 in
    Some (of_decimal neg (int_digits 0 (ip +:+ fp)) (e - Z.of_nat (String.length fp)), s4).

Fixpoint drop (n : nat) (s : string) : string :=
  match n, s with
  | S k, String _ r => drop k r
  | _, _ => s
  end.

(** Tried when the decimal scanner reads nothing: [inf], [infinity],
    [nan] in any letter case, with an optional sign. *)
Definition parse_inf_or_nan (s : string) : option (spec_float * string) :=
  let '(neg, r) := parse_sign s in
  if startswith "inf" (lower r) then
    let r3 := drop 3 r in
    if startswith "inity" (lower r3)
    then Some (S754_infinity neg, drop 5 r3)
    else Some (S754_infinity neg, r3)
  else if startswith "nan" (lower r) then Some (S754_nan, drop 3 r)
  else None.

(** The conversion proper: surrounding C white space is dropped and the
    whole remainder must be read. *)
Definition float_inner (s : string) : option spec_float :=
  let t := rstrip_by c_isspace (lstrip_by c_isspace s) in
  let r := match strtod t with
           | Some r => Some r
           | None => parse_inf_or_nan t
           end in
  match r with
  | Some (x, rest) => if is_empty rest then Some x else None
  | None => None
  end.

Definition is_underscore (c : ascii) : bool := Ascii.eqb c "_".

(** An underscore is allowed only between two digits. *)
Fixpoint underscores_ok (prev : ascii) (s : string) : bool :=
  match s with
  | EmptyString => negb (is_underscore prev)
  | String c r =>
      (if is_underscore c then isdigit prev
       else negb (is_underscore prev) || isdigit c)
      && underscores_ok c r
  end.

Fixpoint remove_underscores (s : string) : string :=
  match s with
  | EmptyString => EmptyString
  | String c r =>
      if is_underscore c then remove_underscores r
      else String c (remove_underscores r)
  end.

(** [float(s)] for a [str]; [None] stands for [ValueError]. *)
Definition of_string (s : string) : option spec_float :=
  if any_char is_underscore s then
    if underscores_ok "000" s then float_inner (remove_underscores s) else None
  else float_inner s.

End PyFloat.

(** ** The record validator *)

Module Flight.

Import PyStr.

(** The dictionary built for an accepted line.  The [price] entry holds
    the Python variable [price], a [float] or [None]. *)
Record flight : Type := mk_flight
  { flight_id : string;
    origin : string;
    destination : string;
    departure_datetime : string;
    arrival_datetime : string;
    price : option spec_float }.

Definition VALID_AIRPORTS : gset string :=
  {[ "LHR"; "JFK"; "FRA"; "RIX"; "OSL"; "HEL"; "ARN";
     "CDG"; "DXB"; "DOH"; "SYD"; "AMS"; "BRU"; "LAX" ]}.

(** U+2192 in UTF-8. *)
Definition arrow : string :=
  String (ascii_of_nat 226) (String (ascii_of_nat 134) (String (ascii_of_nat 146) EmptyString)).

(** [f"Line {lineno}: {line} → "] *)
Definition line_prefix (lineno : nat) (line : string) : string :=
  "Line " +:+ of_nat lineno +:+ ": " +:+ line +:+ " " +:+ arrow +:+ " ".

Definition parse_datetime (value kind : string) (errors : list string)
  : option Datetime.datetime * list string :=
  match Datetime.strptime value with
  | Some dt => (Some dt, errors)
  | None => (None, errors ++ ["invalid " +:+ kind +:+ " datetime"])
  end.

(** [2 <= len(flight_id) <= 8 and flight_id.isalnum()] *)
Definition flight_id_ok (fid : string) : bool :=
  Nat.leb 2 (String.length fid) && Nat.leb (String.length fid) 8 && isalnum fid.

Definition check_flight_id (fid : string) (issues : list string) : list string :=
  if negb (flight_id_ok fid) then
    if Nat.ltb 8 (String.length fid)
    then issues ++ ["flight_id too long (more than 8 characters)"]
    else if Nat.ltb (String.length fid) 2
    then issues ++ ["flight_id too short (less than 2 characters)"]
    else issues ++ ["invalid flight_id"]
  else issues.

(** [len(code) == 3 and code.isalpha() and code.isupper()] *)
Definition airport_shape (code : string) : bool :=
  Nat.eqb (String.length code) 3 && isalpha code && isupper code.

Definition check_airport (code kind : string) (issues : list string) : list string :=
  if negb (airport_shape code) then issues ++ ["invalid " +:+ kind +:+ " code"]
  else if negb (bool_decide (code ∈ VALID_AIRPORTS))
  then issues ++ ["invalid " +:+ kind +:+ " code"]
  else issues.

(** [if dep_dt and arr_dt and arr_dt <= dep_dt] *)
Definition check_order (dep_dt arr_dt : option Datetime.datetime)
    (issues : list string) : list string :=
  match dep_dt, arr_dt with
  | Some d, Some a =>
      if Datetime.leb a d then issues ++ ["arrival before departure"] else issues
  | _, _ => issues
  end.

(** The [try: price = float(price_str) ... except ValueError] block. *)
Definition check_price (price_str : string) (issues : list string)
  : option spec_float * list string :=
  match PyFloat.of_string price_str with
  | Some p =>
      if PyFloat.ltb p PyFloat.zero then (Some p, issues ++ ["negative price value"])
      else if PyFloat.eqb p PyFloat.zero then (Some p, issues ++ ["non-positive price value"])
      else (Some p, issues)
  | None => (None, issues ++ ["invalid price value"])
  end.

(** All field checks on the six trimmed parts, in source order; returns
    the [price] variable and the accumulated issue list. *)
Definition collect_issues (fid org dst dep_str arr_str price_str : string)
  : option spec_float * list string :=
  let issues := check_flight_id fid [] in
  let issues := check_airport org "origin" issues in
  let issues := check_airport dst "destination" issues in
  let '(dep_dt, dt_issues) := parse_datetime dep_str "departure" [] in
  let '(arr_dt, dt_issues) := parse_datetime arr_str "arrival" dt_issues in
  let issues := issues ++ dt_issues in
  let issues := check_order dep_dt arr_dt issues in
  check_price price_str issues.

(** Returns [(flight or None, error message or None)]. *)
Definition validate_and_build_flight (line : string) (lineno : nat)
  : option flight * option string :=
  match map strip (split "," line) with
  | [fid; org; dst; dep_str; arr_str; price_str] =>
      match collect_issues fid org dst dep_str arr_str price_str with
      | (p, []) => (Some (mk_flight fid org dst dep_str arr_str p), None)
      | (_, issues) => (None, Some (line_prefix lineno line +:+ join ", " issues))
      end
  | _ => (None, Some (line_prefix lineno line +:+ "missing required fields"))
  end.

End Flight.

(** ** The ingestion pass *)

Module Ingest.

Import PyStr Flight.

Definition HEADER : string :=
  "flight_id,origin,destination,departure_datetime,arrival_datetime,price".

Definition comment_message (lineno : nat) (stripped : string) : string :=
  line_prefix lineno stripped +:+ "comment line, ignored for data parsing".

(** The state of the pass: [valid_flights] and [error_lines], both
    appended to in place by the source. *)
Definition state : Type := list flight * list string.

(** One iteration of the loop of [parse_csv_file]. *)
Definition process_line (lineno : nat) (raw_line : string) (st : state) : state :=
  let line := rstrip_newline raw_line in
  let stripped := strip line in
  if is_empty stripped then st
  else if Nat.eqb lineno 1 && startswith HEADER (lower stripped) then st
  else if startswith "#" stripped
  then (fst st, snd st ++ [comment_message lineno stripped])
  else
    let '(flight, err) := validate_and_build_flight line lineno in
    match err with
    | Some e =>
        if negb (is_empty e) then (fst st, snd st ++ [e])
        else match flight with Some f => (fst st ++ [f], snd st) | None => st end
    | None =>
        match flight with Some f => (fst st ++ [f], snd st) | None => st end
    end.

(** [for lineno, raw_line in enumerate(f, start)] *)
Fixpoint parse_lines (lineno : nat) (lines : list string) (st : state) : state :=
  match lines with
  | [] => st
  | raw_line :: rest => parse_lines (S lineno) rest (process_line lineno raw_line st)
  end.

(** [parse_csv_file], the file given as the list of its lines. *)
Definition parse_csv_file (lines : list string) (st : state) : state :=
  parse_lines 1 lines st.

End Ingest.

(** ** The query matcher *)

Module Query.

Import PyStr Flight.

(** The values [json.load] produces. *)
#[local] Unset Elimination Schemes.
Inductive json : Type :=
| JNull
| JBool (b : bool)
| JInt (n : Z)
| JFloat (x : spec_float)
| JStr (s : string)
| JArr (l : list json)
| JObj (l : list (string * json)).
#[local] Set Elimination Schemes.

(** The exceptions the matcher can raise. *)
Inductive exn : Type := TypeError | ValueError | OverflowError.

Inductive result (A : Type) : Type :=
| Ok (a : A)
| Raise (e : exn).
Arguments Ok {A} a.
Arguments Raise {A} e.

#[global] Instance result_ret : MRet result := fun A a => Ok a.
#[global] Instance result_bind : MBind result :=
  fun A B k m => match m with Ok a => k a | Raise e => Raise e end.

(** [datetime.strptime(v, DATE_FORMAT)] on a JSON value. *)
Definition strptime_value (v : json) : result Datetime.datetime :=
  match v with
  | JStr s =>
      match Datetime.strptime s with
      | Some d => Ok d
      | None => Raise ValueError
      end
  | _ => Raise TypeError
  end.

(** [float(v)] on a JSON value. *)
Definition float_value (v : json) : result spec_float :=
  match v with
  | JFloat x => Ok x
  | JInt n =>
      match PyFloat.of_int n with
      | Some x => Ok x
      | None => Raise OverflowError
      end
  | JBool b => Ok (if b then PyFloat.one else PyFloat.zero)
  | JStr s =>
      match PyFloat.of_string s with
      | Some x => Ok x
      | None => Raise ValueError
      end
  | JNull | JArr _ | JObj _ => Raise TypeError
  end.

(** [float(flight["price"])] *)
Definition float_price (f : flight) : result spec_float :=
  match price f with
  | Some x => Ok x
  | None => Raise TypeError
  end.

(** [s != v] is false only for a JSON string equal to [s]. *)
Definition str_eq (s : string) (v : json) : bool :=
  match v with
  | JStr t => String.eqb s t
  | _ => false
  end.

(** [flight.get(field)] for the three exact-match fields. *)
Definition get_field (f : flight) (field : string) : string :=
  if String.eqb field "flight_id" then flight_id f
  else if String.eqb field "origin" then origin f
  else destination f.

Definition exact_fields : list string := ["flight_id"; "origin"; "destination"].

(** The inner [for field in (...)] loop: [ok] stays true iff no present
    key differs. *)
Definition exact_ok (query : gmap string json) (f : flight) : bool :=
  forallb (fun field =>
             match query !! field with
             | Some v => str_eq (get_field f field) v
             | None => true
             end) exact_fields.

(** An optional range bound read before the loop. *)
Definition read_bound (query : gmap string json) (key : string)
  : result (option Datetime.datetime) :=
  match query !! key with
  | Some v => d ← strptime_value v; mret (Some d)
  | None => mret None
  end.

Definition parse_flight_time (s : string) : result Datetime.datetime :=
  match Datetime.strptime s with
  | Some d => Ok d
  | None => Raise ValueError
  end.

(** The body of the loop over flights: [Ok true] when the flight is
    appended to [matches], [Ok false] when a [continue] is taken. *)
Definition match_flight (query : gmap string json)
    (dep_filter_dt arr_filter_dt : option Datetime.datetime) (f : flight)
  : result bool :=
  if negb (exact_ok query f) then mret false
  else
    dep_ok ← match dep_filter_dt with
              | Some bound =>
                  flight_dep ← parse_flight_time (departure_datetime f);
                  mret (negb (Datetime.ltb flight_dep bound))
              | None => mret true
              end;
    if negb dep_ok then mret false
    else
      arr_ok ← match arr_filter_dt with
                | Some bound =>
                    flight_arr ← parse_flight_time (arrival_datetime f);
                    mret (negb (Datetime.gtb flight_arr bound))
                | None => mret true
                end;
      if negb arr_ok then mret false
      else
        match query !! "price" with
        | Some v =>
            a ← float_price f;
            b ← float_value v;
            mret (negb (PyFloat.gtb a b))
        | None => mret true
        end.

Fixpoint filter_loop (query : gmap string json)
    (dep_filter_dt arr_filter_dt : option Datetime.datetime)
    (flights matches : list flight) : result (list flight) :=
  match flights with
  | [] => mret matches
  | f :: rest =>
      keep ← match_flight query dep_filter_dt arr_filter_dt f;
      filter_loop query dep_filter_dt arr_filter_dt rest
        (if (keep : bool) then matches ++ [f] else matches)
  end.

Definition filter_flights (flights : list flight) (query : gmap string json)
  : result (list flight) :=
  dep_filter_dt ← read_bound query "departure_datetime";
  arr_filter_dt ← read_bound query "arrival_datetime";
  filter_loop query dep_filter_dt arr_filter_dt flights [].

End Query.

(** ** Several sources *)

Module Sources.

Import PyStr Flight Ingest.

(** The CSV branch of [main]: the same two lists are handed to
    [parse_csv_file] for every file in turn.  The files are given by their
    lines, in the order [main] visits them: the [-i] file, or the [.csv]
    files of the [-d] folder sorted by name. *)
Definition parse_sources (files : list (list string)) : state :=
  fold_left (fun st lines => parse_csv_file lines st) files ([], []).

End Sources.

(** ** A batch of queries *)

Module Batch.

Import Flight Query.

(** One entry of the response file: [{"query": q, "matches": matches}]. *)
Definition response : Type := gmap string json * list flight.

(** The loop of [run_queries_and_save]; [responses] is what is written to
    the response file once the loop is over. *)
Fixpoint run_queries (flights : list flight) (queries : list (gmap string json))
    (responses : list response) : result (list response) :=
  match queries with
  | [] => mret responses
  | q :: rest =>
      matches ← filter_flights flights q;
      run_queries flights rest (responses ++ [(q, matches)])
  end.

End Batch.

(** * Properties *)

(** ** Strings *)

Section StringFacts.

Import PyStr.

Lemma all_chars_lstrip (p : ascii -> bool) (s : string) :
  all_chars p (lstrip_by p s) = all_chars p s.
Proof.
  induction s as [|c r IH]; simpl; [reflexivity|].
  destruct (p c) eqn:Hc; simpl; [exact IH | now rewrite Hc].
Qed.

Lemma is_empty_rstrip (p : ascii -> bool) (s : string) :
  is_empty (rstrip_by p s) = all_chars p s.
Proof.
  induction s as [|c r IH]; simpl; [reflexivity|].
  destruct (rstrip_by p r) eqn:Hr; simpl in *.
  - rewrite <- IH. destruct (p c); reflexivity.
  - rewrite <- IH. now rewrite andb_false_r.
Qed.

Lemma all_chars_rstrip (p q : ascii -> bool) (s : string) :
  (forall c, p c = true -> q c = true) ->
  all_chars q (rstrip_by p s) = all_chars q s.
Proof.
  intros Hpq. induction s as [|c r IH]; simpl; [reflexivity|].
  destruct (rstrip_by p r) eqn:Hr; simpl in *.
  - rewrite <- IH, andb_true_r.
    destruct (p c) eqn:Hc; simpl; [now rewrite (Hpq _ Hc) | now rewrite andb_true_r].
  - now rewrite <- IH.
Qed.

(** A string strips to the empty string exactly when it is white space
    only. *)
Lemma is_empty_strip (s : string) : is_empty (strip s) = all_chars isspace s.
Proof. unfold strip. now rewrite is_empty_rstrip, all_chars_lstrip. Qed.

Lemma newline_isspace (c : ascii) : Ascii.eqb "010" c = true -> isspace c = true.
Proof. intros H. apply Ascii.eqb_eq in H. now subst c. Qed.

Lemma blank_line_strips_empty (raw : string) :
  is_empty (strip (rstrip_newline raw)) = all_chars isspace raw.
Proof.
  rewrite is_empty_strip. unfold rstrip_newline.
  apply all_chars_rstrip, newline_isspace.
Qed.

Lemma rstrip_keeps_head (p : ascii -> bool) (c : ascii) (r : string) :
  p c = false -> exists r', rstrip_by p (String c r) = String c r'.
Proof.
  intros Hc. simpl. destruct (rstrip_by p r); rewrite ?Hc; eauto.
Qed.

Lemma strip_keeps_head (c : ascii) (r : string) :
  isspace c = false -> exists r', strip (String c r) = String c r'.
Proof.
  intros Hc. unfold strip. simpl. rewrite Hc. now apply rstrip_keeps_head.
Qed.

Lemma length_split_pos (sep : ascii) (s : string) : split sep s <> [].
Proof.
  induction s as [|c r IH]; simpl; [discriminate|].
  destruct (Ascii.eqb c sep); [discriminate|].
  destruct (split sep r); discriminate.
Qed.

Lemma append_nonempty (a b : string) : is_empty a = false -> is_empty (a +:+ b) = false.
Proof. destruct a; simpl; [discriminate | reflexivity]. Qed.

End StringFacts.

(** ** The record validator *)

Module FlightFacts.

Import PyStr Flight.

(** The validators of the individual fields, as the source tests them. *)
Definition airport_ok (code : string) : bool :=
  airport_shape code && bool_decide (code ∈ VALID_AIRPORTS).

Definition timestamp_ok (s : string) : bool :=
  match Datetime.strptime s with Some _ => true | None => false end.

Definition price_ok (s : string) : bool :=
  match PyFloat.of_string s with
  | Some p => negb (PyFloat.ltb p PyFloat.zero) && negb (PyFloat.eqb p PyFloat.zero)
  | None => false
  end.

(** The parsed arrival is strictly later than the parsed departure. *)
Definition arrival_after_departure (dep_str arr_str : string) : bool :=
  match Datetime.strptime dep_str, Datetime.strptime arr_str with
  | Some d, Some a => Datetime.ltb d a
  | _, _ => false
  end.

(** What each check contributes when run on an empty list. *)
Definition flight_id_issues (fid : string) : list string := check_flight_id fid [].
Definition airport_issues (code kind : string) : list string := check_airport code kind [].
Definition datetime_issues (value kind : string) : list string :=
  snd (parse_datetime value kind []).
Definition order_issues (dep_str arr_str : string) : list string :=
  check_order (Datetime.strptime dep_str) (Datetime.strptime arr_str) [].
Definition price_issues (price_str : string) : list string :=
  snd (check_price price_str []).

Lemma check_flight_id_app fid issues :
  check_flight_id fid issues = issues ++ flight_id_issues fid.
Proof.
  unfold flight_id_issues, check_flight_id.
  destruct (flight_id_ok fid); simpl; [now rewrite app_nil_r|].
  destruct (Nat.ltb 8 _); [reflexivity|]. destruct (Nat.ltb _ 2); reflexivity.
Qed.

Lemma check_airport_app code kind issues :
  check_airport code kind issues = issues ++ airport_issues code kind.
Proof.
  unfold airport_issues, check_airport.
  destruct (airport_shape code); simpl; [|reflexivity].
  destruct (bool_decide _); simpl; [now rewrite app_nil_r | reflexivity].
Qed.

Lemma parse_datetime_app value kind errors :
  parse_datetime value kind errors =
    (Datetime.strptime value, errors ++ datetime_issues value kind).
Proof.
  unfold datetime_issues, parse_datetime.
  destruct (Datetime.strptime value); simpl; [now rewrite app_nil_r | reflexivity].
Qed.

Lemma check_order_app dep_dt arr_dt issues :
  check_order dep_dt arr_dt issues = issues ++ check_order dep_dt arr_dt [].
Proof.
  unfold check_order. destruct dep_dt, arr_dt; rewrite ?app_nil_r; try reflexivity.
  destruct (Datetime.leb _ _); [reflexivity | now rewrite app_nil_r].
Qed.

Lemma check_price_app price_str issues :
  check_price price_str issues =
    (PyFloat.of_string price_str, issues ++ price_issues price_str).
Proof.
  unfold price_issues, check_price.
  destruct (PyFloat.of_string price_str); simpl; [|reflexivity].
  destruct (PyFloat.ltb _ _); simpl; [reflexivity|].
  destruct (PyFloat.eqb _ _); simpl; [reflexivity | now rewrite app_nil_r].
Qed.

(** The accumulated list is the concatenation, in source order, of what
    every check reports. *)
Lemma collect_issues_eq fid org dst dep_str arr_str price_str :
  collect_issues fid org dst dep_str arr_str price_str =
    (PyFloat.of_string price_str,
     flight_id_issues fid ++ airport_issues org "origin" ++
     airport_issues dst "destination" ++ datetime_issues dep_str "departure" ++
     datetime_issues arr_str "arrival" ++ order_issues dep_str arr_str ++
     price_issues price_str).
Proof.
  unfold collect_issues.
  rewrite (parse_datetime_app dep_str), (parse_datetime_app arr_str).
  rewrite check_price_app, check_order_app.
  rewrite !check_airport_app, check_flight_id_app. simpl.
  unfold order_issues. now rewrite <- !app_assoc.
Qed.

Lemma flight_id_issues_nil fid : flight_id_issues fid = [] <-> flight_id_ok fid = true.
Proof.
  unfold flight_id_issues, check_flight_id.
  destruct (flight_id_ok fid); simpl; [tauto|].
  destruct (Nat.ltb 8 _); [split; discriminate|].
  destruct (Nat.ltb _ 2); split; discriminate.
Qed.

Lemma airport_issues_nil code kind : airport_issues code kind = [] <-> airport_ok code = true.
Proof.
  unfold airport_issues, check_airport, airport_ok.
  destruct (airport_shape code); simpl; [|split; discriminate].
  destruct (bool_decide _); simpl; [tauto | split; discriminate].
Qed.

Lemma datetime_issues_nil value kind :
  datetime_issues value kind = [] <-> timestamp_ok value = true.
Proof.
  unfold datetime_issues, parse_datetime, timestamp_ok.
  destruct (Datetime.strptime value); simpl; [tauto | split; discriminate].
Qed.

Lemma price_issues_nil price_str : price_issues price_str = [] <-> price_ok price_str = true.
Proof.
  unfold price_issues, check_price, price_ok.
  destruct (PyFloat.of_string price_str); simpl; [|split; discriminate].
  destruct (PyFloat.ltb _ _); simpl; [split; discriminate|].
  destruct (PyFloat.eqb _ _); simpl; [split; discriminate | tauto].
Qed.

End FlightFacts.

(** ** Ordering of timestamps *)

Module DatetimeFacts.

Import Datetime.
Local Open Scope Z_scope.

Lemma lex_opp c1 c2 : lex (CompOpp c1) (CompOpp c2) = CompOpp (lex c1 c2).
Proof. destruct c1; reflexivity. Qed.

Lemma compare_antisym a b : compare b a = CompOpp (compare a b).
Proof.
  unfold compare.
  rewrite (Z.compare_antisym (year a)), (Z.compare_antisym (month a)),
    (Z.compare_antisym (day a)), (Z.compare_antisym (hour a)),
    (Z.compare_antisym (minute a)).
  now rewrite !lex_opp.
Qed.

(** [not (a <= d)] is [d < a]. *)
Lemma leb_false_ltb a d : negb (leb a d) = ltb d a.
Proof.
  unfold leb, ltb. rewrite (compare_antisym a d).
  destruct (compare a d); reflexivity.
Qed.



End DatetimeFacts.

(** ** Theorems about the record validator *)

Module ValidatorTheorems.

Import PyStr Flight FlightFacts.

Lemma order_issues_nil dep_str arr_str :
  timestamp_ok dep_str = true -> timestamp_ok arr_str = true ->
  (order_issues dep_str arr_str = [] <-> arrival_after_departure dep_str arr_str = true).
Proof.
  unfold order_issues, check_order, arrival_after_departure, timestamp_ok.
  destruct (Datetime.strptime dep_str) as [d|]; [|discriminate].
  destruct (Datetime.strptime arr_str) as [a|]; [|discriminate].
  intros _ _. rewrite <- DatetimeFacts.leb_false_ltb.
  destruct (Datetime.leb a d); simpl; split; (discriminate || reflexivity).
Qed.

Definition all_fields_ok (fid org dst dep_str arr_str price_str : string) : bool :=
  flight_id_ok fid && airport_ok org && airport_ok dst &&
  timestamp_ok dep_str && timestamp_ok arr_str && price_ok price_str.

Lemma issues_nil_iff fid org dst dep_str arr_str price_str :
  snd (collect_issues fid org dst dep_str arr_str price_str) = [] <->
  all_fields_ok fid org dst dep_str arr_str price_str = true /\
  arrival_after_departure dep_str arr_str = true.
Proof.
  rewrite collect_issues_eq. simpl. unfold all_fields_ok.
  rewrite !andb_true_iff.
  rewrite <- flight_id_issues_nil, <- (airport_issues_nil org "origin").
  rewrite <- (airport_issues_nil dst "destination").
  rewrite <- (datetime_issues_nil dep_str "departure").
  rewrite <- (datetime_issues_nil arr_str "arrival").
  rewrite <- price_issues_nil.
  split.
  - intros H.
    repeat (apply app_eq_nil in H; destruct H as [? H]).
    assert (Hd : timestamp_ok dep_str = true) by now apply (datetime_issues_nil dep_str "departure").
    assert (Ha : timestamp_ok arr_str = true) by now apply (datetime_issues_nil arr_str "arrival").
    repeat split; try assumption. now apply order_issues_nil.
  - intros [[[[[[H1 H2] H3] H4] H5] H6] H7].
    assert (Hd : timestamp_ok dep_str = true) by now apply (datetime_issues_nil dep_str "departure").
    assert (Ha : timestamp_ok arr_str = true) by now apply (datetime_issues_nil arr_str "arrival").
    apply (order_issues_nil _ _ Hd Ha) in H7.
    now rewrite H1, H2, H3, H4, H5, H6, H7.
Qed.

(** The outcome of the validator on a six-field line, by the issue list. *)
Lemma validate_six line lineno fid org dst dep_str arr_str price_str :
  map strip (split "," line) = [fid; org; dst; dep_str; arr_str; price_str] ->
  validate_and_build_flight line lineno =
    match snd (collect_issues fid org dst dep_str arr_str price_str) with
    | [] => (Some (mk_flight fid org dst dep_str arr_str (PyFloat.of_string price_str)), None)
    | issues => (None, Some (line_prefix lineno line +:+ join ", " issues))
    end.
Proof.
  intros Hparts. unfold validate_and_build_flight. rewrite Hparts.
  rewrite collect_issues_eq. simpl.
  destruct (_ ++ _); reflexivity.
Qed.

(** C1: on a line of exactly six fields a record is produced if and only
    if the six field validators pass and the parsed arrival is strictly
    later than the parsed departure; the record then carries the trimmed
    fields, and otherwise no record is built and the line yields one
    diagnostic string listing a non-empty issue list. *)
Theorem C1_record_iff_all_valid line lineno fid org dst dep_str arr_str price_str :
  map strip (split "," line) = [fid; org; dst; dep_str; arr_str; price_str] ->
  ((exists fl, fst (validate_and_build_flight line lineno) = Some fl) <->
     (all_fields_ok fid org dst dep_str arr_str price_str = true /\
      arrival_after_departure dep_str arr_str = true)) /\
  (forall fl, fst (validate_and_build_flight line lineno) = Some fl ->
     validate_and_build_flight line lineno = (Some fl, None) /\
     fl = mk_flight fid org dst dep_str arr_str (PyFloat.of_string price_str)) /\
  (fst (validate_and_build_flight line lineno) = None ->
     exists issues, issues <> [] /\
       validate_and_build_flight line lineno =
         (None, Some (line_prefix lineno line +:+ join ", " issues))).
Proof.
  intros Hparts. rewrite (validate_six _ lineno _ _ _ _ _ _ Hparts).
  rewrite <- issues_nil_iff.
  destruct (snd (collect_issues fid org dst dep_str arr_str price_str)) as [|i l] eqn:Hi.
  - simpl. split; [|split].
    + split; [reflexivity | eauto].
    + intros fl [= <-]. split; reflexivity.
    + discriminate.
  - simpl. split; [|split].
    + split; [intros [fl [=]] | discriminate].
    + intros fl [=].
    + intros _. exists (i :: l). split; [discriminate | reflexivity].
Qed.

(** C4: a line that does not split into exactly six fields fails with the
    single issue "missing required fields"; nothing else of the line is
    looked at. *)
Theorem C4_wrong_field_count line lineno :
  length (split "," line) <> 6 ->
  validate_and_build_flight line lineno =
    (None, Some (line_prefix lineno line +:+ "missing required fields")).
Proof.
  intros Hlen. unfold validate_and_build_flight.
  rewrite <- (length_map strip) in Hlen.
  destruct (map strip (split "," line)) as [|a [|b [|c [|d [|e [|f [|g l]]]]]]];
    try reflexivity.
  now contradiction Hlen.
Qed.

End ValidatorTheorems.

Module AirportTheorems.

Import PyStr Flight FlightFacts.

Lemma upper_not_lower c : isupper_char c = true -> islower_char c = false.
Proof.
  unfold isupper_char, islower_char, between.
  rewrite andb_true_iff, andb_false_iff, !Nat.leb_le, !Nat.leb_gt. lia.
Qed.

(** The shape test of the source is "exactly three characters, each an
    uppercase letter". *)
Lemma airport_shape_chars code :
  airport_shape code = true <->
  String.length code = 3 /\ all_chars isupper_char code = true.
Proof.
  unfold airport_shape, isalpha, isupper.
  destruct code as [|a [|b [|c [|d r]]]]; simpl;
    try (split; [discriminate | intros [? ?]; discriminate]).
  pose proof (upper_not_lower a) as Ha.
  pose proof (upper_not_lower b) as Hb.
  pose proof (upper_not_lower c) as Hc.
  unfold isalpha_char.
  destruct (isupper_char a), (islower_char a), (isupper_char b), (islower_char b),
    (isupper_char c), (islower_char c); simpl;
    try (specialize (Ha eq_refl)); try (specialize (Hb eq_refl));
    try (specialize (Hc eq_refl)); try discriminate;
    split; try tauto; try discriminate; intros [_ ?]; discriminate.
Qed.

Lemma whitelist_cases code :
  code ∈ VALID_AIRPORTS ->
  In code ["LHR"; "JFK"; "FRA"; "RIX"; "OSL"; "HEL"; "ARN";
           "CDG"; "DXB"; "DOH"; "SYD"; "AMS"; "BRU"; "LAX"].
Proof.
  unfold VALID_AIRPORTS. rewrite !elem_of_union, !elem_of_singleton. simpl.
  intuition.
Qed.

Lemma whitelist_shape code : code ∈ VALID_AIRPORTS -> airport_shape code = true.
Proof.
  intros H. apply whitelist_cases in H. simpl in H.
  repeat (destruct H as [<-|H]; [reflexivity|]). contradiction.
Qed.

Lemma app_singleton_neq {A} (l : list A) (x : A) : l ++ [x] <> l.
Proof.
  intros H. apply (f_equal (@length A)) in H. rewrite length_app in H. simpl in H. lia.
Qed.

(** C7: the airport check adds no issue exactly for the members of the
    whitelist, each of which is three uppercase letters; every other
    string, whether of the wrong shape or of the right shape but not
    listed, gets the one message "invalid <kind> code", so "lhr" and "XXX"
    are reported with the same text. *)
Theorem C7_airport_code_whitelist code kind issues :
  (check_airport code kind issues = issues <->
     (String.length code = 3 /\ all_chars isupper_char code = true) /\
     code ∈ VALID_AIRPORTS) /\
  (check_airport code kind issues = issues <-> code ∈ VALID_AIRPORTS) /\
  (check_airport code kind issues <> issues ->
     check_airport code kind issues = issues ++ ["invalid " +:+ kind +:+ " code"]) /\
  check_airport "lhr" kind issues = issues ++ ["invalid " +:+ kind +:+ " code"] /\
  check_airport "XXX" kind issues = issues ++ ["invalid " +:+ kind +:+ " code"] /\
  check_airport "LHR" kind issues = issues.
Proof.
  assert (Hmain : check_airport code kind issues = issues <->
                  airport_shape code = true /\ code ∈ VALID_AIRPORTS).
  { unfold check_airport. destruct (airport_shape code) eqn:Hs; simpl.
    - destruct (bool_decide (code ∈ VALID_AIRPORTS)) eqn:Hw; simpl.
      + apply bool_decide_eq_true in Hw. tauto.
      + apply bool_decide_eq_false in Hw. split; [|tauto].
        intros H. now apply app_singleton_neq in H.
    - split; [|intros [? _]; discriminate].
      intros H. now apply app_singleton_neq in H. }
  split; [|split; [|split; [|split; [|split]]]].
  - now rewrite Hmain, airport_shape_chars.
  - rewrite Hmain. split; [tauto|]. intros H. split; [now apply whitelist_shape | exact H].
  - unfold check_airport. destruct (airport_shape code); simpl; [|reflexivity].
    destruct (bool_decide _); simpl; [congruence | reflexivity].
  - reflexivity.
  - reflexivity.
  - reflexivity.
Qed.

End AirportTheorems.


(** ** Accumulation of issues and the price check *)

Module IssueTheorems.

Import PyStr Flight FlightFacts ValidatorTheorems.

Definition flight_id_messages : list string :=
  ["flight_id too long (more than 8 characters)";
   "flight_id too short (less than 2 characters)";
   "invalid flight_id"].

Definition price_messages : list string :=
  ["negative price value"; "non-positive price value"; "invalid price value"].

Lemma flight_id_issue_reported fid :
  flight_id_ok fid = false ->
  exists m, In m flight_id_messages /\ flight_id_issues fid = [m].
Proof.
  intros H. unfold flight_id_issues, check_flight_id. rewrite H. simpl.
  destruct (Nat.ltb 8 _); [|destruct (Nat.ltb _ 2)];
    eexists; (split; [|reflexivity]); simpl; tauto.
Qed.

Lemma airport_issue_reported code kind :
  airport_ok code = false ->
  airport_issues code kind = ["invalid " +:+ kind +:+ " code"].
Proof.
  unfold airport_ok, airport_issues, check_airport.
  destruct (airport_shape code); simpl; [|reflexivity].
  destruct (bool_decide _); simpl; [discriminate | reflexivity].
Qed.

Lemma datetime_issue_reported value kind :
  timestamp_ok value = false ->
  datetime_issues value kind = ["invalid " +:+ kind +:+ " datetime"].
Proof.
  unfold timestamp_ok, datetime_issues, parse_datetime.
  destruct (Datetime.strptime value); [discriminate | reflexivity].
Qed.

Lemma price_issue_reported price_str :
  price_ok price_str = false ->
  exists m, In m price_messages /\ price_issues price_str = [m].
Proof.
  unfold price_ok, price_issues, check_price.
  destruct (PyFloat.of_string price_str) as [p|]; simpl.
  - destruct (PyFloat.ltb p PyFloat.zero); simpl.
    + intros _. eexists; split; [|reflexivity]. simpl; tauto.
    + destruct (PyFloat.eqb p PyFloat.zero); simpl; [|discriminate].
      intros _. eexists; split; [|reflexivity]. simpl; tauto.
  - intros _. eexists; split; [|reflexivity]. simpl; tauto.
Qed.

(** C8: on a six-field line every failing field leaves its own issue in
    the accumulated list, whatever the other fields do, and a non-empty
    list is reported whole in the line's diagnostic, joined by ", ". *)
Theorem C8_every_failing_field_reported
    line lineno fid org dst dep_str arr_str price_str :
  map strip (split "," line) = [fid; org; dst; dep_str; arr_str; price_str] ->
  let issues := snd (collect_issues fid org dst dep_str arr_str price_str) in
  (flight_id_ok fid = false ->
     exists m, In m flight_id_messages /\ In m issues) /\
  (airport_ok org = false -> In "invalid origin code" issues) /\
  (airport_ok dst = false -> In "invalid destination code" issues) /\
  (timestamp_ok dep_str = false -> In "invalid departure datetime" issues) /\
  (timestamp_ok arr_str = false -> In "invalid arrival datetime" issues) /\
  (price_ok price_str = false ->
     exists m, In m price_messages /\ In m issues) /\
  (issues <> [] ->
     validate_and_build_flight line lineno =
       (None, Some (line_prefix lineno line +:+ join ", " issues))).
Proof.
  intros Hparts issues. subst issues.
  rewrite (validate_six _ lineno _ _ _ _ _ _ Hparts).
  rewrite collect_issues_eq. cbn [snd].
  repeat split.
  - intros H. destruct (flight_id_issue_reported _ H) as (m & Hm & ->).
    exists m. split; [exact Hm | now left].
  - intros H. rewrite (airport_issue_reported _ "origin" H).
    rewrite !in_app_iff. right; left. now left.
  - intros H. rewrite (airport_issue_reported _ "destination" H).
    rewrite !in_app_iff. right; right; left. now left.
  - intros H. rewrite (datetime_issue_reported _ "departure" H).
    rewrite !in_app_iff. right; right; right; left. now left.
  - intros H. rewrite (datetime_issue_reported _ "arrival" H).
    rewrite !in_app_iff. right; right; right; right; left. now left.
  - intros H. destruct (price_issue_reported _ H) as (m & Hm & ->).
    exists m. split; [exact Hm|].
    rewrite !in_app_iff. right; right; right; right; right; right. now left.
  - intros H. destruct (_ ++ _); [contradiction | reflexivity].
Qed.

(** A line whose flight id and origin are both bad: both are reported. *)
Lemma C8_witness :
  map strip (split "," "A,lhr,JFK,2024-03-10 08:00,2024-03-10 10:00,12.5") =
    ["A"; "lhr"; "JFK"; "2024-03-10 08:00"; "2024-03-10 10:00"; "12.5"] /\
  validate_and_build_flight "A,lhr,JFK,2024-03-10 08:00,2024-03-10 10:00,12.5" 3 =
    (None, Some (line_prefix 3 "A,lhr,JFK,2024-03-10 08:00,2024-03-10 10:00,12.5" +:+
                 "flight_id too short (less than 2 characters), invalid origin code")).
Proof.
  split; [reflexivity|].
  refine (proj2 (proj2 (proj2 (proj2 (proj2 (proj2
    (C8_every_failing_field_reported
       "A,lhr,JFK,2024-03-10 08:00,2024-03-10 10:00,12.5" 3
       "A" "lhr" "JFK" "2024-03-10 08:00" "2024-03-10 10:00" "12.5" eq_refl)))))) _).
  vm_compute. discriminate.
Defined.

(** ** Sign of the accepted price *)

Lemma compare_zero_cases (p : spec_float) :
  PyFloat.ltb p PyFloat.zero = false -> PyFloat.eqb p PyFloat.zero = false ->
  PyFloat.gtb p PyFloat.zero = true \/ p = S754_nan.
Proof.
  unfold PyFloat.ltb, PyFloat.eqb, PyFloat.gtb, PyFloat.zero, SFltb, SFeqb.
  destruct p as [s| s | | s m e]; simpl; try (destruct s; simpl); auto; discriminate.
Qed.

(** Whatever record the validator builds holds a parsed price that is
    neither negative nor zero: it is strictly positive, or it is NaN. *)
Lemma record_price_cases line lineno fl :
  fst (validate_and_build_flight line lineno) = Some fl ->
  exists p, price fl = Some p /\
    (PyFloat.gtb p PyFloat.zero = true \/ p = S754_nan).
Proof.
  unfold validate_and_build_flight.
  destruct (map strip (split "," line)) as [|a [|b [|c [|d [|e [|f [|g l]]]]]]];
    try discriminate.
  rewrite collect_issues_eq.
  destruct (_ ++ _) eqn:Hi; [|discriminate].
  intros [= <-]. simpl.
  repeat (apply app_eq_nil in Hi; destruct Hi as [_ Hi]).
  apply price_issues_nil in Hi. unfold price_ok in Hi.
  destruct (PyFloat.of_string f) as [p|]; [|discriminate].
  exists p. split; [reflexivity|].
  apply andb_true_iff in Hi. destruct Hi as [H1 H2].
  apply negb_true_iff in H1, H2. now apply compare_zero_cases.
Qed.

(** C3: the price ["nan"] converts without error to NaN, which is neither
    [< 0] nor [== 0]; the line is accepted and the record built holds a
    price that is not strictly positive. *)
Theorem C3_nan_price_is_accepted :
  validate_and_build_flight "AB12,LHR,JFK,2024-03-10 08:00,2024-03-10 10:00,nan" 1 =
    (Some (mk_flight "AB12" "LHR" "JFK" "2024-03-10 08:00" "2024-03-10 10:00"
             (Some S754_nan)), None) /\
  PyFloat.of_string "nan" = Some S754_nan /\
  PyFloat.gtb S754_nan PyFloat.zero = false.
Proof. repeat split; vm_compute; reflexivity. Qed.

End IssueTheorems.

(** ** The ingestion pass *)

Module IngestTheorems.

Import PyStr Flight Ingest.

(** Every message of the validator starts with ["Line "]. *)
Lemma validate_message_nonempty line lineno fl e :
  validate_and_build_flight line lineno = (fl, Some e) -> is_empty e = false.
Proof.
  unfold validate_and_build_flight.
  destruct (map strip (split "," line)) as [|a [|b [|c [|d [|x [|f [|g l]]]]]]];
    try (intros [= _ <-]; reflexivity).
  destruct (collect_issues a b c d x f) as [p [|i l]]; [discriminate|].
  intros [= _ <-]. reflexivity.
Qed.

(** The validator returns a record and no message, or no record and a
    message. *)
Lemma validate_outcome line lineno :
  (exists fl, validate_and_build_flight line lineno = (Some fl, None)) \/
  (exists e, validate_and_build_flight line lineno = (None, Some e)).
Proof.
  unfold validate_and_build_flight.
  destruct (map strip (split "," line)) as [|a [|b [|c [|d [|x [|f [|g l]]]]]]];
    try (right; eexists; reflexivity).
  destruct (collect_issues a b c d x f) as [p [|i l]];
    [left | right]; eexists; reflexivity.
Qed.

(** The three ways a line is set aside before validation, and what is left. *)
Definition is_blank (raw_line : string) : bool :=
  is_empty (strip (rstrip_newline raw_line)).

Definition is_header (lineno : nat) (raw_line : string) : bool :=
  Nat.eqb lineno 1 && startswith HEADER (lower (strip (rstrip_newline raw_line))).

Definition is_comment (raw_line : string) : bool :=
  startswith "#" (strip (rstrip_newline raw_line)).

Definition is_data (lineno : nat) (raw_line : string) : bool :=
  negb (is_blank raw_line) && negb (is_header lineno raw_line) &&
  negb (is_comment raw_line).

Lemma parse_lines_app lineno l1 l2 st :
  parse_lines lineno (l1 ++ l2) st =
    parse_lines (lineno + length l1) l2 (parse_lines lineno l1 st).
Proof.
  revert lineno st. induction l1 as [|x l1 IH]; intros lineno st; simpl.
  - now rewrite Nat.add_0_r.
  - rewrite IH. f_equal. lia.
Qed.

(** A line whose first character is ['#'] is a comment line for the
    source, which tests the stripped line. *)
Lemma hash_line_is_comment raw_line :
  startswith "#" raw_line = true ->
  is_comment raw_line = true /\ is_blank raw_line = false /\
  forall lineno, is_header lineno raw_line = false.
Proof.
  destruct raw_line as [|c r]; [discriminate|].
  cbn [startswith]. rewrite andb_true_r. intros Hc.
  apply Ascii.eqb_eq in Hc. subst c.
  unfold is_comment, is_blank, is_header, rstrip_newline.
  destruct (rstrip_keeps_head (Ascii.eqb "010") "#" r eq_refl) as [r1 ->].
  destruct (strip_keeps_head "#" r1 eq_refl) as [r2 ->].
  repeat split. intros lineno. now rewrite andb_false_r.
Qed.

Lemma comment_not_blank_nor_header lineno raw_line :
  is_comment raw_line = true ->
  is_blank raw_line = false /\ is_header lineno raw_line = false.
Proof.
  unfold is_comment, is_blank, is_header.
  destruct (strip (rstrip_newline raw_line)) as [|c r]; [discriminate|].
  cbn [startswith]. rewrite andb_true_r. intros Hc.
  apply Ascii.eqb_eq in Hc. subst c.
  split; [reflexivity | now rewrite andb_false_r].
Qed.

Lemma process_blank lineno raw_line st :
  is_blank raw_line = true -> process_line lineno raw_line st = st.
Proof. unfold is_blank, process_line. now intros ->. Qed.

Lemma process_comment lineno raw_line st :
  is_comment raw_line = true ->
  process_line lineno raw_line st =
    (fst st, snd st ++ [comment_message lineno (strip (rstrip_newline raw_line))]).
Proof.
  intros Hc. destruct (comment_not_blank_nor_header lineno _ Hc) as [Hb Hh].
  unfold is_blank, is_header, is_comment in *. unfold process_line.
  now rewrite Hb, Hh, Hc.
Qed.

Lemma process_data lineno raw_line st :
  is_data lineno raw_line = true ->
  process_line lineno raw_line st =
    match validate_and_build_flight (rstrip_newline raw_line) lineno with
    | (_, Some e) => (fst st, snd st ++ [e])
    | (Some f, None) => (fst st ++ [f], snd st)
    | (None, None) => st
    end.
Proof.
  unfold is_data. rewrite !andb_true_iff, !negb_true_iff. intros [[Hb Hh] Hc].
  unfold is_blank, is_header, is_comment in *. unfold process_line.
  rewrite Hb, Hh, Hc.
  destruct (validate_and_build_flight (rstrip_newline raw_line) lineno)
    as [fl [e|]] eqn:Hv; [|reflexivity].
  rewrite (validate_message_nonempty _ _ _ _ Hv). now destruct fl.
Qed.

(** C9: in a pass over a file, a line is processed at its 1-based
    position on the state left by the lines before it.  A white-space-only
    line leaves both sequences as they are; a comment line (its stripped
    text starts with ['#'], as does every line whose first character is
    ['#']) appends exactly one diagnostic and no record; a data line that
    the validator rejects appends exactly one diagnostic, the validator's
    message, and no record. *)
Theorem C9_line_outcomes (before after : list string) (raw_line : string) (st0 : state) :
  let lineno := S (length before) in
  let st := parse_csv_file before st0 in
  parse_csv_file (before ++ raw_line :: after) st0 =
    parse_lines (S lineno) after (process_line lineno raw_line st) /\
  (all_chars isspace raw_line = true -> process_line lineno raw_line st = st) /\
  (startswith "#" raw_line = true -> is_comment raw_line = true) /\
  (is_comment raw_line = true ->
     process_line lineno raw_line st =
       (fst st, snd st ++ [comment_message lineno (strip (rstrip_newline raw_line))])) /\
  (is_data lineno raw_line = true ->
     fst (validate_and_build_flight (rstrip_newline raw_line) lineno) = None ->
     exists e, validate_and_build_flight (rstrip_newline raw_line) lineno = (None, Some e) /\
       process_line lineno raw_line st = (fst st, snd st ++ [e])).
Proof.
  intros lineno st. split; [|split; [|split; [|split]]].
  - unfold parse_csv_file. rewrite parse_lines_app. simpl.
    now replace (1 + length before) with lineno by reflexivity.
  - intros H. apply process_blank. unfold is_blank.
    now rewrite blank_line_strips_empty.
  - intros H. now apply hash_line_is_comment.
  - apply process_comment.
  - intros Hd Hrej. rewrite (process_data _ _ _ Hd).
    destruct (validate_outcome (rstrip_newline raw_line) lineno) as [[fl Hv]|[e Hv]];
      rewrite Hv in *; [discriminate|].
    exists e. split; reflexivity.
Qed.

Definition sample_line : string := "AB12,LHR,JFK,2024-03-10 08:00,2024-03-10 10:00,12.5".
Definition short_id_line : string := "A,LHR,JFK,2024-03-10 08:00,2024-03-10 10:00,12.5".

(** After one valid line: a blank second line changes nothing, a comment
    or a line with a too-short flight id adds one diagnostic. *)
Lemma C9_witness :
  let st := parse_csv_file [sample_line] ([], []) in
  length (fst st) = 1 /\ snd st = [] /\
  process_line 2 "   " st = st /\
  process_line 2 "# note" st = (fst st, snd st ++ [comment_message 2 "# note"]) /\
  exists e, process_line 2 short_id_line st = (fst st, snd st ++ [e]).
Proof.
  cbv zeta. split; [reflexivity|]. split; [reflexivity|].
  split; [|split].
  - exact (proj1 (proj2 (C9_line_outcomes [sample_line] [] "   " ([], []))) eq_refl).
  - exact (proj1 (proj2 (proj2 (proj2
      (C9_line_outcomes [sample_line] [] "# note" ([], []))))) eq_refl).
  - destruct (proj2 (proj2 (proj2 (proj2
      (C9_line_outcomes [sample_line] [] short_id_line ([], []))))) eq_refl eq_refl)
      as (e & _ & He).
    exists e. exact He.
Defined.

End IngestTheorems.

(** ** Comparison of floats *)

Module FloatFacts.





End FloatFacts.

(** ** The query matcher *)

Module QueryFacts.

Import PyStr Flight Query FloatFacts.

(** The three range stages of the loop body, named. *)
Definition dep_stage (dep_filter_dt : option Datetime.datetime) (f : flight) : result bool :=
  match dep_filter_dt with
  | Some bound =>
      flight_dep ← parse_flight_time (departure_datetime f);
      mret (negb (Datetime.ltb flight_dep bound))
  | None => mret true
  end.

Definition arr_stage (arr_filter_dt : option Datetime.datetime) (f : flight) : result bool :=
  match arr_filter_dt with
  | Some bound =>
      flight_arr ← parse_flight_time (arrival_datetime f);
      mret (negb (Datetime.gtb flight_arr bound))
  | None => mret true
  end.

Definition price_stage (query : gmap string json) (f : flight) : result bool :=
  match query !! "price" with
  | Some v =>
      a ← float_price f;
      b ← float_value v;
      mret (negb (PyFloat.gtb a b))
  | None => mret true
  end.

Lemma match_flight_stages query d a f :
  match_flight query d a f =
    if negb (exact_ok query f) then Ok false
    else dep_ok ← dep_stage d f;
         if negb (dep_ok : bool) then Ok false
         else arr_ok ← arr_stage a f;
              if negb (arr_ok : bool) then Ok false
              else price_stage query f.
Proof. reflexivity. Qed.

(** The flight is kept exactly when every stage passes. *)
Lemma match_flight_true query d a f :
  match_flight query d a f = Ok true <->
  exact_ok query f = true /\ dep_stage d f = Ok true /\
  arr_stage a f = Ok true /\ price_stage query f = Ok true.
Proof.
  rewrite match_flight_stages.
  destruct (exact_ok query f); simpl; [|split; [discriminate | intros [? _]; discriminate]].
  destruct (dep_stage d f) as [[|]|e]; simpl;
    try (split; [discriminate | intros (_ & ? & _); discriminate]).
  destruct (arr_stage a f) as [[|]|e]; simpl;
    try (split; [discriminate | intros (_ & _ & ? & _); discriminate]).
  tauto.
Qed.

Definition kept (query : gmap string json) (d a : option Datetime.datetime)
    (f : flight) : bool :=
  match match_flight query d a f with Ok true => true | _ => false end.

(** A successful loop returns the accumulator followed by the kept
    flights, in order. *)
Lemma filter_loop_ok query d a flights acc r :
  filter_loop query d a flights acc = Ok r ->
  r = acc ++ List.filter (kept query d a) flights.
Proof.
  revert acc. induction flights as [|f rest IH]; intros acc; simpl.
  - intros [= <-]. now rewrite app_nil_r.
  - unfold kept at 1.
    destruct (match_flight query d a f) as [[|]|e]; simpl; try discriminate.
    + intros H. apply IH in H. now rewrite <- app_assoc in H.
    + apply IH.
Qed.

(** When no flight raises, the loop succeeds. *)
Lemma filter_loop_total query d a (P : flight -> bool) flights acc :
  Forall (fun f => match_flight query d a f = Ok (P f)) flights ->
  filter_loop query d a flights acc = Ok (acc ++ List.filter P flights).
Proof.
  intros H. revert acc. induction H as [|f rest Hf _ IH]; intros acc; simpl.
  - now rewrite app_nil_r.
  - rewrite Hf. simpl. rewrite IH. destruct (P f); [now rewrite <- app_assoc | reflexivity].
Qed.

Lemma list_filter_sublist {A} (P : A -> bool) (l : list A) :
  sublist (List.filter P l) l.
Proof.
  induction l as [|x l IH]; simpl; [constructor|].
  destruct (P x); now constructor.
Qed.

Lemma list_filter_mono {A} (P Q : A -> bool) (l : list A) :
  (forall x, P x = true -> Q x = true) ->
  sublist (List.filter P l) (List.filter Q l).
Proof.
  intros H. induction l as [|x l IH]; simpl; [constructor|].
  destruct (P x) eqn:HP.
  - rewrite (H _ HP). now constructor.
  - destruct (Q x); [now constructor | exact IH].
Qed.

Lemma list_filter_true {A} (l : list A) : List.filter (fun _ => true) l = l.
Proof. induction l as [|x l IH]; simpl; [reflexivity | now rewrite IH]. Qed.

Lemma exact_ok_unfold query f :
  exact_ok query f =
    match query !! "flight_id" with Some v => str_eq (flight_id f) v | None => true end &&
    match query !! "origin" with Some v => str_eq (origin f) v | None => true end &&
    match query !! "destination" with Some v => str_eq (destination f) v | None => true end.
Proof. unfold exact_ok. simpl. now rewrite andb_true_r, andb_assoc. Qed.

End QueryFacts.

Module QueryTheorems.

Import PyStr Flight Query FloatFacts QueryFacts.

(** *** What the specification says of a match *)






Definition recognized_keys : list string :=
  ["flight_id"; "origin"; "destination";
   "departure_datetime"; "arrival_datetime"; "price"].
















Definition flight_a : flight :=
  mk_flight "AB12" "LHR" "JFK" "2024-03-10 08:00" "2024-03-10 10:00"
    (PyFloat.of_string "12.5").
Definition flight_b : flight :=
  mk_flight "CD34" "CDG" "DXB" "2024-04-01 23:00" "2024-04-02 07:30"
    (PyFloat.of_string "300").
Definition cheap_since_march : gmap string json :=
  <["price" := JInt 100]> (<["departure_datetime" := JStr "2024-03-01 00:00"]> ∅).






(** *** Adding a filter *)

Lemma lookup_before_insert (query : gmap string json) key v k :
  query !! key = None ->
  query !! k = None \/ query !! k = <[key := v]> query !! k.
Proof.
  intros Hnone. destruct (decide (key = k)) as [<-|Hne].
  - now left.
  - right. now rewrite lookup_insert_ne.
Qed.

Lemma equals_filter_mono (query : gmap string json) key v k s :
  query !! key = None ->
  match <[key := v]> query !! k with Some w => str_eq s w | None => true end = true ->
  match query !! k with Some w => str_eq s w | None => true end = true.
Proof.
  intros Hnone. destruct (lookup_before_insert query key v k Hnone) as [-> | ->];
    [reflexivity | tauto].
Qed.

Lemma read_bound_mono (query : gmap string json) key v k b b' :
  query !! key = None ->
  read_bound query k = Ok b -> read_bound (<[key := v]> query) k = Ok b' ->
  b = None \/ b = b'.
Proof.
  intros Hnone. unfold read_bound.
  destruct (lookup_before_insert query key v k Hnone) as [-> | ->].
  - intros [= <-] _. now left.
  - intros -> [= <-]. now right.
Qed.

(** A flight kept under the larger query is kept under the smaller. *)
Lemma kept_mono (query : gmap string json) key v d a d' a' f :
  query !! key = None ->
  (d = None \/ d = d') -> (a = None \/ a = a') ->
  kept (<[key := v]> query) d' a' f = true -> kept query d a f = true.
Proof.
  intros Hnone Hd Ha. unfold kept.
  destruct (match_flight (<[key := v]> query) d' a' f) as [[|]|e] eqn:Hm; try discriminate.
  intros _. apply match_flight_true in Hm. destruct Hm as (He & Hds & Has & Hp).
  assert (Hgoal : match_flight query d a f = Ok true); [|now rewrite Hgoal].
  apply match_flight_true. repeat split.
  - rewrite exact_ok_unfold in *. apply andb_true_iff in He as [He He3].
    apply andb_true_iff in He as [He1 He2].
    rewrite (equals_filter_mono _ _ _ _ _ Hnone He1).
    rewrite (equals_filter_mono _ _ _ _ _ Hnone He2).
    now rewrite (equals_filter_mono _ _ _ _ _ Hnone He3).
  - destruct Hd as [-> | ->]; [reflexivity | exact Hds].
  - destruct Ha as [-> | ->]; [reflexivity | exact Has].
  - unfold price_stage in *.
    destruct (lookup_before_insert query key v "price" Hnone) as [-> | ->];
      [reflexivity | exact Hp].
Qed.

(** C6: when a key absent from the query is added, whatever its value,
    and both evaluations return, the matches of the larger query are a
    subsequence of the matches of the smaller one; so they are not more
    numerous. *)
Theorem C6_adding_a_filter_never_adds_matches
    (flights : list flight) (query : gmap string json) (key : string) (v : json)
    (m m' : list flight) :
  query !! key = None ->
  filter_flights flights query = Ok m ->
  filter_flights flights (<[key := v]> query) = Ok m' ->
  sublist m' m /\ length m' <= length m.
Proof.
  intros Hnone Hq Hq'.
  assert (Hsub : sublist m' m); [|split; [exact Hsub | now apply sublist_length]].
  unfold filter_flights in Hq, Hq'.
  destruct (read_bound query "departure_datetime") as [d|] eqn:Hd; [|discriminate].
  destruct (read_bound query "arrival_datetime") as [a|] eqn:Ha; [|discriminate].
  destruct (read_bound (<[key := v]> query) "departure_datetime") as [d'|] eqn:Hd';
    [|discriminate].
  destruct (read_bound (<[key := v]> query) "arrival_datetime") as [a'|] eqn:Ha';
    [|discriminate].
  simpl in Hq, Hq'.
  apply filter_loop_ok in Hq, Hq'. subst m m'. simpl.
  apply list_filter_mono. intros f.
  apply (kept_mono query key v d a d' a' f Hnone).
  - exact (read_bound_mono _ _ _ _ _ _ Hnone Hd Hd').
  - exact (read_bound_mono _ _ _ _ _ _ Hnone Ha Ha').
Qed.

(** Adding an origin filter to the sample query leaves no match. *)
Lemma C6_witness :
  sublist [] [flight_a] /\ length ([] : list flight) <= length [flight_a].
Proof.
  apply (C6_adding_a_filter_never_adds_matches
           [flight_a; flight_b] cheap_since_march "origin" (JStr "CDG")).
  - vm_compute. reflexivity.
  - vm_compute. reflexivity.
  - vm_compute. reflexivity.
Defined.

(** *** Malformed range bounds *)

Definition is_timestamp (v : json) : bool :=
  match v with
  | JStr s => match Datetime.strptime s with Some _ => true | None => false end
  | _ => false
  end.

Lemma strptime_value_raises v :
  is_timestamp v = false -> exists e, strptime_value v = Raise e.
Proof.
  destruct v as [| | | |s| |]; simpl; eauto.
  destruct (Datetime.strptime s); [discriminate | eauto].
Qed.

Lemma read_bound_raises (query : gmap string json) key v e :
  query !! key = Some v -> strptime_value v = Raise e ->
  read_bound query key = Raise e.
Proof. intros Hv He. unfold read_bound. now rewrite Hv, He. Qed.


Definition date_only_query : gmap string json :=
  <["departure_datetime" := JStr "2024-03-15"]> ∅.


(** By contrast the matcher reads only the six recognized keys: a key of
    another name changes nothing, whatever its value. *)
Lemma unrecognized_key_ignored flights (query : gmap string json) key v :
  ~ In key recognized_keys ->
  filter_flights flights (<[key := v]> query) = filter_flights flights query.
Proof.
  intros Hk. unfold recognized_keys in Hk. simpl in Hk.
  assert (Hl : forall k, In k recognized_keys -> <[key := v]> query !! k = query !! k).
  { intros k Hin. apply lookup_insert_ne. intros ->. now apply Hk. }
  unfold filter_flights, read_bound.
  rewrite !Hl by (simpl; tauto).
  destruct (match query !! "departure_datetime" with Some _ => _ | None => _ end) as [d|e];
    [|reflexivity].
  destruct (match query !! "arrival_datetime" with Some _ => _ | None => _ end) as [a|e];
    [|reflexivity].
  simpl. generalize (@nil flight) as acc.
  induction flights as [|f rest IH]; intros acc; simpl; [reflexivity|].
  assert (Hm : match_flight (<[key := v]> query) d a f = match_flight query d a f).
  { rewrite !match_flight_stages, !exact_ok_unfold. unfold price_stage.
    now rewrite !Hl by (simpl; tauto). }
  rewrite Hm. destruct (match_flight query d a f) as [keep|e]; simpl; [apply IH | reflexivity].
Qed.

End QueryTheorems.

(** ** What the timestamp parser accepts *)

Module StrptimeTheorems.

Import PyStr Regex Datetime Flight.

(** *** Digits *)

Definition digit_char (k : nat) : ascii := ascii_of_nat (48 + k).
#[local] Arguments digit_char : simpl never.

Lemma code_digit_char k : k < 10 -> code (digit_char k) = 48 + k.
Proof. intros H. unfold code, digit_char. apply nat_ascii_embedding. lia. Qed.

Lemma between_digit lo hi k :
  k < 10 -> lo <= 48 + k -> 48 + k <= hi -> between lo hi (digit_char k) = true.
Proof.
  intros Hk Hlo Hhi. unfold between. rewrite (code_digit_char k Hk).
  apply andb_true_iff. split; now apply Nat.leb_le.
Qed.

Lemma isdigit_digit k : k < 10 -> isdigit (digit_char k) = true.
Proof. intros H. apply between_digit; lia. Qed.

Lemma isspace_digit k : k < 10 -> isspace (digit_char k) = false.
Proof.
  intros H. unfold isspace, between. rewrite (code_digit_char k H).
  apply orb_false_iff. split; apply andb_false_iff; right; apply Nat.leb_gt; lia.
Qed.

Lemma digit_val_digit k : k < 10 -> digit_val (digit_char k) = Z.of_nat k.
Proof. intros H. unfold digit_val. rewrite (code_digit_char k H). lia. Qed.

(** *** Matchers *)

Lemma class_hit p c r : p c = true -> class p (String c r) = [(String c EmptyString, r)].
Proof. intros H. unfold class. now rewrite H. Qed.

Lemma class_miss p c r : p c = false -> class p (String c r) = [].
Proof. intros H. unfold class. now rewrite H. Qed.

Lemma bind_single {A B} (m : matcher A) (k : A -> matcher B) s x r :
  m s = [(x, r)] -> bind m k s = k x r.
Proof. unfold bind. intros ->. cbn [flat_map fst snd]. apply app_nil_r. Qed.

(** A class followed by a matcher with a single candidate. *)
Lemma cat_class_step p (m : matcher string) c r x r' :
  p c = true -> m r = [(x, r')] ->
  cat (class p) m (String c r) = [(String c x, r')].
Proof.
  intros Hc Hm. unfold cat.
  rewrite (bind_single _ _ _ _ _ (class_hit p c r Hc)).
  rewrite (bind_single _ _ _ _ _ Hm). reflexivity.
Qed.

Lemma cat_class_hit p q a b r :
  p a = true -> q b = true ->
  cat (class p) (class q) (String a (String b r)) =
    [(String a (String b EmptyString), r)].
Proof.
  intros Ha Hb. apply cat_class_step; [exact Ha | now apply class_hit].
Qed.

Lemma cat_class_miss p (m : matcher string) a r :
  p a = false -> cat (class p) m (String a r) = [].
Proof. intros Ha. unfold cat, bind. rewrite (class_miss p a _ Ha). reflexivity. Qed.

Lemma star_miss p c r :
  p c = false -> star p (String c r) = [(EmptyString, String c r)].
Proof. intros H. cbn [star]. now rewrite H. Qed.

(** The first candidate of a sequence, when the continuation accepts the
    first candidate of its head. *)
Lemma first_bind {A B} (m : matcher A) (k : A -> matcher B) s x r l y :
  m s = (x, r) :: l -> first_match (k x) r = Some y ->
  first_match (bind m k) s = Some y.
Proof.
  unfold first_match, bind. intros -> Hk. cbn [flat_map fst snd].
  destruct (k x r); [discriminate | exact Hk].
Qed.

Lemma lit_hit c r : lit c (String c r) = [(String c EmptyString, r)].
Proof. apply class_hit, Ascii.eqb_refl. Qed.

(** *** The groups on zero-padded input *)

Lemma re_Y_padded a b c d rest :
  a < 10 -> b < 10 -> c < 10 -> d < 10 ->
  re_Y (String (digit_char a) (String (digit_char b)
         (String (digit_char c) (String (digit_char d) rest)))) =
    [(String (digit_char a) (String (digit_char b)
        (String (digit_char c) (String (digit_char d) EmptyString))), rest)].
Proof.
  intros Ha Hb Hc Hd. unfold re_Y.
  apply cat_class_step; [now apply isdigit_digit|].
  apply cat_class_step; [now apply isdigit_digit|].
  apply cat_class_step; [now apply isdigit_digit|].
  apply class_hit. now apply isdigit_digit.
Qed.

Lemma re_m_padded a b rest :
  a < 10 -> b < 10 -> 1 <= 10 * a + b <= 12 ->
  exists l, re_m (String (digit_char a) (String (digit_char b) rest)) =
              (String (digit_char a) (String (digit_char b) EmptyString), rest) :: l.
Proof.
  intros Ha Hb Hr. unfold re_m, alt.
  assert (Hcase : a = 1 \/ a = 0) by lia. destruct Hcase as [-> | ->].
  - unfold lit at 1. rewrite cat_class_hit; [cbn [app]; eauto | reflexivity |].
    apply between_digit; lia.
  - unfold lit at 1. rewrite cat_class_miss by reflexivity.
    unfold lit at 1. rewrite cat_class_hit; [cbn [app]; eauto | reflexivity |].
    apply between_digit; lia.
Qed.

Lemma re_d_padded a b rest :
  a < 10 -> b < 10 -> 1 <= 10 * a + b <= 31 ->
  exists l, re_d (String (digit_char a) (String (digit_char b) rest)) =
              (String (digit_char a) (String (digit_char b) EmptyString), rest) :: l.
Proof.
  intros Ha Hb Hr. unfold re_d, alt.
  assert (Hcase : a = 3 \/ a = 2 \/ a = 1 \/ a = 0) by lia.
  destruct Hcase as [-> | [-> | [-> | ->]]].
  - unfold lit at 1. rewrite cat_class_hit; [cbn [app]; eauto | reflexivity |].
    apply between_digit; lia.
  - unfold lit at 1. rewrite cat_class_miss by reflexivity.
    rewrite cat_class_hit; [cbn [app]; eauto | reflexivity |].
    now apply isdigit_digit.
  - unfold lit at 1. rewrite cat_class_miss by reflexivity.
    rewrite cat_class_hit; [cbn [app]; eauto | reflexivity |].
    now apply isdigit_digit.
  - unfold lit at 1. rewrite cat_class_miss by reflexivity.
    rewrite cat_class_miss by reflexivity.
    unfold lit at 1. rewrite cat_class_hit; [cbn [app]; eauto | reflexivity |].
    apply between_digit; lia.
Qed.

Lemma re_H_padded a b rest :
  a < 10 -> b < 10 -> 10 * a + b <= 23 ->
  exists l, re_H (String (digit_char a) (String (digit_char b) rest)) =
              (String (digit_char a) (String (digit_char b) EmptyString), rest) :: l.
Proof.
  intros Ha Hb Hr. unfold re_H, alt.
  assert (Hcase : a = 2 \/ a = 1 \/ a = 0) by lia.
  destruct Hcase as [-> | [-> | ->]].
  - unfold lit at 1. rewrite cat_class_hit; [cbn [app]; eauto | reflexivity |].
    apply between_digit; lia.
  - unfold lit at 1. rewrite cat_class_miss by reflexivity.
    rewrite cat_class_hit; [cbn [app]; eauto | reflexivity |].
    now apply isdigit_digit.
  - unfold lit at 1. rewrite cat_class_miss by reflexivity.
    rewrite cat_class_hit; [cbn [app]; eauto | reflexivity |].
    now apply isdigit_digit.
Qed.

Lemma re_M_padded a b rest :
  a < 10 -> b < 10 -> 10 * a + b <= 59 ->
  exists l, re_M (String (digit_char a) (String (digit_char b) rest)) =
              (String (digit_char a) (String (digit_char b) EmptyString), rest) :: l.
Proof.
  intros Ha Hb Hr. unfold re_M, alt.
  rewrite cat_class_hit; [cbn [app]; eauto | |].
  - apply between_digit; lia.
  - now apply isdigit_digit.
Qed.

(** One space before a digit: [\s+] takes the space and stops. *)
Lemma plus_space_digit a rest :
  a < 10 ->
  plus isspace (String " " (String (digit_char a) rest)) =
    [(String " " EmptyString, String (digit_char a) rest)].
Proof.
  intros Ha. unfold plus.
  apply cat_class_step; [reflexivity|].
  apply star_miss. now apply isspace_digit.
Qed.

(** *** Reading the captured digits *)

Lemma lstrip_head p c r : p c = false -> lstrip_by p (String c r) = String c r.
Proof. intros H. cbn [lstrip_by]. now rewrite H. Qed.

Lemma rstrip_none p s :
  all_chars (fun c => negb (p c)) s = true -> rstrip_by p s = s.
Proof.
  induction s as [|c r IH]; simpl; [reflexivity|].
  intros H. apply andb_true_iff in H as [Hc Hr]. apply negb_true_iff in Hc.
  rewrite (IH Hr). destruct r; [now rewrite Hc | reflexivity].
Qed.

Lemma int_two a b :
  a < 10 -> b < 10 ->
  int (String (digit_char a) (String (digit_char b) EmptyString)) =
    (10 * Z.of_nat a + Z.of_nat b)%Z.
Proof.
  intros Ha Hb. unfold int, strip.
  rewrite lstrip_head by now apply isspace_digit.
  rewrite rstrip_none by (cbn [all_chars]; now rewrite !isspace_digit).
  cbn [int_digits]. rewrite !digit_val_digit by assumption. lia.
Qed.

Lemma int_four a b c d :
  a < 10 -> b < 10 -> c < 10 -> d < 10 ->
  int (String (digit_char a) (String (digit_char b)
        (String (digit_char c) (String (digit_char d) EmptyString)))) =
    (1000 * Z.of_nat a + 100 * Z.of_nat b + 10 * Z.of_nat c + Z.of_nat d)%Z.
Proof.
  intros Ha Hb Hc Hd. unfold int, strip.
  rewrite lstrip_head by now apply isspace_digit.
  rewrite rstrip_none by (cbn [all_chars]; now rewrite !isspace_digit).
  cbn [int_digits]. rewrite !digit_val_digit by assumption. lia.
Qed.

Lemma days_in_month_le y m : (days_in_month y m <= 31)%Z.
Proof.
  unfold days_in_month.
  destruct (m =? 2)%Z; [destruct (is_leap y); lia|].
  destruct (_ || _); lia.
Qed.

(** *** The zero-padded form *)

Definition num2 (a b : nat) : Z := (10 * Z.of_nat a + Z.of_nat b)%Z.
Definition num4 (a b c d : nat) : Z :=
  (1000 * Z.of_nat a + 100 * Z.of_nat b + 10 * Z.of_nat c + Z.of_nat d)%Z.

(** [YYYY-MM-DD HH:MM] spelled with the twelve digits given. *)
Definition padded (y1 y2 y3 y4 m1 m2 d1 d2 h1 h2 n1 n2 : nat) : string :=
  String (digit_char y1) (String (digit_char y2)
  (String (digit_char y3) (String (digit_char y4)
  (String "-" (String (digit_char m1) (String (digit_char m2)
  (String "-" (String (digit_char d1) (String (digit_char d2)
  (String " " (String (digit_char h1) (String (digit_char h2)
  (String ":" (String (digit_char n1) (String (digit_char n2)
   EmptyString))))))))))))))).

(** The format as the specification words it: sixteen characters, digits
    and the separators ['-'], ['-'], [' '], [':'] at their places. *)
Definition strict_format (s : string) : bool :=
  Nat.eqb (String.length s) 16 &&
  all_chars isdigit (String.substring 0 4 s) &&
  String.eqb (String.substring 4 1 s) "-" &&
  all_chars isdigit (String.substring 5 2 s) &&
  String.eqb (String.substring 7 1 s) "-" &&
  all_chars isdigit (String.substring 8 2 s) &&
  String.eqb (String.substring 10 1 s) " " &&
  all_chars isdigit (String.substring 11 2 s) &&
  String.eqb (String.substring 13 1 s) ":" &&
  all_chars isdigit (String.substring 14 2 s).

Lemma padded_parses y1 y2 y3 y4 m1 m2 d1 d2 h1 h2 n1 n2 :
  Forall (fun k => k < 10) [y1; y2; y3; y4; m1; m2; d1; d2; h1; h2; n1; n2] ->
  valid_fields (num4 y1 y2 y3 y4) (num2 m1 m2) (num2 d1 d2)
    (num2 h1 h2) (num2 n1 n2) = true ->
  strptime (padded y1 y2 y3 y4 m1 m2 d1 d2 h1 h2 n1 n2) =
    Some (mk_datetime (num4 y1 y2 y3 y4) (num2 m1 m2) (num2 d1 d2)
            (num2 h1 h2) (num2 n1 n2)).
Proof.
  intros Hdig Hvalid.
  repeat (apply Forall_cons in Hdig as [? Hdig]).
  pose proof Hvalid as Hv. unfold valid_fields in Hv.
  repeat (apply andb_true_iff in Hv as [Hv ?]).
  repeat match goal with H : (_ <=? _)%Z = true |- _ => apply Z.leb_le in H end.
  pose proof (days_in_month_le (num4 y1 y2 y3 y4) (num2 m1 m2)) as Hdim.
  unfold num2, num4 in *.
  destruct (re_m_padded m1 m2
    (String "-" (String (digit_char d1) (String (digit_char d2)
    (String " " (String (digit_char h1) (String (digit_char h2)
    (String ":" (String (digit_char n1) (String (digit_char n2)
     EmptyString)))))))))) as [lm Hm]; [assumption | assumption | lia |].
  destruct (re_d_padded d1 d2
    (String " " (String (digit_char h1) (String (digit_char h2)
    (String ":" (String (digit_char n1) (String (digit_char n2)
     EmptyString))))))) as [ld Hd]; [assumption | assumption | lia |].
  destruct (re_H_padded h1 h2
    (String ":" (String (digit_char n1) (String (digit_char n2)
     EmptyString)))) as [lh HH]; [assumption | assumption | lia |].
  destruct (re_M_padded n1 n2 EmptyString) as [ln HM];
    [assumption | assumption | lia |].
  assert (Hfirst : first_match date_regex
            (padded y1 y2 y3 y4 m1 m2 d1 d2 h1 h2 n1 n2) =
          Some ((String (digit_char y1) (String (digit_char y2)
                  (String (digit_char y3) (String (digit_char y4) EmptyString))),
                 String (digit_char m1) (String (digit_char m2) EmptyString),
                 String (digit_char d1) (String (digit_char d2) EmptyString),
                 String (digit_char h1) (String (digit_char h2) EmptyString),
                 String (digit_char n1) (String (digit_char n2) EmptyString)),
                EmptyString)).
  { unfold date_regex, padded.
    eapply first_bind; [now apply re_Y_padded|].
    eapply first_bind; [apply lit_hit|].
    eapply first_bind; [exact Hm|].
    eapply first_bind; [apply lit_hit|].
    eapply first_bind; [exact Hd|].
    eapply first_bind; [now apply plus_space_digit|].
    eapply first_bind; [exact HH|].
    eapply first_bind; [apply lit_hit|].
    eapply first_bind; [exact HM|].
    reflexivity. }
  unfold strptime. rewrite Hfirst. cbn [is_empty].
  rewrite int_four, !int_two by assumption.
  now rewrite Hvalid.
Qed.


(** The claim has both strings rejected with an issue; the parser reads
    them, neither is in the strict form, and no issue is recorded. *)
Lemma C2_counterexample :
  strict_format "2024-3-10 08:00" = false /\
  strict_format "2024-03-10 8:00" = false /\
  parse_datetime "2024-3-10 08:00" "departure" [] =
    (Some (mk_datetime 2024 3 10 8 0), []) /\
  parse_datetime "2024-03-10 8:00" "arrival" [] =
    (Some (mk_datetime 2024 3 10 8 0), []).
Proof. repeat split; vm_compute; reflexivity. Qed.

End StrptimeTheorems.

(** ** ASCII text *)

Module AsciiText.

Import PyStr.

(** Text made of ASCII characters only.  The embedding of the string
    primitives ([len], [isalnum], [strip], the digits and white space of
    a pattern) is exact on such text. *)
Definition is_ascii (s : string) : bool :=
  all_chars (fun c => Nat.ltb (code c) 128) s.

End AsciiText.

(** ** The form of an accepted timestamp *)

Module TimestampForm.

Import PyStr Regex Datetime Flight StrptimeTheorems AsciiText.

(** *** The form, written out *)

Definition digit (k : nat) : string := String (digit_char k) EmptyString.

(** A number from [lo] to [hi] written with one or two decimal digits. *)
Inductive field (lo hi : Z) : string -> Z -> Prop :=
| field_one a :
    a < 10 -> (lo <= Z.of_nat a <= hi)%Z ->
    field lo hi (digit a) (Z.of_nat a)
| field_two a b :
    a < 10 -> b < 10 -> (lo <= num2 a b <= hi)%Z ->
    field lo hi (String (digit_char a) (digit b)) (num2 a b).

(** A day of the month: 1 to 31 with one or two digits, or a space and
    one digit other than 0. *)
Inductive day_field : string -> Z -> Prop :=
| day_plain d n : field 1 31 d n -> day_field d n
| day_spaced a : 1 <= a < 10 -> day_field (String " " (digit a)) (Z.of_nat a).

(** A year: exactly four digits. *)
Inductive year_field : string -> Z -> Prop :=
| year_four a b c d :
    a < 10 -> b < 10 -> c < 10 -> d < 10 ->
    year_field (String (digit_char a) (String (digit_char b)
                  (String (digit_char c) (digit d)))) (num4 a b c d).

(** One or more white-space characters. *)
Definition blank (s : string) : Prop :=
  is_empty s = false /\ all_chars isspace s = true.

(** [YYYY-M-D H:M]: a four-digit year from 1 on, a month, a day that
    the month has in that year, white space, an hour and a minute. *)
Definition accepted (s : string) (dt : datetime) : Prop :=
  exists Y m d sep H M,
    s = Y +:+ "-" +:+ m +:+ "-" +:+ d +:+ sep +:+ H +:+ ":" +:+ M /\
    year_field Y (year dt) /\ field 1 12 m (month dt) /\ day_field d (day dt) /\
    blank sep /\ field 0 23 H (hour dt) /\ field 0 59 M (minute dt) /\
    (1 <= year dt)%Z /\ (day dt <= days_in_month (year dt) (month dt))%Z.

(** *** Characters *)

Lemma digit_char_code c : 48 <= code c -> c = digit_char (code c - 48).
Proof.
  intros H. unfold digit_char, code in *.
  replace (48 + (nat_of_ascii c - 48)) with (nat_of_ascii c) by lia.
  now rewrite ascii_nat_embedding.
Qed.

Lemma between_inv lo hi c :
  48 <= lo -> hi <= 57 -> between lo hi c = true ->
  exists k, k < 10 /\ c = digit_char k /\ lo <= 48 + k <= hi.
Proof.
  intros Hlo Hhi H. unfold between in H. apply andb_true_iff in H as [H1 H2].
  apply Nat.leb_le in H1, H2. exists (code c - 48).
  split; [lia|]. split; [apply digit_char_code; lia | lia].
Qed.

Lemma isdigit_inv c : isdigit c = true -> exists k, k < 10 /\ c = digit_char k.
Proof.
  intros H. destruct (between_inv 48 57 c) as (k & Hk & Hc & _); try exact H; try lia.
  now exists k.
Qed.

Lemma space_not_between lo hi c : isspace c = true -> 48 <= lo -> between lo hi c = false.
Proof.
  intros Hs Hlo. unfold isspace, between in *.
  apply orb_true_iff in Hs as [Hs | Hs]; apply andb_true_iff in Hs as [_ Hs];
    apply Nat.leb_le in Hs; apply andb_false_iff; left; apply Nat.leb_gt; lia.
Qed.

Lemma isspace_digit_char k : k < 10 -> isspace (digit_char k) = false.
Proof. apply isspace_digit. Qed.

(** *** Appending *)

Lemma append_cons c x y : String c x +:+ y = String c (x +:+ y).
Proof. reflexivity. Qed.

Lemma append_empty_r x : x +:+ EmptyString = x.
Proof. induction x as [|c x IH]; [reflexivity|]. now rewrite append_cons, IH. Qed.

(** *** What a candidate of a matcher looks like *)

Lemma in_class p s x r :
  In (x, r) (class p s) ->
  exists c, s = String c r /\ x = String c EmptyString /\ p c = true.
Proof.
  unfold class. destruct s as [|c s]; [intros H; destruct H|].
  destruct (p c) eqn:Hc; intros H; [|destruct H].
  destruct H as [[= <- <-] | H]; [|destruct H]. now exists c.
Qed.

Lemma in_bind {A B} (m : matcher A) (k : A -> matcher B) s y :
  In y (bind m k s) -> exists x r, In (x, r) (m s) /\ In y (k x r).
Proof.
  unfold bind. intros H. apply in_flat_map in H as ([x r] & Hin & Hy).
  now exists x, r.
Qed.

Lemma in_ret {A} (a : A) s y : In y (ret a s) -> y = (a, s).
Proof. unfold ret. intros H. destruct H as [<- | H]; [reflexivity | destruct H]. Qed.

Lemma in_cat m1 m2 s x r :
  In (x, r) (cat m1 m2 s) ->
  exists a r1 b, In (a, r1) (m1 s) /\ In (b, r) (m2 r1) /\ x = a +:+ b.
Proof.
  unfold cat. intros H.
  apply in_bind in H as (a & r1 & Ha & H).
  apply in_bind in H as (b & r2 & Hb & H).
  apply in_ret in H. injection H as -> ->. now exists a, r1, b.
Qed.

Lemma in_cat2 p q s x r :
  In (x, r) (cat (class p) (class q) s) ->
  exists a b, s = String a (String b r) /\ x = String a (String b EmptyString) /\
              p a = true /\ q b = true.
Proof.
  intros H. apply in_cat in H as (a & r1 & b & Ha & Hb & ->).
  apply in_class in Ha as (ca & -> & -> & Hpa).
  apply in_class in Hb as (cb & -> & -> & Hqb).
  now exists ca, cb.
Qed.

Lemma in_alt {A} (m1 m2 : matcher A) s y :
  In y (alt m1 m2 s) -> In y (m1 s) \/ In y (m2 s).
Proof. unfold alt. apply in_app_or. Qed.

Lemma in_star p s x r :
  In (x, r) (star p s) -> s = x +:+ r /\ all_chars p x = true.
Proof.
  revert x r. induction s as [|c s IH]; intros x r; cbn [star].
  - intros H. destruct H as [[= <- <-] | H]; [now split | destruct H].
  - destruct (p c) eqn:Hc.
    + intros H. apply in_app_or in H as [H | H].
      * apply in_map_iff in H as ([x' r'] & [= <- <-] & Hin).
        destruct (IH _ _ Hin) as [-> Hx]. cbn [fst snd all_chars].
        split; [reflexivity | now rewrite Hc].
      * destruct H as [[= <- <-] | H]; [now split | destruct H].
    + intros H. destruct H as [[= <- <-] | H]; [now split | destruct H].
Qed.

Lemma in_plus p s x r :
  In (x, r) (plus p s) -> s = x +:+ r /\ is_empty x = false /\ all_chars p x = true.
Proof.
  unfold plus. intros H. apply in_cat in H as (a & r1 & b & Ha & Hb & ->).
  apply in_class in Ha as (c & -> & -> & Hc).
  apply in_star in Hb as [-> Hb].
  split; [reflexivity|]. split; [reflexivity|].
  rewrite append_cons. cbn [all_chars]. now rewrite Hc.
Qed.

Lemma in_lit c s x r : In (x, r) (lit c s) -> s = String c r.
Proof.
  unfold lit. intros H. apply in_class in H as (c' & -> & _ & Hc).
  apply Ascii.eqb_eq in Hc. now subst c'.
Qed.

(** *** The groups: every candidate has the form *)

Ltac digit_of H k :=
  let Hk := fresh "Hk" in let Hr := fresh "Hr" in
  apply between_inv in H as (k & Hk & -> & Hr); [|lia|lia].

Ltac char_of H := apply Ascii.eqb_eq in H; subst.

Lemma re_Y_in s x r :
  In (x, r) (re_Y s) -> s = x +:+ r /\ exists n, year_field x n.
Proof.
  unfold re_Y. intros H.
  apply in_cat in H as (a & r1 & x1 & Ha & H & ->).
  apply in_cat in H as (b & r2 & x2 & Hb & H & ->).
  apply in_cat in H as (c & r3 & x3 & Hc & Hd & ->).
  apply in_class in Ha as (ca & -> & -> & Ha).
  apply in_class in Hb as (cb & -> & -> & Hb).
  apply in_class in Hc as (cc & -> & -> & Hc).
  apply in_class in Hd as (cd & -> & -> & Hd).
  apply isdigit_inv in Ha as (ka & Hka & ->). apply isdigit_inv in Hb as (kb & Hkb & ->).
  apply isdigit_inv in Hc as (kc & Hkc & ->). apply isdigit_inv in Hd as (kd & Hkd & ->).
  split; [reflexivity|]. eexists. now apply (year_four ka kb kc kd).
Qed.

Lemma field_two_of lo hi a b :
  a < 10 -> b < 10 -> (lo <= 10 * Z.of_nat a + Z.of_nat b <= hi)%Z ->
  exists n, field lo hi (String (digit_char a) (String (digit_char b) EmptyString)) n.
Proof. intros Ha Hb Hr. eexists. now apply (field_two lo hi a b). Qed.

Lemma field_one_of lo hi a :
  a < 10 -> (lo <= Z.of_nat a <= hi)%Z ->
  exists n, field lo hi (String (digit_char a) EmptyString) n.
Proof. intros Ha Hr. eexists. now apply (field_one lo hi a). Qed.

Lemma re_m_in s x r :
  In (x, r) (re_m s) -> s = x +:+ r /\ exists n, field 1 12 x n.
Proof.
  unfold re_m. intros H.
  apply in_alt in H as [H | H]; [|apply in_alt in H as [H | H]].
  - apply in_cat2 in H as (a & b & -> & -> & Ha & Hb).
    char_of Ha. digit_of Hb kb. split; [reflexivity|].
    apply (field_two_of 1 12 1 kb); lia.
  - apply in_cat2 in H as (a & b & -> & -> & Ha & Hb).
    char_of Ha. digit_of Hb kb. split; [reflexivity|].
    apply (field_two_of 1 12 0 kb); lia.
  - apply in_class in H as (a & -> & -> & Ha).
    digit_of Ha ka. split; [reflexivity|]. apply field_one_of; lia.
Qed.

Lemma re_d_in s x r :
  In (x, r) (re_d s) -> s = x +:+ r /\ exists n, day_field x n.
Proof.
  unfold re_d. intros H.
  apply in_alt in H as [H | H]; [|apply in_alt in H as [H | H];
    [|apply in_alt in H as [H | H]; [|apply in_alt in H as [H | H]]]].
  - apply in_cat2 in H as (a & b & -> & -> & Ha & Hb).
    char_of Ha. digit_of Hb kb. split; [reflexivity|].
    destruct (field_two_of 1 31 3 kb) as [n Hn]; try lia. exists n. now constructor.
  - apply in_cat2 in H as (a & b & -> & -> & Ha & Hb).
    digit_of Ha ka. apply isdigit_inv in Hb as (kb & Hkb & ->). split; [reflexivity|].
    destruct (field_two_of 1 31 ka kb) as [n Hn]; try lia. exists n. now constructor.
  - apply in_cat2 in H as (a & b & -> & -> & Ha & Hb).
    char_of Ha. digit_of Hb kb. split; [reflexivity|].
    destruct (field_two_of 1 31 0 kb) as [n Hn]; try lia. exists n. now constructor.
  - apply in_class in H as (a & -> & -> & Ha).
    digit_of Ha ka. split; [reflexivity|].
    destruct (field_one_of 1 31 ka) as [n Hn]; try lia. exists n. now constructor.
  - apply in_cat2 in H as (a & b & -> & -> & Ha & Hb).
    char_of Ha. digit_of Hb kb. split; [reflexivity|].
    eexists. apply (day_spaced kb). lia.
Qed.

Lemma re_H_in s x r :
  In (x, r) (re_H s) -> s = x +:+ r /\ exists n, field 0 23 x n.
Proof.
  unfold re_H. intros H.
  apply in_alt in H as [H | H]; [|apply in_alt in H as [H | H]].
  - apply in_cat2 in H as (a & b & -> & -> & Ha & Hb).
    char_of Ha. digit_of Hb kb. split; [reflexivity|].
    apply (field_two_of 0 23 2 kb); lia.
  - apply in_cat2 in H as (a & b & -> & -> & Ha & Hb).
    digit_of Ha ka. apply isdigit_inv in Hb as (kb & Hkb & ->). split; [reflexivity|].
    apply (field_two_of 0 23 ka kb); lia.
  - apply in_class in H as (a & -> & -> & Ha).
    apply isdigit_inv in Ha as (ka & Hka & ->). split; [reflexivity|].
    apply field_one_of; lia.
Qed.

Lemma re_M_in s x r :
  In (x, r) (re_M s) -> s = x +:+ r /\ exists n, field 0 59 x n.
Proof.
  unfold re_M. intros H. apply in_alt in H as [H | H].
  - apply in_cat2 in H as (a & b & -> & -> & Ha & Hb).
    digit_of Ha ka. apply isdigit_inv in Hb as (kb & Hkb & ->). split; [reflexivity|].
    apply (field_two_of 0 59 ka kb); lia.
  - apply in_class in H as (a & -> & -> & Ha).
    apply isdigit_inv in Ha as (ka & Hka & ->). split; [reflexivity|].
    apply field_one_of; lia.
Qed.

(** *** The value of a group *)

Lemma int_one a : a < 10 -> int (digit a) = Z.of_nat a.
Proof.
  intros Ha. unfold int, strip, digit.
  rewrite lstrip_head by now apply isspace_digit.
  rewrite rstrip_none by (cbn [all_chars]; now rewrite !isspace_digit).
  cbn [int_digits]. rewrite digit_val_digit by assumption. lia.
Qed.

Lemma field_int lo hi x n : field lo hi x n -> int x = n.
Proof.
  intros [a Ha _ | a b Ha Hb _]; [exact (int_one a Ha) | exact (int_two a b Ha Hb)].
Qed.

Lemma day_field_int d n : day_field d n -> int d = n.
Proof.
  intros [d' n' H | a Ha]; [exact (field_int _ _ _ _ H)|].
  unfold int, strip, digit.
  change (lstrip_by isspace (String " " (String (digit_char a) EmptyString)))
    with (lstrip_by isspace (String (digit_char a) EmptyString)).
  rewrite lstrip_head by (apply isspace_digit; lia).
  rewrite rstrip_none by (cbn [all_chars]; rewrite isspace_digit by lia; reflexivity).
  cbn [int_digits]. rewrite digit_val_digit by lia. lia.
Qed.

Lemma year_field_int Y n : year_field Y n -> int Y = n.
Proof. intros [a b c d Ha Hb Hc Hd]. exact (int_four a b c d Ha Hb Hc Hd). Qed.

Lemma field_bounds lo hi x n : field lo hi x n -> (lo <= n <= hi)%Z.
Proof. intros [a _ H | a b _ _ H]; exact H. Qed.

Lemma day_field_bounds d n : day_field d n -> (1 <= n <= 31)%Z.
Proof. intros [d' n' H | a Ha]; [exact (field_bounds _ _ _ _ H) | lia]. Qed.

Lemma year_field_bounds Y n : year_field Y n -> (0 <= n <= 9999)%Z.
Proof. intros [a b c d Ha Hb Hc Hd]. unfold num4. lia. Qed.

(** The form fixes the value. *)
Lemma field_value lo hi x n n' : field lo hi x n -> int x = n' -> n' = n.
Proof. intros H <-. exact (field_int _ _ _ _ H). Qed.

(** *** Every parsed string has the form *)

Lemma date_regex_in s Y m d H M rest :
  In ((Y, m, d, H, M), rest) (date_regex s) ->
  exists sep,
    s = Y +:+ "-" +:+ m +:+ "-" +:+ d +:+ sep +:+ H +:+ ":" +:+ M +:+ rest /\
    (exists n, year_field Y n) /\ (exists n, field 1 12 m n) /\
    (exists n, day_field d n) /\ blank sep /\
    (exists n, field 0 23 H n) /\ (exists n, field 0 59 M n).
Proof.
  unfold date_regex. intros Hin.
  apply in_bind in Hin as (Y' & r1 & HY & Hin).
  apply in_bind in Hin as (x1 & r2 & H1 & Hin).
  apply in_bind in Hin as (m' & r3 & Hm & Hin).
  apply in_bind in Hin as (x2 & r4 & H2 & Hin).
  apply in_bind in Hin as (d' & r5 & Hd & Hin).
  apply in_bind in Hin as (sep & r6 & Hs & Hin).
  apply in_bind in Hin as (H' & r7 & HH & Hin).
  apply in_bind in Hin as (x3 & r8 & H3 & Hin).
  apply in_bind in Hin as (M' & r9 & HM & Hin).
  apply in_ret in Hin. injection Hin as <- <- <- <- <- <-.
  apply re_Y_in in HY as [-> HY]. apply in_lit in H1 as ->.
  apply re_m_in in Hm as [-> Hm]. apply in_lit in H2 as ->.
  apply re_d_in in Hd as [-> Hd]. apply in_plus in Hs as (-> & Hs1 & Hs2).
  apply re_H_in in HH as [-> HH]. apply in_lit in H3 as ->.
  apply re_M_in in HM as [-> HM].
  exists sep. split; [reflexivity|].
  split; [exact HY|]. split; [exact Hm|]. split; [exact Hd|].
  split; [now split|]. split; [exact HH | exact HM].
Qed.

Lemma strptime_inv s dt :
  strptime s = Some dt ->
  exists Y m d H M,
    In ((Y, m, d, H, M), EmptyString) (date_regex s) /\
    valid_fields (int Y) (int m) (int d) (int H) (int M) = true /\
    dt = mk_datetime (int Y) (int m) (int d) (int H) (int M).
Proof.
  unfold strptime, first_match.
  destruct (date_regex s) as [|[[[[[Y m] d] H] M] rest] l] eqn:Hl; [discriminate|].
  cbn [hd_error]. destruct rest; cbn [is_empty]; [|discriminate].
  destruct (valid_fields _ _ _ _ _) eqn:Hv; [|discriminate].
  intros [= <-]. exists Y, m, d, H, M. split; [now left | now split].
Qed.

Lemma strptime_accepted s dt : strptime s = Some dt -> accepted s dt.
Proof.
  intros Hs. apply strptime_inv in Hs as (Y & m & d & H & M & Hin & Hv & ->).
  apply date_regex_in in Hin
    as (sep & -> & [ny HY] & [nm Hm] & [nd Hd] & Hsep & [nh HH] & [nM HM]).
  rewrite (year_field_int _ _ HY), (field_int _ _ _ _ Hm), (day_field_int _ _ Hd),
    (field_int _ _ _ _ HH), (field_int _ _ _ _ HM) in *.
  unfold valid_fields in Hv. repeat (apply andb_true_iff in Hv as [Hv ?]).
  repeat match goal with H : (_ <=? _)%Z = true |- _ => apply Z.leb_le in H end.
  exists Y, m, d, sep, H, M. cbn [year month day hour minute].
  rewrite append_empty_r.
  split; [reflexivity|]. repeat (split; [assumption|]). assumption.
Qed.


(** *** Every string of the form is parsed *)

Lemma cat_class_second_miss p q a b r :
  q b = false -> cat (class p) (class q) (String a (String b r)) = [].
Proof.
  intros Hb. unfold cat. destruct (p a) eqn:Ha.
  - rewrite (bind_single _ _ _ _ _ (class_hit p a _ Ha)).
    unfold bind. rewrite (class_miss q b r Hb). reflexivity.
  - unfold bind. rewrite (class_miss p a _ Ha). reflexivity.
Qed.

Lemma cat_class_end p q a :
  cat (class p) (class q) (String a EmptyString) = [].
Proof.
  unfold cat. destruct (p a) eqn:Ha.
  - rewrite (bind_single _ _ _ _ _ (class_hit p a _ Ha)). reflexivity.
  - unfold bind. rewrite (class_miss p a _ Ha). reflexivity.
Qed.

Lemma re_Y_field Y n r : year_field Y n -> re_Y (Y +:+ r) = [(Y, r)].
Proof. intros [a b c d Ha Hb Hc Hd]. now apply re_Y_padded. Qed.

Lemma re_m_field m n r :
  field 1 12 m n -> exists l, re_m (m +:+ String "-" r) = (m, String "-" r) :: l.
Proof.
  intros [a Ha Hr | a b Ha Hb Hr].
  - change (digit a +:+ String "-" r) with (String (digit_char a) (String "-" r)).
    unfold re_m, alt, lit.
    rewrite !cat_class_second_miss by reflexivity.
    rewrite class_hit by (apply between_digit; lia). cbn [app]. eauto.
  - unfold digit. rewrite !append_cons.
    change (EmptyString +:+ (String "-" r)) with (String "-" r).
    apply (re_m_padded a b _ Ha Hb). unfold num2 in Hr. lia.
Qed.

Lemma re_d_field d n c r :
  day_field d n -> isspace c = true ->
  exists l, re_d (d +:+ String c r) = (d, String c r) :: l.
Proof.
  intros [d' n' [a Ha Hr | a b Ha Hb Hr] | a Ha] Hc.
  - change (digit a +:+ String c r) with (String (digit_char a) (String c r)).
    unfold re_d, alt, lit.
    rewrite (cat_class_second_miss _ (between 48 49)) by (apply space_not_between; [exact Hc | lia]).
    rewrite (cat_class_second_miss _ isdigit) by (apply space_not_between; [exact Hc | lia]).
    rewrite (cat_class_second_miss _ (between 49 57)) by (apply space_not_between; [exact Hc | lia]).
    rewrite class_hit by (apply between_digit; lia). cbn [app]. eauto.
  - unfold digit. rewrite !append_cons.
    change (EmptyString +:+ (String c r)) with (String c r).
    apply (re_d_padded a b _ Ha Hb). unfold num2 in Hr. lia.
  - change (String " " (digit a) +:+ String c r)
      with (String " " (String (digit_char a) (String c r))).
    unfold re_d, alt, lit.
    rewrite !(cat_class_miss _ _ " ") by reflexivity.
    rewrite (class_miss (between 49 57) " ") by reflexivity.
    rewrite cat_class_hit; [cbn [app]; eauto | reflexivity | apply between_digit; lia].
Qed.

Lemma re_H_field H n r :
  field 0 23 H n -> exists l, re_H (H +:+ String ":" r) = (H, String ":" r) :: l.
Proof.
  intros [a Ha Hr | a b Ha Hb Hr].
  - change (digit a +:+ String ":" r) with (String (digit_char a) (String ":" r)).
    unfold re_H, alt, lit.
    rewrite !cat_class_second_miss by reflexivity.
    rewrite class_hit by now apply isdigit_digit. cbn [app]. eauto.
  - unfold digit. rewrite !append_cons.
    change (EmptyString +:+ (String ":" r)) with (String ":" r).
    apply (re_H_padded a b _ Ha Hb). unfold num2 in Hr. lia.
Qed.

Lemma re_M_field M n : field 0 59 M n -> exists l, re_M M = (M, EmptyString) :: l.
Proof.
  intros [a Ha Hr | a b Ha Hb Hr].
  - unfold digit, re_M, alt. rewrite cat_class_end.
    rewrite class_hit by now apply isdigit_digit. cbn [app]. eauto.
  - unfold digit. apply (re_M_padded a b EmptyString Ha Hb). unfold num2 in Hr. lia.
Qed.

Lemma field_head lo hi x n :
  field lo hi x n -> exists k x', k < 10 /\ x = String (digit_char k) x'.
Proof. intros [a Ha _ | a b Ha _ _]; eexists _, _; (split; [exact Ha | reflexivity]). Qed.

(** The greedy star takes all the white space when a character that is
    not white space follows. *)
Lemma star_head p x h r :
  all_chars p x = true -> p h = false ->
  exists l, star p (x +:+ String h r) = (x, String h r) :: l.
Proof.
  intros Hx Hh. induction x as [|c x IH].
  - change (EmptyString +:+ String h r) with (String h r).
    rewrite (star_miss p h r Hh). eauto.
  - cbn [all_chars] in Hx. apply andb_true_iff in Hx as [Hc Hx].
    destruct (IH Hx) as [l Hl].
    rewrite append_cons. cbn [star]. rewrite Hc, Hl. cbn [map fst snd app]. eauto.
Qed.

Lemma plus_blank sep h r :
  blank sep -> isspace h = false ->
  exists l, plus isspace (sep +:+ String h r) = (sep, String h r) :: l.
Proof.
  intros [Hne Hall] Hh. destruct sep as [|c sep]; [discriminate Hne|].
  cbn [all_chars] in Hall. apply andb_true_iff in Hall as [Hc Hall].
  destruct (star_head isspace sep h r Hall Hh) as [l Hl].
  rewrite append_cons. unfold plus, cat.
  rewrite (bind_single _ _ _ _ _ (class_hit isspace c _ Hc)).
  unfold bind. rewrite Hl. cbn [flat_map fst snd]. unfold ret at 1. cbn [app]. eauto.
Qed.

Lemma valid_fields_intro y mo dd hh mi :
  (1 <= y <= 9999)%Z -> (1 <= mo <= 12)%Z -> (1 <= dd <= days_in_month y mo)%Z ->
  (0 <= hh <= 23)%Z -> (0 <= mi <= 59)%Z ->
  valid_fields y mo dd hh mi = true.
Proof.
  intros Hy Hm Hd Hh Hi. unfold valid_fields.
  repeat (apply andb_true_iff; split); apply Z.leb_le; lia.
Qed.

Lemma accepted_strptime s dt : accepted s dt -> strptime s = Some dt.
Proof.
  destruct dt as [y mo dd hh mi].
  intros (Y & m & d & sep & H & M & -> & HY & Hm & Hd & Hsep & HH & HM & Hy1 & Hdim).
  cbn [year month day hour minute] in *.
  destruct (field_head _ _ _ _ HH) as (hk & H' & Hhk & HeqH).
  assert (Hsep' : exists c sep', sep = String c sep' /\ isspace c = true).
  { destruct Hsep as [Hne Hall]. destruct sep as [|c sep']; [discriminate Hne|].
    cbn [all_chars] in Hall. apply andb_true_iff in Hall as [Hc _]. now exists c, sep'. }
  destruct Hsep' as (c & sep' & Heqsep & Hc).
  destruct (re_m_field m mo (d +:+ sep +:+ H +:+ ":" +:+ M) Hm) as [lm Hrm].
  destruct (re_d_field d dd c (sep' +:+ H +:+ ":" +:+ M) Hd Hc) as [ld Hrd].
  destruct (plus_blank sep (digit_char hk) (H' +:+ ":" +:+ M) Hsep
              (isspace_digit hk Hhk)) as [ls Hrs].
  destruct (re_H_field H hh M HH) as [lh HrH].
  destruct (re_M_field M mi HM) as [lM HrM].
  assert (Hfirst : first_match date_regex
            (Y +:+ "-" +:+ m +:+ "-" +:+ d +:+ sep +:+ H +:+ ":" +:+ M) =
          Some ((Y, m, d, H, M), EmptyString)).
  { unfold date_regex.
    eapply first_bind; [exact (re_Y_field Y y _ HY)|].
    eapply first_bind; [apply lit_hit|].
    eapply first_bind; [exact Hrm|].
    eapply first_bind; [apply lit_hit|].
    eapply first_bind.
    { rewrite Heqsep at 1. rewrite append_cons. rewrite Hrd.
      rewrite <- append_cons, <- Heqsep. reflexivity. }
    eapply first_bind.
    { rewrite HeqH at 1. rewrite append_cons. rewrite Hrs.
      rewrite <- append_cons, <- HeqH. reflexivity. }
    eapply first_bind; [exact HrH|].
    eapply first_bind; [apply lit_hit|].
    eapply first_bind; [exact HrM|].
    reflexivity. }
  unfold strptime. rewrite Hfirst. cbn [is_empty].
  rewrite (year_field_int _ _ HY), (field_int _ _ _ _ Hm), (day_field_int _ _ Hd),
    (field_int _ _ _ _ HH), (field_int _ _ _ _ HM).
  pose proof (year_field_bounds _ _ HY). pose proof (field_bounds _ _ _ _ Hm).
  pose proof (day_field_bounds _ _ Hd). pose proof (field_bounds _ _ _ _ HH).
  pose proof (field_bounds _ _ _ _ HM).
  rewrite valid_fields_intro by lia. reflexivity.
Qed.

(** On any text, parsing succeeds exactly on the strings of the form. *)
Lemma strptime_iff s dt : strptime s = Some dt <-> accepted s dt.
Proof. split; [apply strptime_accepted | apply accepted_strptime]. Qed.

Lemma not_accepted_strptime s : (forall dt, ~ accepted s dt) -> strptime s = None.
Proof.
  intros H. destruct (strptime s) as [dt|] eqn:Hs; [|reflexivity].
  now apply strptime_accepted, H in Hs.
Qed.

Lemma strptime_none_not_accepted s : strptime s = None -> forall dt, ~ accepted s dt.
Proof. intros Hs dt Ha. apply accepted_strptime in Ha. congruence. Qed.


(** C2 (as the code has it): timestamp validation accepts exactly the
    strings of the form [YYYY-M-D H:M]: a year of four digits from 0001
    on, a month from 1 to 12 and a day that this month has in this year,
    each written with one or two digits (the day also as a space and one
    digit), one or more white-space characters, an hour from 0 to 23 and
    a minute from 0 to 59, each with one or two digits, and nothing else.
    A string of the form parses to the timestamp it denotes and adds no
    issue; every other string of ASCII characters yields no timestamp and
    the one issue "invalid <kind> datetime".  The zero-padded strings of
    the format are of the form, so "2024-03-10 08:00" parses; so are
    "2024-3-10 08:00" and "2024-03-10 8:00", which denote the same
    timestamp; a string that is not a timestamp, lacks the time, uses
    other separators, names a day the month does not have, an hour 24, a
    month 13 or the year 0000, or goes on after the minute is rejected. *)
Theorem C2_timestamp_format_accepted :
  (forall value dt kind errors,
     accepted value dt -> parse_datetime value kind errors = (Some dt, errors)) /\
  (forall value kind errors,
     is_ascii value = true -> (forall dt, ~ accepted value dt) ->
     parse_datetime value kind errors =
       (None, errors ++ ["invalid " +:+ kind +:+ " datetime"])) /\
  (forall y1 y2 y3 y4 m1 m2 d1 d2 h1 h2 n1 n2,
     Forall (fun k => k < 10) [y1; y2; y3; y4; m1; m2; d1; d2; h1; h2; n1; n2] ->
     valid_fields (num4 y1 y2 y3 y4) (num2 m1 m2) (num2 d1 d2)
       (num2 h1 h2) (num2 n1 n2) = true ->
     strict_format (padded y1 y2 y3 y4 m1 m2 d1 d2 h1 h2 n1 n2) = true /\
     accepted (padded y1 y2 y3 y4 m1 m2 d1 d2 h1 h2 n1 n2)
       (mk_datetime (num4 y1 y2 y3 y4) (num2 m1 m2) (num2 d1 d2)
          (num2 h1 h2) (num2 n1 n2))) /\
  accepted "2024-03-10 08:00" (mk_datetime 2024 3 10 8 0) /\
  accepted "2024-3-10 08:00" (mk_datetime 2024 3 10 8 0) /\
  accepted "2024-03-10 8:00" (mk_datetime 2024 3 10 8 0) /\
  Forall (fun s => is_ascii s = true /\ forall dt, ~ accepted s dt)
    ["garbage"; "2024-03-10"; "2024/03/10 08:00"; "2024-03-10T08:00";
     "2023-02-31 10:00"; "2024-03-10 24:00"; "2024-13-01 08:00";
     "0000-03-10 08:00"; "24-03-10 08:00"; "2024-03-10 08:00:00"].
Proof.
  split; [|split; [|split; [|split; [|split; [|split]]]]].
  - intros value dt kind errors Ha. unfold parse_datetime.
    now rewrite (accepted_strptime _ _ Ha).
  - intros value kind errors _ Hn. unfold parse_datetime.
    now rewrite (not_accepted_strptime _ Hn).
  - intros y1 y2 y3 y4 m1 m2 d1 d2 h1 h2 n1 n2 Hdig Hvalid. split.
    + repeat (apply Forall_cons in Hdig as [? Hdig]).
      unfold strict_format, padded. cbn [String.length String.substring Nat.eqb].
      cbn [all_chars]. rewrite !isdigit_digit by assumption. reflexivity.
    + apply strptime_accepted. now apply padded_parses.
  - apply strptime_accepted. vm_compute. reflexivity.
  - apply strptime_accepted. vm_compute. reflexivity.
  - apply strptime_accepted. vm_compute. reflexivity.
  - repeat constructor; try (apply strptime_none_not_accepted; vm_compute; reflexivity).
Qed.

(** An unpadded timestamp is read and a date without a time is reported,
    through the theorem. *)
Lemma C2_witness :
  parse_datetime "2024-3-10 8:05" "departure" [] =
    (Some (mk_datetime 2024 3 10 8 5), []) /\
  parse_datetime "2024-03-10" "arrival" ["invalid departure datetime"] =
    (None, ["invalid departure datetime"; "invalid arrival datetime"]).
Proof.
  split.
  - apply (proj1 C2_timestamp_format_accepted).
    exists "2024", "3", "10", " ", "8", "05".
    split; [reflexivity|].
    split; [exact (year_four 2 0 2 4 ltac:(lia) ltac:(lia) ltac:(lia) ltac:(lia))|].
    split; [apply (field_one 1 12 3); unfold num2; lia|].
    split; [apply day_plain, (field_two 1 31 1 0); unfold num2; lia|].
    split; [split; reflexivity|].
    split; [apply (field_one 0 23 8); unfold num2; lia|].
    split; [apply (field_two 0 59 0 5); unfold num2; lia|].
    split; [cbn; lia | vm_compute; discriminate].
  - apply (proj1 (proj2 C2_timestamp_format_accepted) "2024-03-10" "arrival").
    + reflexivity.
    + apply strptime_none_not_accepted. vm_compute. reflexivity.
Defined.

End TimestampForm.

(** ** Range bounds that are not timestamps *)

Module BoundTheorems.

Import PyStr Flight Query QueryFacts QueryTheorems StrptimeTheorems AsciiText TimestampForm.

(** A bound that timestamp parsing does not accept: a value that is not
    a string, or a string that is not of the accepted form. *)
Definition not_a_timestamp (v : json) : Prop :=
  forall s, v = JStr s -> is_ascii s = true /\ forall dt, ~ accepted s dt.

Lemma not_a_timestamp_raises v :
  not_a_timestamp v -> exists e, strptime_value v = Raise e.
Proof.
  intros Hv. apply strptime_value_raises.
  destruct v as [| | | |s| |]; try reflexivity.
  cbn [is_timestamp]. destruct (Hv s eq_refl) as [_ Hn].
  now rewrite (not_accepted_strptime s Hn).
Qed.

(** C10 (as the code has it): when the departure or the arrival bound of
    a query is present and is not a timestamp that the parser accepts
    (it is not a string, or a string that is not of the form
    [YYYY-M-D H:M] of the timestamp validation), the matcher raises, and
    raises the same exception for every list of flights, the empty one
    included: the bound is read before the loop.  A key that is not one
    of the six recognized keys is ignored instead, whatever its value. *)
Theorem C10_malformed_bound_raises_before_the_loop
    (query : gmap string json) (key : string) (v : json) :
  key = "departure_datetime" \/ key = "arrival_datetime" ->
  query !! key = Some v ->
  not_a_timestamp v ->
  (exists e, forall flights, filter_flights flights query = Raise e) /\
  (forall other w flights,
     ~ In other recognized_keys ->
     filter_flights flights (<[other := w]> query) = filter_flights flights query).
Proof.
  intros Hkey Hv Hbad. split.
  - destruct (not_a_timestamp_raises v Hbad) as [e He].
    pose proof (read_bound_raises query key v e Hv He) as Hr.
    unfold filter_flights.
    destruct Hkey as [-> | ->].
    + exists e. intros flights. rewrite Hr. reflexivity.
    + destruct (read_bound query "departure_datetime") as [d|e'] eqn:Hd.
      * exists e. intros flights. simpl. rewrite Hr. reflexivity.
      * exists e'. intros flights. reflexivity.
  - intros other w flights Hother. now apply unrecognized_key_ignored.
Qed.

(** A date without a time is not of the form: the matcher raises, also on
    an empty list of flights. *)
Lemma C10_witness :
  (exists e, forall flights, filter_flights flights date_only_query = Raise e) /\
  (forall other w flights,
     ~ In other recognized_keys ->
     filter_flights flights (<[other := w]> date_only_query) =
       filter_flights flights date_only_query).
Proof.
  apply (C10_malformed_bound_raises_before_the_loop
           date_only_query "departure_datetime" (JStr "2024-03-15")).
  - left. reflexivity.
  - vm_compute. reflexivity.
  - intros s [= <-]. split; [reflexivity|].
    apply strptime_none_not_accepted. vm_compute. reflexivity.
Defined.

Definition since_march_unpadded : gmap string json :=
  <["departure_datetime" := JStr "2024-3-1 0:00"]> ∅.

(** The claim has every bound that is not in the form [YYYY-MM-DD HH:MM]
    abort the evaluation.  A bound written without zero padding is not in
    that form, and the matcher returns a match list. *)
Lemma C10_counterexample :
  since_march_unpadded !! "departure_datetime" = Some (JStr "2024-3-1 0:00") /\
  strict_format "2024-3-1 0:00" = false /\
  filter_flights [flight_a; flight_b] since_march_unpadded = Ok [flight_a; flight_b].
Proof. repeat split; vm_compute; reflexivity. Qed.

End BoundTheorems.

(** ** The theorems at work on sample lines *)

Module Examples.

Import PyStr Flight FlightFacts ValidatorTheorems AirportTheorems.

Definition good_line : string := "AB12,LHR,JFK,2024-03-10 08:00,2024-03-10 10:00,12.5".

(** A valid line: the six checks pass, the arrival is later, and the
    record is built. *)
Lemma C1_witness :
  all_fields_ok "AB12" "LHR" "JFK" "2024-03-10 08:00" "2024-03-10 10:00" "12.5" = true /\
  arrival_after_departure "2024-03-10 08:00" "2024-03-10 10:00" = true /\
  exists fl, fst (validate_and_build_flight good_line 1) = Some fl.
Proof.
  split; [reflexivity|]. split; [reflexivity|].
  apply (proj1 (C1_record_iff_all_valid good_line 1
                  "AB12" "LHR" "JFK" "2024-03-10 08:00" "2024-03-10 10:00" "12.5"
                  eq_refl)).
  split; reflexivity.
Defined.

(** Three fields instead of six. *)
Lemma C4_witness :
  validate_and_build_flight "a,b,c" 7 =
    (None, Some (line_prefix 7 "a,b,c" +:+ "missing required fields")).
Proof.
  apply (C4_wrong_field_count "a,b,c" 7). vm_compute. discriminate.
Defined.

(** A listed code passes; one of the right shape that is not listed gets
    the message. *)
Lemma C7_witness :
  check_airport "RIX" "origin" [] = [] /\
  check_airport "XXX" "origin" [] = ["invalid origin code"].
Proof.
  split.
  - apply (proj2 (proj1 (proj2 (C7_airport_code_whitelist "RIX" "origin" [])))).
    vm_compute. reflexivity.
  - exact (proj1 (proj2 (proj2 (proj2 (proj2
             (C7_airport_code_whitelist "XXX" "origin" [])))))).
Defined.

End Examples.

(** * Further properties of the parser and the matcher *)

Module IngestMore.

Import PyStr Flight FlightFacts ValidatorTheorems Ingest IngestTheorems Sources.

Definition no_state : state := ([], []).

Lemma process_header lineno raw_line st :
  is_blank raw_line = false -> is_header lineno raw_line = true ->
  process_line lineno raw_line st = st.
Proof.
  unfold is_blank, is_header, process_line. intros -> ->. reflexivity.
Qed.

(** Every line is of exactly one of four kinds. *)
Lemma line_kinds lineno raw_line :
  is_blank raw_line = true \/
  (is_blank raw_line = false /\ is_header lineno raw_line = true) \/
  is_comment raw_line = true \/
  is_data lineno raw_line = true.
Proof.
  unfold is_data.
  destruct (is_blank raw_line); [now left|].
  destruct (is_header lineno raw_line); [right; left; now split|].
  destruct (is_comment raw_line); [right; right; now left|].
  right; right; right. reflexivity.
Qed.

(** What one line adds does not depend on what is already there. *)
Lemma process_line_appends lineno raw_line (st : state) :
  process_line lineno raw_line st =
    (fst st ++ fst (process_line lineno raw_line no_state),
     snd st ++ snd (process_line lineno raw_line no_state)).
Proof.
  destruct st as [v e]. unfold no_state.
  destruct (line_kinds lineno raw_line) as [Hb | [[Hb Hh] | [Hc | Hd]]].
  - rewrite !(process_blank _ _ _ Hb). cbn [fst snd]. now rewrite !app_nil_r.
  - rewrite !(process_header _ _ _ Hb Hh). cbn [fst snd]. now rewrite !app_nil_r.
  - rewrite !(process_comment _ _ _ Hc). cbn [fst snd app]. now rewrite app_nil_r.
  - rewrite !(process_data _ _ _ Hd).
    destruct (validate_and_build_flight (rstrip_newline raw_line) lineno) as [[f|] [m|]];
      cbn [fst snd app]; now rewrite ?app_nil_r.
Qed.

Lemma parse_lines_appends lineno lines (st : state) :
  parse_lines lineno lines st =
    (fst st ++ fst (parse_lines lineno lines no_state),
     snd st ++ snd (parse_lines lineno lines no_state)).
Proof.
  revert lineno st. induction lines as [|raw rest IH]; intros lineno st.
  - cbn [parse_lines no_state fst snd]. rewrite !app_nil_r. now destruct st.
  - cbn [parse_lines].
    rewrite (IH (S lineno) (process_line lineno raw st)).
    rewrite (IH (S lineno) (process_line lineno raw no_state)).
    rewrite (process_line_appends lineno raw st).
    cbn [fst snd]. now rewrite !app_assoc.
Qed.

(** X1: a pass only appends.  The flights and diagnostics already in the
    two lists are kept, in place and unchanged, and what the file adds is
    what it would add to empty lists. *)
Theorem parse_csv_file_only_appends lines (st : state) :
  parse_csv_file lines st =
    (fst st ++ fst (parse_csv_file lines ([], [])),
     snd st ++ snd (parse_csv_file lines ([], []))).
Proof. apply parse_lines_appends. Qed.

Lemma parse_sources_from (files : list (list string)) (st : state) :
  fold_left (fun st lines => parse_csv_file lines st) files st =
    (fst st ++ concat (map (fun lines => fst (parse_csv_file lines ([], []))) files),
     snd st ++ concat (map (fun lines => snd (parse_csv_file lines ([], []))) files)).
Proof.
  revert st. induction files as [|lines rest IH]; intros st.
  - cbn [fold_left map concat]. rewrite !app_nil_r. now destruct st.
  - cbn [fold_left map concat]. rewrite IH.
    change (parse_csv_file lines st) with (parse_lines 1 lines st).
    rewrite (parse_lines_appends 1 lines st). cbn [fst snd].
    change (parse_lines 1 lines no_state) with (parse_csv_file lines ([], [])).
    now rewrite !app_assoc.
Qed.

(** X2: with several files, the records and the diagnostics are those of
    each file parsed on its own (so numbered from line 1, with its own
    header line), concatenated in the order of the files. *)
Theorem parse_sources_concatenates (files : list (list string)) :
  parse_sources files =
    (concat (map (fun lines => fst (parse_csv_file lines ([], []))) files),
     concat (map (fun lines => snd (parse_csv_file lines ([], []))) files)).
Proof. unfold parse_sources. now rewrite parse_sources_from. Qed.

(** *** Every line is accounted for *)

(** The lines that are neither blank nor the header of line 1. *)
Fixpoint count_entries (lineno : nat) (lines : list string) : nat :=
  match lines with
  | [] => 0
  | raw_line :: rest =>
      (if is_blank raw_line || is_header lineno raw_line then 0 else 1)
      + count_entries (S lineno) rest
  end.

Lemma process_line_count lineno raw_line :
  length (fst (process_line lineno raw_line no_state)) +
  length (snd (process_line lineno raw_line no_state)) =
    if is_blank raw_line || is_header lineno raw_line then 0 else 1.
Proof.
  unfold no_state.
  destruct (line_kinds lineno raw_line) as [Hb | [[Hb Hh] | [Hc | Hd]]].
  - rewrite (process_blank _ _ _ Hb), Hb. reflexivity.
  - rewrite (process_header _ _ _ Hb Hh), Hb, Hh. reflexivity.
  - rewrite (process_comment _ _ _ Hc).
    destruct (comment_not_blank_nor_header lineno _ Hc) as [-> ->]. reflexivity.
  - rewrite (process_data _ _ _ Hd).
    unfold is_data in Hd. apply andb_true_iff in Hd as [Hd _].
    apply andb_true_iff in Hd as [Hb Hh]. apply negb_true_iff in Hb, Hh.
    rewrite Hb, Hh.
    destruct (validate_outcome (rstrip_newline raw_line) lineno) as [[fl ->] | [e ->]];
      reflexivity.
Qed.

Lemma parse_lines_count lineno lines :
  length (fst (parse_lines lineno lines no_state)) +
  length (snd (parse_lines lineno lines no_state)) = count_entries lineno lines.
Proof.
  revert lineno. induction lines as [|raw rest IH]; intros lineno; [reflexivity|].
  cbn [parse_lines count_entries].
  rewrite (parse_lines_appends (S lineno) rest (process_line lineno raw no_state)).
  cbn [fst snd]. rewrite !length_app.
  pose proof (process_line_count lineno raw) as Hl.
  pose proof (IH (S lineno)) as Hr. lia.
Qed.

(** X3: nothing is dropped and nothing is counted twice.  A pass leaves
    exactly one entry, a record or a diagnostic, for every line that is not
    blank and is not a header on line 1; so the two lists together are
    never longer than the file. *)
Theorem every_line_accounted_for lines :
  length (fst (parse_csv_file lines ([], []))) +
  length (snd (parse_csv_file lines ([], []))) = count_entries 1 lines /\
  count_entries 1 lines <= length lines.
Proof.
  split; [apply parse_lines_count|].
  generalize 1. induction lines as [|raw rest IH]; intros n; [reflexivity|].
  cbn [count_entries length]. specialize (IH (S n)).
  destruct (is_blank raw || is_header n raw); lia.
Qed.

(** *** Diagnostics name their line *)

Lemma validate_message_shape line lineno fl e :
  validate_and_build_flight line lineno = (fl, Some e) ->
  exists reason, e = line_prefix lineno line +:+ reason.
Proof.
  unfold validate_and_build_flight.
  destruct (map strip (split "," line)) as [|a [|b [|c [|d [|x [|f [|g l]]]]]]];
    try (intros [= _ <-]; eexists; reflexivity).
  destruct (collect_issues a b c d x f) as [p [|i l]]; [discriminate|].
  intros [= _ <-]. eexists; reflexivity.
Qed.

Lemma process_line_diagnostic lineno raw_line d :
  In d (snd (process_line lineno raw_line no_state)) ->
  exists text reason,
    d = line_prefix lineno text +:+ reason /\
    (text = rstrip_newline raw_line \/ text = strip (rstrip_newline raw_line)).
Proof.
  unfold no_state.
  destruct (line_kinds lineno raw_line) as [Hb | [[Hb Hh] | [Hc | Hd]]].
  - rewrite (process_blank _ _ _ Hb). intros Hin. destruct Hin.
  - rewrite (process_header _ _ _ Hb Hh). intros Hin. destruct Hin.
  - rewrite (process_comment _ _ _ Hc). cbn [snd app]. intros Hin.
    destruct Hin as [<- | Hin]; [|destruct Hin].
    eexists _, _. split; [reflexivity | now right].
  - rewrite (process_data _ _ _ Hd).
    destruct (validate_and_build_flight (rstrip_newline raw_line) lineno)
      as [fl [e|]] eqn:Hv.
    + destruct (validate_message_shape _ _ _ _ Hv) as [reason ->].
      destruct fl; cbn [snd app]; intros Hin;
        (destruct Hin as [<- | Hin]; [|destruct Hin]);
        eexists _, _; (split; [reflexivity | now left]).
    + destruct fl; intros Hin; destruct Hin.
Qed.

Lemma parse_lines_diagnostic lineno lines d :
  In d (snd (parse_lines lineno lines no_state)) ->
  exists i raw_line text reason,
    lines !! i = Some raw_line /\
    d = line_prefix (lineno + i) text +:+ reason /\
    (text = rstrip_newline raw_line \/ text = strip (rstrip_newline raw_line)).
Proof.
  revert lineno. induction lines as [|raw rest IH]; intros lineno;
    [intros Hin; destruct Hin|].
  cbn [parse_lines].
  rewrite (parse_lines_appends (S lineno) rest (process_line lineno raw no_state)).
  cbn [snd]. intros Hin. apply in_app_or in Hin as [Hin | Hin].
  - destruct (process_line_diagnostic _ _ _ Hin) as (text & reason & -> & Ht).
    exists 0, raw, text, reason. rewrite Nat.add_0_r. repeat split. exact Ht.
  - destruct (IH _ Hin) as (i & r & text & reason & Hi & -> & Ht).
    exists (S i), r, text, reason. split; [exact Hi|].
    split; [|exact Ht]. f_equal. f_equal. lia.
Qed.

(** X4: every diagnostic of a pass starts with ["Line n: text"], where
    [n] is the 1-based position of a line of the file and [text] is that
    line without its newline (stripped, for a comment line). *)
Theorem diagnostics_name_their_line lines d :
  In d (snd (parse_csv_file lines ([], []))) ->
  exists i raw_line text reason,
    lines !! i = Some raw_line /\
    d = line_prefix (S i) text +:+ reason /\
    (text = rstrip_newline raw_line \/ text = strip (rstrip_newline raw_line)).
Proof. apply (parse_lines_diagnostic 1). Qed.

Lemma diagnostics_name_their_line_witness :
  exists i raw_line text reason,
    ["AB12,LHR"; "# note"] !! i = Some raw_line /\
    line_prefix 2 "# note" +:+ "comment line, ignored for data parsing" =
      line_prefix (S i) text +:+ reason /\
    (text = rstrip_newline raw_line \/ text = strip (rstrip_newline raw_line)).
Proof.
  apply (diagnostics_name_their_line ["AB12,LHR"; "# note"]).
  vm_compute. right. left. reflexivity.
Defined.

(** *** Records come from lines *)

Lemma process_line_record lineno raw_line f :
  In f (fst (process_line lineno raw_line no_state)) <->
  is_data lineno raw_line = true /\
  validate_and_build_flight (rstrip_newline raw_line) lineno = (Some f, None).
Proof.
  unfold no_state. split.
  - destruct (line_kinds lineno raw_line) as [Hb | [[Hb Hh] | [Hc | Hd]]].
    + rewrite (process_blank _ _ _ Hb). intros H; destruct H.
    + rewrite (process_header _ _ _ Hb Hh). intros H; destruct H.
    + rewrite (process_comment _ _ _ Hc). intros H; destruct H.
    + rewrite (process_data _ _ _ Hd).
      destruct (validate_and_build_flight (rstrip_newline raw_line) lineno)
        as [fl [e|]].
      * destruct fl; intros H; destruct H.
      * destruct fl as [g|]; cbn [fst app]; intros H; [|destruct H].
        destruct H as [<- | H]; [|destruct H]. now split.
  - intros [Hd Hv]. rewrite (process_data _ _ _ Hd), Hv. now left.
Qed.

Lemma parse_lines_record lineno lines f :
  In f (fst (parse_lines lineno lines no_state)) <->
  exists i raw_line,
    lines !! i = Some raw_line /\ is_data (lineno + i) raw_line = true /\
    validate_and_build_flight (rstrip_newline raw_line) (lineno + i) = (Some f, None).
Proof.
  revert lineno. induction lines as [|raw rest IH]; intros lineno.
  - split; [intros H; destruct H | intros (i & r & Hi & _); discriminate Hi].
  - cbn [parse_lines].
    rewrite (parse_lines_appends (S lineno) rest (process_line lineno raw no_state)).
    cbn [fst]. rewrite in_app_iff, process_line_record, IH. split.
    + intros [[Hd Hv] | (i & r & Hi & Hd & Hv)].
      * exists 0, raw. rewrite Nat.add_0_r. now repeat split.
      * exists (S i), r. replace (lineno + S i) with (S lineno + i) by lia.
        now repeat split.
    + intros (i & r & Hi & Hd & Hv). destruct i as [|i].
      * left. injection Hi as <-. rewrite Nat.add_0_r in Hd, Hv. now split.
      * right. exists i, r. replace (S lineno + i) with (lineno + S i) by lia.
        now repeat split.
Qed.

(** X5: the stored records are exactly those the validator builds from
    the data lines of the file, each validated with its 1-based position:
    no record without its line, and no accepted data line without its
    record. *)
Theorem records_are_the_accepted_data_lines lines f :
  In f (fst (parse_csv_file lines ([], []))) <->
  exists i raw_line,
    lines !! i = Some raw_line /\ is_data (S i) raw_line = true /\
    validate_and_build_flight (rstrip_newline raw_line) (S i) = (Some f, None).
Proof. apply (parse_lines_record 1). Qed.

End IngestMore.

(** ** More on the record validator *)

Module ValidatorMore.

Import PyStr Flight FlightFacts ValidatorTheorems IssueTheorems AsciiText.

(** *** Fields and commas *)

Fixpoint count_char (c : ascii) (s : string) : nat :=
  match s with
  | EmptyString => 0
  | String x r => (if Ascii.eqb x c then 1 else 0) + count_char c r
  end.

Lemma length_split sep s : length (split sep s) = S (count_char sep s).
Proof.
  induction s as [|x r IH]; [reflexivity|].
  cbn [split count_char]. destruct (Ascii.eqb x sep).
  - cbn [length]. now rewrite IH.
  - destruct (split sep r) as [|h t]; [discriminate IH|].
    cbn [length] in *. lia.
Qed.

(** X6: the field count is the number of commas plus one, so a line is
    validated field by field exactly when it holds five commas; with any
    other number it gets the one message "missing required fields". *)
Theorem fields_are_counted_by_commas line lineno :
  length (split "," line) = S (count_char "," line) /\
  (count_char "," line = 5 ->
     exists a b c d e f, map strip (split "," line) = [a; b; c; d; e; f]) /\
  (count_char "," line <> 5 ->
     validate_and_build_flight line lineno =
       (None, Some (line_prefix lineno line +:+ "missing required fields"))).
Proof.
  pose proof (length_split "," line) as Hlen.
  rewrite <- (length_map strip) in Hlen.
  split; [apply length_split|]. split.
  - intros H5. rewrite H5 in Hlen.
    destruct (map strip (split "," line)) as [|a [|b [|c [|d [|e [|f [|g l]]]]]]];
      try discriminate Hlen.
    now exists a, b, c, d, e, f.
  - intros H5. unfold validate_and_build_flight.
    destruct (map strip (split "," line)) as [|a [|b [|c [|d [|e [|f [|g l]]]]]]];
      try reflexivity.
    cbn [length] in Hlen. congruence.
Qed.

Lemma fields_are_counted_by_commas_witness :
  exists a b c d e f,
    map strip (split "," "AB12, LHR ,JFK,x,y,12.5") = [a; b; c; d; e; f].
Proof.
  apply (proj1 (proj2 (fields_are_counted_by_commas "AB12, LHR ,JFK,x,y,12.5" 1))).
  reflexivity.
Defined.

(** *** The shape of the result *)

Lemma flight_id_issues_in fid m : In m (flight_id_issues fid) -> In m flight_id_messages.
Proof.
  unfold flight_id_issues, check_flight_id, flight_id_messages.
  destruct (negb (flight_id_ok fid)); [|intros H; destruct H].
  destruct (Nat.ltb 8 _); [|destruct (Nat.ltb _ 2)];
    cbn [app In]; intros [<- | H]; try destruct H; tauto.
Qed.

Lemma airport_issues_in code kind m :
  In m (airport_issues code kind) -> m = "invalid " +:+ kind +:+ " code".
Proof.
  unfold airport_issues, check_airport.
  destruct (negb (airport_shape code)).
  - cbn [app In]. intros [<- | H]; [reflexivity | destruct H].
  - destruct (negb (bool_decide _)); cbn [app In]; intros H;
      [destruct H as [<- | H]; [reflexivity | destruct H] | destruct H].
Qed.

Lemma datetime_issues_in value kind m :
  In m (datetime_issues value kind) -> m = "invalid " +:+ kind +:+ " datetime".
Proof.
  unfold datetime_issues, parse_datetime.
  destruct (Datetime.strptime value); cbn [snd app In]; intros H;
    [destruct H | destruct H as [<- | H]; [reflexivity | destruct H]].
Qed.

Lemma order_issues_in dep_str arr_str m :
  In m (order_issues dep_str arr_str) ->
  m = "arrival before departure" /\
  exists d a, Datetime.strptime dep_str = Some d /\ Datetime.strptime arr_str = Some a /\
              Datetime.leb a d = true.
Proof.
  unfold order_issues, check_order.
  destruct (Datetime.strptime dep_str) as [d|]; [|intros H; destruct H].
  destruct (Datetime.strptime arr_str) as [a|]; [|intros H; destruct H].
  destruct (Datetime.leb a d) eqn:Hle; cbn [app In]; intros H; [|destruct H].
  destruct H as [<- | H]; [|destruct H]. split; [reflexivity|]. now exists d, a.
Qed.

Lemma price_issues_in price_str m : In m (price_issues price_str) -> In m price_messages.
Proof.
  unfold price_issues, check_price, price_messages.
  destruct (PyFloat.of_string price_str) as [p|].
  - destruct (PyFloat.ltb p PyFloat.zero);
      [|destruct (PyFloat.eqb p PyFloat.zero)];
      cbn [snd app In]; intros H; try destruct H as [<- | H]; try destruct H; tauto.
  - cbn [snd app In]. intros [<- | H]; [tauto | destruct H].
Qed.

(** Every issue is one of the ten fixed texts, none of them empty. *)
Lemma issue_nonempty fid org dst dep_str arr_str price_str m :
  In m (snd (collect_issues fid org dst dep_str arr_str price_str)) ->
  is_empty m = false.
Proof.
  rewrite collect_issues_eq. cbn [snd]. rewrite !in_app_iff.
  intros [H | [H | [H | [H | [H | [H | H]]]]]].
  - apply flight_id_issues_in in H. unfold flight_id_messages in H. cbn [In] in H.
    destruct H as [<- | [<- | [<- | []]]]; reflexivity.
  - apply airport_issues_in in H. now subst m.
  - apply airport_issues_in in H. now subst m.
  - apply datetime_issues_in in H. now subst m.
  - apply datetime_issues_in in H. now subst m.
  - apply order_issues_in in H as [-> _]. reflexivity.
  - apply price_issues_in in H. unfold price_messages in H. cbn [In] in H.
    destruct H as [<- | [<- | [<- | []]]]; reflexivity.
Qed.

Lemma join_nonempty sep m l : is_empty m = false -> is_empty (join sep (m :: l)) = false.
Proof.
  intros Hm. unfold join. cbn [String.concat]. destruct l; [exact Hm|].
  now apply append_nonempty.
Qed.

(** X7: whatever the line, the validator gives back exactly one of its
    two results: a record with no message, or no record with a message
    that is the line's prefix ["Line n: line -> "] followed by a non-empty
    reason. *)
Theorem validator_returns_record_or_reason line lineno :
  (exists fl, validate_and_build_flight line lineno = (Some fl, None)) \/
  (exists reason, is_empty reason = false /\
     validate_and_build_flight line lineno =
       (None, Some (line_prefix lineno line +:+ reason))).
Proof.
  unfold validate_and_build_flight.
  destruct (map strip (split "," line)) as [|a [|b [|c [|d [|e [|f [|g l]]]]]]];
    try (right; eexists; split; [|reflexivity]; reflexivity).
  pose proof (issue_nonempty a b c d e f) as Hne.
  destruct (collect_issues a b c d e f) as [p [|i l]].
  - left. eexists. reflexivity.
  - right. exists (join ", " (i :: l)). split; [|reflexivity].
    apply join_nonempty, Hne. now left.
Qed.

(** *** What an accepted record holds *)

Definition valid_record (f : flight) : Prop :=
  flight_id_ok (flight_id f) = true /\
  airport_ok (origin f) = true /\
  airport_ok (destination f) = true /\
  arrival_after_departure (departure_datetime f) (arrival_datetime f) = true /\
  exists p, price f = Some p /\
    PyFloat.ltb p PyFloat.zero = false /\ PyFloat.eqb p PyFloat.zero = false.

Lemma validate_some line lineno fl :
  fst (validate_and_build_flight line lineno) = Some fl ->
  exists fid org dst dep_str arr_str price_str,
    map strip (split "," line) = [fid; org; dst; dep_str; arr_str; price_str] /\
    fl = mk_flight fid org dst dep_str arr_str (PyFloat.of_string price_str) /\
    all_fields_ok fid org dst dep_str arr_str price_str = true /\
    arrival_after_departure dep_str arr_str = true.
Proof.
  destruct (map strip (split "," line)) as [|a [|b [|c [|d [|e [|f [|g l]]]]]]] eqn:Hparts;
    try (unfold validate_and_build_flight; rewrite Hparts; discriminate).
  rewrite (validate_six _ lineno _ _ _ _ _ _ Hparts).
  destruct (snd (collect_issues a b c d e f)) as [|i l] eqn:Hi; [|discriminate].
  cbn [fst]. intros [= <-]. apply issues_nil_iff in Hi as [Hok Hafter].
  now exists a, b, c, d, e, f.
Qed.

(** A record is only ever built from fields that pass. *)
Lemma record_fields_valid line lineno fl :
  fst (validate_and_build_flight line lineno) = Some fl -> valid_record fl.
Proof.
  intros H. apply validate_some in H
    as (fid & org & dst & dep & arr & pr & _ & -> & Hok & Hafter).
  unfold all_fields_ok in Hok.
  do 5 (apply andb_true_iff in Hok as [Hok ?]).
  unfold valid_record. cbn [flight_id origin destination departure_datetime
                              arrival_datetime price].
  split; [|split; [|split; [|split]]]; try assumption.
  unfold price_ok in *. destruct (PyFloat.of_string pr) as [p|]; [|discriminate].
  exists p. split; [reflexivity|].
  match goal with H : andb _ _ = true |- _ => apply andb_true_iff in H as [Hlt Heq] end.
  now apply negb_true_iff in Hlt, Heq.
Qed.

(** *** The flight id *)

(** X8: for a flight id made of ASCII characters.  The id passes
    exactly when it has 2 to 8 characters, all of them letters or digits;
    otherwise it gets one message, chosen by length first: more than 8
    characters is "too long" and fewer than 2 (the empty id included) is
    "too short" whatever the characters are, and only an id of 2 to 8
    characters is "invalid". *)
Theorem flight_id_verdict fid :
  is_ascii fid = true ->
  (flight_id_ok fid = true <->
     2 <= String.length fid <= 8 /\ all_chars isalnum_char fid = true) /\
  (8 < String.length fid ->
     flight_id_issues fid = ["flight_id too long (more than 8 characters)"]) /\
  (String.length fid < 2 ->
     flight_id_issues fid = ["flight_id too short (less than 2 characters)"]) /\
  (2 <= String.length fid <= 8 -> all_chars isalnum_char fid = false ->
     flight_id_issues fid = ["invalid flight_id"]) /\
  (flight_id_ok fid = true -> flight_id_issues fid = []).
Proof.
  intros _.
  assert (Halnum : 2 <= String.length fid -> isalnum fid = all_chars isalnum_char fid).
  { unfold isalnum. destruct fid; cbn [String.length is_empty negb andb]; [lia | reflexivity]. }
  unfold flight_id_issues, check_flight_id, flight_id_ok.
  split; [|split; [|split; [|split]]].
  - rewrite !andb_true_iff, !Nat.leb_le. split.
    + intros [[H2 H8] Ha]. rewrite (Halnum H2) in Ha. tauto.
    + intros [[H2 H8] Ha]. rewrite (Halnum H2). tauto.
  - intros H. assert (Hl : Nat.leb (String.length fid) 8 = false) by now apply Nat.leb_gt.
    rewrite Hl, andb_false_r. cbn [andb negb app].
    assert (Hlt : Nat.ltb 8 (String.length fid) = true) by now apply Nat.ltb_lt.
    now rewrite Hlt.
  - intros H. assert (Hl : Nat.leb 2 (String.length fid) = false) by now apply Nat.leb_gt.
    rewrite Hl. cbn [andb negb app].
    assert (Hlt : Nat.ltb 8 (String.length fid) = false) by (apply Nat.ltb_ge; lia).
    assert (Hlt2 : Nat.ltb (String.length fid) 2 = true) by now apply Nat.ltb_lt.
    now rewrite Hlt, Hlt2.
  - intros [H2 H8] Ha. rewrite (Halnum H2), Ha, andb_false_r. cbn [negb app].
    assert (Hlt : Nat.ltb 8 (String.length fid) = false) by (apply Nat.ltb_ge; lia).
    assert (Hlt2 : Nat.ltb (String.length fid) 2 = false) by (apply Nat.ltb_ge; lia).
    now rewrite Hlt, Hlt2.
  - intros ->. reflexivity.
Qed.

Lemma flight_id_verdict_witness :
  flight_id_issues "" = ["flight_id too short (less than 2 characters)"] /\
  flight_id_issues "AB-345678" = ["flight_id too long (more than 8 characters)"] /\
  flight_id_issues "AB-3" = ["invalid flight_id"].
Proof.
  split; [|split].
  - apply (proj1 (proj2 (proj2 (flight_id_verdict "" eq_refl)))). cbn. lia.
  - apply (proj1 (proj2 (flight_id_verdict "AB-345678" eq_refl))). cbn. lia.
  - apply (proj1 (proj2 (proj2 (proj2 (flight_id_verdict "AB-3" eq_refl)))));
      [cbn; lia | reflexivity].
Defined.

(** *** Arrival and departure *)

(** X9: the issue "arrival before departure" is reported exactly when
    both timestamps parse and the arrival is not strictly later than the
    departure, the same instant included; it therefore never stands beside
    an "invalid ... datetime" issue, and such a line gives no record. *)
Theorem order_issue_exactly_when_not_later
    line lineno fid org dst dep_str arr_str price_str :
  map strip (split "," line) = [fid; org; dst; dep_str; arr_str; price_str] ->
  let issues := snd (collect_issues fid org dst dep_str arr_str price_str) in
  (In "arrival before departure" issues <->
     exists d a, Datetime.strptime dep_str = Some d /\
                 Datetime.strptime arr_str = Some a /\ Datetime.ltb d a = false) /\
  (In "arrival before departure" issues ->
     ~ In "invalid departure datetime" issues /\
     ~ In "invalid arrival datetime" issues /\
     fst (validate_and_build_flight line lineno) = None).
Proof.
  intros Hparts issues.
  assert (Hiff : In "arrival before departure" issues <->
     exists d a, Datetime.strptime dep_str = Some d /\
                 Datetime.strptime arr_str = Some a /\ Datetime.ltb d a = false).
  { subst issues. rewrite collect_issues_eq. cbn [snd]. rewrite !in_app_iff. split.
    - intros [H | [H | [H | [H | [H | [H | H]]]]]].
      + apply flight_id_issues_in in H. unfold flight_id_messages in H. cbn [In] in H.
        destruct H as [H | [H | [H | []]]]; discriminate H.
      + apply airport_issues_in in H. discriminate H.
      + apply airport_issues_in in H. discriminate H.
      + apply datetime_issues_in in H. discriminate H.
      + apply datetime_issues_in in H. discriminate H.
      + apply order_issues_in in H as (_ & d & a & Hd & Ha & Hle).
        exists d, a. repeat split; try assumption.
        rewrite <- DatetimeFacts.leb_false_ltb, Hle. reflexivity.
      + apply price_issues_in in H. unfold price_messages in H. cbn [In] in H.
        destruct H as [H | [H | [H | []]]]; discriminate H.
    - intros (d & a & Hd & Ha & Hlt).
      do 5 right. left. unfold order_issues, check_order. rewrite Hd, Ha.
      rewrite <- DatetimeFacts.leb_false_ltb in Hlt. apply negb_false_iff in Hlt.
      rewrite Hlt. now left. }
  split; [exact Hiff|].
  intros Hin. pose proof Hin as Hin'. apply Hiff in Hin' as (d & a & Hd & Ha & _).
  assert (Hnot : forall kind, kind = "departure" \/ kind = "arrival" ->
                   ~ In ("invalid " +:+ kind +:+ " datetime") issues).
  { intros kind Hk. subst issues. rewrite collect_issues_eq. cbn [snd].
    rewrite !in_app_iff.
    intros [H | [H | [H | [H | [H | [H | H]]]]]].
    - apply flight_id_issues_in in H. unfold flight_id_messages in H. cbn [In] in H.
      destruct Hk as [-> | ->]; destruct H as [H | [H | [H | []]]]; discriminate H.
    - apply airport_issues_in in H. destruct Hk as [-> | ->]; discriminate H.
    - apply airport_issues_in in H. destruct Hk as [-> | ->]; discriminate H.
    - unfold datetime_issues, parse_datetime in H. rewrite Hd in H. destruct H.
    - unfold datetime_issues, parse_datetime in H. rewrite Ha in H. destruct H.
    - apply order_issues_in in H as [H _]. destruct Hk as [-> | ->]; discriminate H.
    - apply price_issues_in in H. unfold price_messages in H. cbn [In] in H.
      destruct Hk as [-> | ->]; destruct H as [H | [H | [H | []]]]; discriminate H. }
  split; [apply (Hnot "departure"); now left|].
  split; [apply (Hnot "arrival"); now right|].
  rewrite (validate_six _ lineno _ _ _ _ _ _ Hparts).
  fold issues. destruct issues; [destruct Hin | reflexivity].
Qed.

(** The same instant written twice, once without padding. *)
Lemma order_issue_exactly_when_not_later_witness :
  In "arrival before departure"
    (snd (collect_issues "AB12" "LHR" "JFK" "2024-03-10 08:00" "2024-3-10 8:00" "12.5")).
Proof.
  apply (proj1 (order_issue_exactly_when_not_later
           "AB12,LHR,JFK,2024-03-10 08:00,2024-3-10 8:00,12.5" 1
           "AB12" "LHR" "JFK" "2024-03-10 08:00" "2024-3-10 8:00" "12.5" eq_refl)).
  eexists _, _. repeat split; vm_compute; reflexivity.
Defined.

(** *** The price *)

Lemma app_one_neq {A} (l : list A) (x : A) : l ++ [x] <> l.
Proof.
  intros H. apply (f_equal (@length A)) in H. rewrite length_app in H.
  cbn [length] in H. lia.
Qed.

Lemma positive_or_nan_passes p :
  PyFloat.gtb p PyFloat.zero = true \/ p = S754_nan ->
  PyFloat.ltb p PyFloat.zero = false /\ PyFloat.eqb p PyFloat.zero = false.
Proof.
  unfold PyFloat.ltb, PyFloat.eqb, PyFloat.gtb, PyFloat.zero, SFltb, SFeqb.
  intros [H | ->]; [|split; reflexivity].
  destruct p as [s| s | | s m e]; cbn in *; try destruct s; try discriminate;
    split; reflexivity.
Qed.

(** X10: the price check adds no issue to the list exactly when
    [float] converts the price string to a value that is strictly
    positive (an infinity included) or that is NaN; that value is then
    the price of the record. *)
Theorem price_accepted_iff_positive_or_nan price_str issues :
  snd (check_price price_str issues) = issues <->
  exists p, PyFloat.of_string price_str = Some p /\
    fst (check_price price_str issues) = Some p /\
    (PyFloat.gtb p PyFloat.zero = true \/ p = S754_nan).
Proof.
  unfold check_price. destruct (PyFloat.of_string price_str) as [p|].
  - destruct (PyFloat.ltb p PyFloat.zero) eqn:Hlt;
      [|destruct (PyFloat.eqb p PyFloat.zero) eqn:Heq]; cbn [fst snd].
    + split; [intros H; now apply app_one_neq in H|].
      intros (p' & [= <-] & _ & H). apply positive_or_nan_passes in H as [H _]. congruence.
    + split; [intros H; now apply app_one_neq in H|].
      intros (p' & [= <-] & _ & H). apply positive_or_nan_passes in H as [_ H]. congruence.
    + split; [|reflexivity]. intros _. exists p.
      split; [reflexivity|]. split; [reflexivity|]. now apply compare_zero_cases.
  - cbn [fst snd]. split; [intros H; now apply app_one_neq in H|].
    intros (p & [=] & _).
Qed.

End ValidatorMore.

(** ** From the parser to the matcher *)

Module QueryMore.

Import PyStr Flight FlightFacts Ingest IngestTheorems Query FloatFacts QueryFacts.
Import QueryTheorems Sources IngestMore ValidatorMore.

(** *** What a run stores *)

Lemma process_line_valid lineno raw_line f :
  In f (fst (process_line lineno raw_line no_state)) -> valid_record f.
Proof.
  unfold no_state.
  destruct (line_kinds lineno raw_line) as [Hb | [[Hb Hh] | [Hc | Hd]]].
  - rewrite (process_blank _ _ _ Hb). intros H; destruct H.
  - rewrite (process_header _ _ _ Hb Hh). intros H; destruct H.
  - rewrite (process_comment _ _ _ Hc). intros H; destruct H.
  - rewrite (process_data _ _ _ Hd).
    destruct (validate_and_build_flight (rstrip_newline raw_line) lineno)
      as [fl [e|]] eqn:Hv.
    + destruct fl; intros H; destruct H.
    + destruct fl as [g|]; cbn [fst app]; intros H; [|destruct H].
      destruct H as [<- | H]; [|destruct H].
      apply (record_fields_valid (rstrip_newline raw_line) lineno). now rewrite Hv.
Qed.

Lemma parse_lines_valid lineno lines :
  Forall valid_record (fst (parse_lines lineno lines no_state)).
Proof.
  revert lineno. induction lines as [|raw rest IH]; intros lineno; [constructor|].
  cbn [parse_lines].
  rewrite (parse_lines_appends (S lineno) rest (process_line lineno raw no_state)).
  cbn [fst]. apply Forall_app. split; [|apply IH].
  apply List.Forall_forall. intros f Hf. exact (process_line_valid _ _ _ Hf).
Qed.

Lemma sources_valid files (st : state) :
  Forall valid_record (fst st) ->
  Forall valid_record (fst (fold_left (fun st lines => parse_csv_file lines st) files st)).
Proof.
  revert st. induction files as [|lines rest IH]; intros st H; cbn [fold_left]; [exact H|].
  apply IH. change (parse_csv_file lines st) with (parse_lines 1 lines st).
  rewrite (parse_lines_appends 1 lines st). cbn [fst].
  apply Forall_app. split; [exact H | apply parse_lines_valid].
Qed.

(** X11: every record a run stores was built from fields that pass: its
    flight id has 2 to 8 letters and digits, both airports are on the
    whitelist, both timestamps parse with the arrival strictly later, and
    its price is a float that is neither negative nor zero.  This holds
    for any number of files, whatever their lines. *)
Theorem stored_records_are_valid (files : list (list string)) :
  Forall valid_record (fst (parse_sources files)).
Proof. unfold parse_sources. apply sources_valid. constructor. Qed.

(** *** Stored records can be queried *)

(** A query whose two range bounds are timestamps and whose price bound
    converts to a float. *)
Definition readable (query : gmap string json) : Prop :=
  (forall v, query !! "departure_datetime" = Some v -> is_timestamp v = true) /\
  (forall v, query !! "arrival_datetime" = Some v -> is_timestamp v = true) /\
  (forall v, query !! "price" = Some v -> exists b, float_value v = Ok b).

Lemma read_bound_readable (query : gmap string json) key :
  (forall v, query !! key = Some v -> is_timestamp v = true) ->
  exists b, read_bound query key = Ok b.
Proof.
  intros H. unfold read_bound. destruct (query !! key) as [v|]; [|now exists None].
  specialize (H v eq_refl). destruct v as [| | | |s| |]; try discriminate H.
  unfold is_timestamp in H. unfold strptime_value.
  destruct (Datetime.strptime s) as [d|]; [|discriminate]. now exists (Some d).
Qed.

Lemma valid_record_parts f :
  valid_record f ->
  exists d a p, Datetime.strptime (departure_datetime f) = Some d /\
    Datetime.strptime (arrival_datetime f) = Some a /\ price f = Some p.
Proof.
  intros (_ & _ & _ & Hafter & p & Hp & _). unfold arrival_after_departure in Hafter.
  destruct (Datetime.strptime (departure_datetime f)) as [d|]; [|discriminate].
  destruct (Datetime.strptime (arrival_datetime f)) as [a|]; [|discriminate].
  now exists d, a, p.
Qed.

Lemma kept_of_result query d a f b :
  match_flight query d a f = Ok b -> match_flight query d a f = Ok (kept query d a f).
Proof. intros H. unfold kept. rewrite H. now destruct b. Qed.

(** On a valid record the loop body does not raise. *)
Lemma match_flight_returns (query : gmap string json) d a f :
  valid_record f ->
  (forall v, query !! "price" = Some v -> exists b, float_value v = Ok b) ->
  match_flight query d a f = Ok (kept query d a f).
Proof.
  intros Hf Hp. destruct (valid_record_parts f Hf) as (fd & fa & p & Hd & Ha & Hpr).
  assert (Hx : exists x, dep_stage d f = Ok x).
  { unfold dep_stage, parse_flight_time. rewrite Hd. destruct d; simpl; eauto. }
  assert (Hy : exists y, arr_stage a f = Ok y).
  { unfold arr_stage, parse_flight_time. rewrite Ha. destruct a; simpl; eauto. }
  assert (Hz : exists z, price_stage query f = Ok z).
  { unfold price_stage, float_price. rewrite Hpr.
    destruct (query !! "price") as [v|]; [|eauto].
    destruct (Hp v eq_refl) as [b ->]. simpl. eauto. }
  destruct Hx as [x Hx], Hy as [y Hy], Hz as [z Hz].
  assert (H : exists b, match_flight query d a f = Ok b).
  { rewrite match_flight_stages, Hx, Hy, Hz.
    destruct (exact_ok query f), x, y; simpl; eauto. }
  destruct H as [b Hb]. exact (kept_of_result _ _ _ _ _ Hb).
Qed.

Lemma valid_records_can_be_queried flights (query : gmap string json) :
  Forall valid_record flights -> readable query ->
  exists m, filter_flights flights query = Ok m /\ sublist m flights.
Proof.
  intros Hf (Hd & Ha & Hp).
  destruct (read_bound_readable query _ Hd) as [d Hrd].
  destruct (read_bound_readable query _ Ha) as [a Hra].
  exists (List.filter (kept query d a) flights). split; [|apply list_filter_sublist].
  unfold filter_flights. rewrite Hrd, Hra. simpl.
  rewrite (filter_loop_total query d a (kept query d a)); [reflexivity|].
  eapply Forall_impl; [exact Hf|]. intros f Hv. now apply match_flight_returns.
Qed.

(** X12: the records a run stores can be handed to the matcher as they
    are: with a query whose range bounds are timestamps and whose price
    bound converts to a float, the matcher returns, whatever the files
    held. *)
Theorem stored_records_can_be_queried (files : list (list string))
    (query : gmap string json) :
  readable query ->
  exists m, filter_flights (fst (parse_sources files)) query = Ok m /\
            sublist m (fst (parse_sources files)).
Proof.
  intros Hq. apply valid_records_can_be_queried; [|exact Hq].
  unfold parse_sources. apply sources_valid. constructor.
Qed.

Lemma cheap_since_march_readable : readable cheap_since_march.
Proof.
  repeat split; intros v H; vm_compute in H; try discriminate; injection H as <-.
  - reflexivity.
  - eexists. vm_compute. reflexivity.
Defined.

Lemma stored_records_can_be_queried_witness :
  exists m,
    filter_flights
      (fst (parse_sources [[HEADER; sample_line; "# note"]; [short_id_line]]))
      cheap_since_march = Ok m /\
    sublist m (fst (parse_sources [[HEADER; sample_line; "# note"]; [short_id_line]])).
Proof.
  apply (stored_records_can_be_queried
           [[HEADER; sample_line; "# note"]; [short_id_line]] cheap_since_march).
  exact cheap_since_march_readable.
Defined.

(** *** What the matcher returns *)

Lemma filter_flights_ok flights (query : gmap string json) m :
  filter_flights flights query = Ok m ->
  exists d a, read_bound query "departure_datetime" = Ok d /\
              read_bound query "arrival_datetime" = Ok a /\
              filter_loop query d a flights [] = Ok m /\
              m = List.filter (kept query d a) flights.
Proof.
  unfold filter_flights.
  destruct (read_bound query "departure_datetime") as [d|]; [|discriminate].
  destruct (read_bound query "arrival_datetime") as [a|]; [|discriminate].
  simpl. intros H. exists d, a.
  split; [reflexivity|]. split; [reflexivity|]. split; [exact H|].
  now apply filter_loop_ok in H.
Qed.

(** A loop that returns did not raise on any flight. *)
Lemma filter_loop_each query d a flights acc r :
  filter_loop query d a flights acc = Ok r ->
  Forall (fun f => match_flight query d a f = Ok (kept query d a f)) flights.
Proof.
  revert acc. induction flights as [|f rest IH]; intros acc; [constructor|].
  cbn [filter_loop].
  destruct (match_flight query d a f) as [b|e] eqn:Hm; [|discriminate].
  simpl. intros H. constructor; [|exact (IH _ H)].
  exact (kept_of_result _ _ _ _ _ Hm).
Qed.

(** X13: whenever the matcher returns, with any query and any records,
    what it returns is a subsequence of the records it was given: nothing
    is invented, reordered or repeated. *)
Theorem matches_come_from_the_input flights (query : gmap string json) m :
  filter_flights flights query = Ok m ->
  sublist m flights /\ length m <= length flights /\
  (forall f, In f m -> In f flights).
Proof.
  intros H. destruct (filter_flights_ok _ _ _ H) as (d & a & _ & _ & _ & ->).
  split; [apply list_filter_sublist|]. split.
  - apply sublist_length, list_filter_sublist.
  - intros f Hf. now apply List.filter_In in Hf.
Qed.

Lemma matches_come_from_the_input_witness :
  sublist [flight_a] [flight_a; flight_b] /\
  length [flight_a] <= length [flight_a; flight_b] /\
  (forall f, In f [flight_a] -> In f [flight_a; flight_b]).
Proof.
  apply (matches_come_from_the_input [flight_a; flight_b] cheap_since_march).
  vm_compute. reflexivity.
Defined.

(** X14: filtering is idempotent: the matches of a query, filtered again
    by the same query, all come back. *)
Theorem filtering_again_keeps_every_match flights (query : gmap string json) m :
  filter_flights flights query = Ok m -> filter_flights m query = Ok m.
Proof.
  intros H. destruct (filter_flights_ok _ _ _ H) as (d & a & Hd & Ha & _ & ->).
  unfold filter_flights. rewrite Hd, Ha. simpl.
  rewrite (filter_loop_total query d a (fun _ => true)).
  - simpl. now rewrite list_filter_true.
  - apply List.Forall_forall. intros f Hf. apply List.filter_In in Hf as [_ Hk].
    unfold kept in Hk.
    destruct (match_flight query d a f) as [[|]|]; (reflexivity || discriminate).
Qed.

Lemma filtering_again_keeps_every_match_witness :
  filter_flights [flight_a] cheap_since_march = Ok [flight_a].
Proof.
  apply (filtering_again_keeps_every_match [flight_a; flight_b] cheap_since_march).
  vm_compute. reflexivity.
Defined.

(** *** Which keys are read *)

(** X15: the matcher reads the six recognized keys and nothing else: two
    queries that agree on those six give the same result on every list of
    records, be it a list of matches or an exception. *)
Theorem only_the_six_keys_are_read flights (q1 q2 : gmap string json) :
  (forall k, In k recognized_keys -> q1 !! k = q2 !! k) ->
  filter_flights flights q1 = filter_flights flights q2.
Proof.
  intros Hl. unfold filter_flights, read_bound.
  rewrite !Hl by (simpl; tauto).
  destruct (match q2 !! "departure_datetime" with Some _ => _ | None => _ end) as [d|e];
    [|reflexivity].
  destruct (match q2 !! "arrival_datetime" with Some _ => _ | None => _ end) as [a|e];
    [|reflexivity].
  simpl. generalize (@nil flight) as acc.
  induction flights as [|f rest IH]; intros acc; simpl; [reflexivity|].
  assert (Hm : match_flight q1 d a f = match_flight q2 d a f).
  { rewrite !match_flight_stages, !exact_ok_unfold. unfold price_stage.
    now rewrite !Hl by (simpl; tauto). }
  rewrite Hm. destruct (match_flight q2 d a f) as [keep|e]; simpl; [apply IH | reflexivity].
Qed.

Definition cheap_with_notes : gmap string json :=
  <["airline" := JStr "BA"]> (<["limit" := JInt 1]> cheap_since_march).

Lemma only_the_six_keys_are_read_witness :
  filter_flights [flight_a; flight_b] cheap_with_notes =
    filter_flights [flight_a; flight_b] cheap_since_march.
Proof.
  apply (only_the_six_keys_are_read [flight_a; flight_b] cheap_with_notes cheap_since_march).
  intros k Hk. unfold recognized_keys in Hk. cbn [In] in Hk.
  destruct Hk as [<- | [<- | [<- | [<- | [<- | [<- | []]]]]]]; vm_compute; reflexivity.
Defined.

(** *** A price bound that does not convert *)

Lemma match_flight_bad_price (query : gmap string json) v e d a f p :
  query !! "price" = Some v -> float_value v = Raise e -> price f = Some p ->
  match_flight query d a f =
    match match_flight (delete "price" query) d a f with
    | Ok true => Raise e
    | r => r
    end.
Proof.
  intros Hv He Hp. rewrite !match_flight_stages, !exact_ok_unfold.
  rewrite !lookup_delete_ne by discriminate.
  unfold price_stage. rewrite Hv, lookup_delete_eq. unfold float_price. rewrite Hp, He.
  simpl.
  destruct (_ && _ && _); simpl; [|reflexivity].
  destruct (dep_stage d f) as [[|]|]; simpl; try reflexivity.
  destruct (arr_stage a f) as [[|]|]; simpl; reflexivity.
Qed.

Lemma filter_loop_bad_price (query : gmap string json) v e d a flights :
  query !! "price" = Some v -> float_value v = Raise e ->
  Forall (fun f => price f <> None) flights ->
  forall acc m,
    filter_loop (delete "price" query) d a flights acc = Ok m ->
    filter_loop query d a flights acc =
      match List.filter (kept (delete "price" query) d a) flights with
      | [] => Ok acc
      | _ :: _ => Raise e
      end.
Proof.
  intros Hv He Hf. induction Hf as [|f rest Hp _ IH]; intros acc m; [reflexivity|].
  destruct (price f) as [p|] eqn:Hpf; [|now contradiction Hp].
  cbn [filter_loop List.filter]. rewrite (match_flight_bad_price query v e d a f p Hv He Hpf).
  unfold kept at 1.
  destruct (match_flight (delete "price" query) d a f) as [[|]|e']; simpl;
    [reflexivity | apply IH | discriminate].
Qed.

(** X16: unlike a range bound, the price bound of a query is converted
    inside the loop, and only for a record that has passed every other
    filter.  A price bound that does not convert therefore raises exactly
    when some record passes the rest of the query; when none does, the
    matcher returns the empty list. *)
Theorem bad_price_bound_is_noticed_lazily flights (query : gmap string json) v e m :
  query !! "price" = Some v -> float_value v = Raise e ->
  Forall (fun f => price f <> None) flights ->
  filter_flights flights (delete "price" query) = Ok m ->
  filter_flights flights query =
    match m with [] => Ok [] | _ :: _ => Raise e end.
Proof.
  intros Hv He Hf H.
  destruct (filter_flights_ok _ _ _ H) as (d & a & Hd & Ha & Hloop & ->).
  unfold read_bound in Hd, Ha. rewrite lookup_delete_ne in Hd, Ha by discriminate.
  unfold filter_flights. unfold read_bound at 1 2. rewrite Hd, Ha. simpl.
  exact (filter_loop_bad_price query v e d a flights Hv He Hf [] _ Hloop).
Qed.

Definition cheap_to_oslo : gmap string json :=
  <["price" := JStr "cheap"]> (<["destination" := JStr "OSL"]> ∅).
Definition cheap_to_dubai : gmap string json :=
  <["price" := JStr "cheap"]> (<["destination" := JStr "DXB"]> ∅).

(** No sample flight goes to OSL: the price bound is never looked at.
    One goes to DXB: [ValueError]. *)
Lemma bad_price_bound_is_noticed_lazily_witness :
  filter_flights [flight_a; flight_b] cheap_to_oslo = Ok [] /\
  filter_flights [flight_a; flight_b] cheap_to_dubai = Raise ValueError.
Proof.
  split.
  - apply (bad_price_bound_is_noticed_lazily
             [flight_a; flight_b] cheap_to_oslo (JStr "cheap") ValueError []).
    + vm_compute. reflexivity.
    + vm_compute. reflexivity.
    + repeat constructor; vm_compute; discriminate.
    + vm_compute. reflexivity.
  - apply (bad_price_bound_is_noticed_lazily
             [flight_a; flight_b] cheap_to_dubai (JStr "cheap") ValueError [flight_b]).
    + vm_compute. reflexivity.
    + vm_compute. reflexivity.
    + repeat constructor; vm_compute; discriminate.
    + vm_compute. reflexivity.
Defined.

End QueryMore.

(** ** Queries with several keys *)

Module MergeTheorems.

Import PyStr Flight FlightFacts Query FloatFacts QueryFacts QueryTheorems.
Import ValidatorMore QueryMore.

Lemma lookup_union_cases (q1 q2 : gmap string json) k :
  q1 ##ₘ q2 ->
  ((q1 ∪ q2) !! k = q1 !! k /\ q2 !! k = None) \/
  ((q1 ∪ q2) !! k = q2 !! k /\ q1 !! k = None).
Proof.
  intros Hdis. destruct (q1 !! k) as [x|] eqn:H1.
  - left. split; [now apply lookup_union_Some_l | exact (map_disjoint_Some_l _ _ _ _ Hdis H1)].
  - right. split; [now apply lookup_union_r | reflexivity].
Qed.

(** The bound read from the merged query is the bound of the part that
    holds the key. *)
Lemma read_bound_union (q1 q2 : gmap string json) k b1 b :
  q1 ##ₘ q2 ->
  read_bound q1 k = Ok b1 -> read_bound (q1 ∪ q2) k = Ok b ->
  exists b2, read_bound q2 k = Ok b2 /\
    ((b = b1 /\ b2 = None) \/ (b = b2 /\ b1 = None)).
Proof.
  intros Hdis. unfold read_bound.
  destruct (lookup_union_cases q1 q2 k Hdis) as [[-> ->] | [-> ->]].
  - intros H1 H. exists None. split; [reflexivity|]. left. split; [congruence | reflexivity].
  - intros [= <-] H. exists b. split; [exact H|]. right. now split.
Qed.

Lemma exact_ok_union (q1 q2 : gmap string json) f :
  q1 ##ₘ q2 -> exact_ok (q1 ∪ q2) f = exact_ok q1 f && exact_ok q2 f.
Proof.
  intros Hdis. rewrite !exact_ok_unfold.
  destruct (lookup_union_cases q1 q2 "flight_id" Hdis) as [[-> ->] | [-> ->]];
  destruct (lookup_union_cases q1 q2 "origin" Hdis) as [[-> ->] | [-> ->]];
  destruct (lookup_union_cases q1 q2 "destination" Hdis) as [[-> ->] | [-> ->]];
  repeat match goal with |- context [match ?q !! ?k with Some _ => _ | None => _ end] =>
           destruct (match q !! k with Some v => str_eq _ v | None => true end)
         end; reflexivity.
Qed.

(** On a flight that the first part keeps, the merged query does what the
    second part does. *)
Lemma match_flight_union (q1 q2 : gmap string json) d1 a1 d2 a2 d a f :
  q1 ##ₘ q2 ->
  (d = d1 /\ d2 = None) \/ (d = d2 /\ d1 = None) ->
  (a = a1 /\ a2 = None) \/ (a = a2 /\ a1 = None) ->
  kept q1 d1 a1 f = true ->
  match_flight (q1 ∪ q2) d a f = match_flight q2 d2 a2 f.
Proof.
  intros Hdis Hd Ha Hk. unfold kept in Hk.
  destruct (match_flight q1 d1 a1 f) as [[|]|] eqn:Hm; try discriminate. clear Hk.
  apply match_flight_true in Hm as (He & Hds & Has & Hp).
  rewrite !match_flight_stages, (exact_ok_union _ _ _ Hdis), He. cbn [andb].
  assert (Hdep : dep_stage d f = dep_stage d2 f).
  { destruct Hd as [[-> ->] | [-> _]]; [exact Hds | reflexivity]. }
  assert (Harr : arr_stage a f = arr_stage a2 f).
  { destruct Ha as [[-> ->] | [-> _]]; [exact Has | reflexivity]. }
  assert (Hpr : price_stage (q1 ∪ q2) f = price_stage q2 f).
  { unfold price_stage in *.
    destruct (lookup_union_cases q1 q2 "price" Hdis) as [[-> ->] | [-> _]];
      [exact Hp | reflexivity]. }
  now rewrite Hdep, Harr, Hpr.
Qed.

(** What the merged query keeps, the first part keeps. *)
Lemma kept_union_l (q1 q2 : gmap string json) d1 a1 d2 a2 d a f :
  q1 ##ₘ q2 ->
  (d = d1 /\ d2 = None) \/ (d = d2 /\ d1 = None) ->
  (a = a1 /\ a2 = None) \/ (a = a2 /\ a1 = None) ->
  kept (q1 ∪ q2) d a f = true -> kept q1 d1 a1 f = true.
Proof.
  intros Hdis Hd Ha Hk. unfold kept in Hk.
  destruct (match_flight (q1 ∪ q2) d a f) as [[|]|] eqn:Hm; try discriminate. clear Hk.
  apply match_flight_true in Hm as (He & Hds & Has & Hp).
  rewrite (exact_ok_union _ _ _ Hdis) in He. apply andb_true_iff in He as [He _].
  assert (Hgoal : match_flight q1 d1 a1 f = Ok true);
    [|unfold kept; now rewrite Hgoal].
  apply match_flight_true. split; [exact He|]. split; [|split].
  - destruct Hd as [[-> _] | [_ ->]]; [exact Hds | reflexivity].
  - destruct Ha as [[-> _] | [_ ->]]; [exact Has | reflexivity].
  - unfold price_stage in *.
    destruct (lookup_union_cases q1 q2 "price" Hdis) as [[<- _] | [_ ->]];
      [exact Hp | reflexivity].
Qed.

Lemma list_filter_filter {A} (P Q : A -> bool) (l : list A) :
  (forall x, Q x = true -> P x = true) ->
  List.filter Q (List.filter P l) = List.filter Q l.
Proof.
  intros H. induction l as [|x l IH]; [reflexivity|]. cbn [List.filter].
  destruct (P x) eqn:HP; cbn [List.filter].
  - now rewrite IH.
  - destruct (Q x) eqn:HQ; [|exact IH]. rewrite (H x HQ) in HP. discriminate.
Qed.

(** X17: a query is the conjunction of its parts.  When a query is split
    in two parts with no key in common, filtering by the whole query is
    filtering by one part and then filtering those matches by the other:
    if the whole query and the first part return, the second part returns
    on the first part's matches, with the matches of the whole query. *)
Theorem merged_query_filters_in_succession
    flights (q1 q2 : gmap string json) m1 m :
  q1 ##ₘ q2 ->
  filter_flights flights q1 = Ok m1 ->
  filter_flights flights (q1 ∪ q2) = Ok m ->
  filter_flights m1 q2 = Ok m.
Proof.
  intros Hdis H1 H.
  destruct (filter_flights_ok _ _ _ H1) as (d1 & a1 & Hd1 & Ha1 & _ & ->).
  destruct (filter_flights_ok _ _ _ H) as (d & a & Hd & Ha & Hloop & ->).
  destruct (read_bound_union q1 q2 _ d1 d Hdis Hd1 Hd) as (d2 & Hd2 & Hcd).
  destruct (read_bound_union q1 q2 _ a1 a Hdis Ha1 Ha) as (a2 & Ha2 & Hca).
  unfold filter_flights. rewrite Hd2, Ha2. simpl.
  rewrite (filter_loop_total q2 d2 a2 (kept (q1 ∪ q2) d a)).
  - simpl. f_equal. apply list_filter_filter. intros f.
    exact (kept_union_l q1 q2 d1 a1 d2 a2 d a f Hdis Hcd Hca).
  - apply List.Forall_forall. intros f Hf. apply List.filter_In in Hf as [Hin Hk].
    rewrite <- (match_flight_union q1 q2 d1 a1 d2 a2 d a f Hdis Hcd Hca Hk).
    pose proof (filter_loop_each _ _ _ _ _ _ Hloop) as Heach.
    rewrite List.Forall_forall in Heach. exact (Heach f Hin).
Qed.

Definition cheap : gmap string json := {["price" := JInt 100]}.
Definition since_march : gmap string json :=
  {["departure_datetime" := JStr "2024-03-01 00:00"]}.

Lemma merged_query_filters_in_succession_witness :
  filter_flights [flight_a] since_march = Ok [flight_a].
Proof.
  apply (merged_query_filters_in_succession [flight_a; flight_b] cheap since_march).
  - apply map_disjoint_singleton_l. reflexivity.
  - vm_compute. reflexivity.
  - vm_compute. reflexivity.
Defined.

(** *** A record used as a query *)

(** The query that holds the six entries of a record, as [json.dump]
    writes them. *)
Definition record_as_query (f : flight) : gmap string json :=
  <["flight_id" := JStr (flight_id f)]>
  (<["origin" := JStr (origin f)]>
  (<["destination" := JStr (destination f)]>
  (<["departure_datetime" := JStr (departure_datetime f)]>
  (<["arrival_datetime" := JStr (arrival_datetime f)]>
  (<["price" := match price f with Some p => JFloat p | None => JNull end]> ∅))))).

Lemma datetime_compare_refl d : Datetime.compare d d = Eq.
Proof. unfold Datetime.compare. now rewrite !Z.compare_refl. Qed.

Lemma float_gtb_irrefl p : PyFloat.gtb p p = false.
Proof.
  unfold PyFloat.gtb, SFltb.
  destruct p as [s|s| |s m e]; cbn [SFcompare]; try (destruct s; reflexivity);
    try reflexivity.
  destruct s; rewrite Z.compare_refl, ?Pos.compare_cont_refl; reflexivity.
Qed.

Lemma record_as_query_lookups f :
  record_as_query f !! "flight_id" = Some (JStr (flight_id f)) /\
  record_as_query f !! "origin" = Some (JStr (origin f)) /\
  record_as_query f !! "destination" = Some (JStr (destination f)) /\
  record_as_query f !! "departure_datetime" = Some (JStr (departure_datetime f)) /\
  record_as_query f !! "arrival_datetime" = Some (JStr (arrival_datetime f)) /\
  record_as_query f !! "price" =
    Some (match price f with Some p => JFloat p | None => JNull end).
Proof.
  unfold record_as_query.
  repeat split;
    repeat (rewrite lookup_insert_ne by discriminate); apply lookup_insert_eq.
Qed.

(** X18: both range bounds and the price bound are inclusive, and the
    exact-match keys compare whole strings: a valid record is always among
    the matches of the query made of its own six entries. *)
Theorem record_is_found_by_its_own_entries flights f :
  Forall valid_record flights -> In f flights ->
  exists m, filter_flights flights (record_as_query f) = Ok m /\ In f m.
Proof.
  intros Hall Hin.
  assert (Hf : valid_record f) by (rewrite List.Forall_forall in Hall; now apply Hall).
  destruct (valid_record_parts f Hf) as (fd & fa & p & Hfd & Hfa & Hp).
  destruct (record_as_query_lookups f) as (L1 & L2 & L3 & L4 & L5 & L6).
  rewrite Hp in L6.
  assert (Hd : read_bound (record_as_query f) "departure_datetime" = Ok (Some fd)).
  { unfold read_bound. rewrite L4. unfold strptime_value. now rewrite Hfd. }
  assert (Ha : read_bound (record_as_query f) "arrival_datetime" = Ok (Some fa)).
  { unfold read_bound. rewrite L5. unfold strptime_value. now rewrite Hfa. }
  exists (List.filter (kept (record_as_query f) (Some fd) (Some fa)) flights). split.
  - unfold filter_flights. rewrite Hd, Ha. simpl.
    rewrite (filter_loop_total _ _ _ (kept (record_as_query f) (Some fd) (Some fa)));
      [reflexivity|].
    eapply Forall_impl; [exact Hall|]. intros g Hg. apply match_flight_returns; [exact Hg|].
    intros v Hv. rewrite L6 in Hv. injection Hv as <-. now exists p.
  - apply List.filter_In. split; [exact Hin|].
    assert (Hm : match_flight (record_as_query f) (Some fd) (Some fa) f = Ok true);
      [|unfold kept; now rewrite Hm].
    apply match_flight_true. split; [|split; [|split]].
    + rewrite exact_ok_unfold, L1, L2, L3. cbn [str_eq].
      now rewrite !String.eqb_refl.
    + unfold dep_stage, parse_flight_time. rewrite Hfd. simpl.
      unfold Datetime.ltb. now rewrite datetime_compare_refl.
    + unfold arr_stage, parse_flight_time. rewrite Hfa. simpl.
      unfold Datetime.gtb, Datetime.ltb. now rewrite datetime_compare_refl.
    + unfold price_stage, float_price. rewrite L6, Hp. simpl.
      now rewrite float_gtb_irrefl.
Qed.

Lemma sample_flights_valid : Forall valid_record [flight_a; flight_b].
Proof.
  repeat constructor; try (vm_compute; reflexivity);
    (eexists; repeat split; vm_compute; reflexivity).
Defined.

Lemma record_is_found_by_its_own_entries_witness :
  exists m, filter_flights [flight_a; flight_b] (record_as_query flight_b) = Ok m /\
            In flight_b m.
Proof.
  apply (record_is_found_by_its_own_entries [flight_a; flight_b] flight_b).
  - exact sample_flights_valid.
  - right. left. reflexivity.
Defined.

End MergeTheorems.

(** ** A batch of queries *)

Module BatchTheorems.

Import Flight Query QueryTheorems Batch.

(** A response answers a query: it holds the query and its matches. *)
Definition answers (flights : list flight) (q : gmap string json) (r : response) : Prop :=
  fst r = q /\ filter_flights flights q = Ok (snd r).

Lemma run_queries_ok flights queries acc rs :
  run_queries flights queries acc = Ok rs <->
  exists rs', rs = acc ++ rs' /\ Forall2 (answers flights) queries rs'.
Proof.
  revert acc. induction queries as [|q rest IH]; intros acc; cbn [run_queries].
  - split.
    + intros [= <-]. exists []. split; [now rewrite app_nil_r | constructor].
    + intros (rs' & -> & HF). inversion HF. now rewrite app_nil_r.
  - destruct (filter_flights flights q) as [m|e] eqn:Hq; simpl.
    + rewrite IH. split.
      * intros (rs' & -> & HF). exists ((q, m) :: rs'). split.
        -- now rewrite <- app_assoc.
        -- constructor; [now split | exact HF].
      * intros (rs' & -> & HF). inversion HF as [|q' r qs rs'' [Hr1 Hr2] HF']; subst.
        exists rs''. split; [|exact HF'].
        rewrite <- app_assoc. cbn [app]. f_equal. f_equal.
        destruct r as [rq rm]. cbn [fst snd] in *. congruence.
    + split; [discriminate|].
      intros (rs' & _ & HF). inversion HF as [|q' r qs rs'' [_ Hr2] HF']; subst.
      congruence.
Qed.

(** X19: the batch is all or nothing.  It returns exactly when every
    query returns, and then the responses are one per query, in the order
    of the queries, each holding its query and that query's matches on the
    same records; if one query raises, the batch raises and there is
    nothing to write. *)
Theorem responses_follow_the_queries flights queries :
  (forall rs, run_queries flights queries [] = Ok rs <->
              Forall2 (answers flights) queries rs) /\
  (forall q e, In q queries -> filter_flights flights q = Raise e ->
               exists e', run_queries flights queries [] = Raise e').
Proof.
  assert (Hiff : forall rs, run_queries flights queries [] = Ok rs <->
                            Forall2 (answers flights) queries rs).
  { intros rs. rewrite run_queries_ok. cbn [app]. split.
    - now intros (rs' & -> & HF).
    - intros HF. now exists rs. }
  split; [exact Hiff|].
  intros q e Hin Hq.
  assert (Hno : forall rs, run_queries flights queries [] <> Ok rs).
  { intros rs Hrun. apply Hiff in Hrun. clear Hiff.
    induction Hrun as [|q' r qs rs' [_ Hr] _ IH]; [destruct Hin|].
    destruct Hin as [-> | Hin]; [congruence | exact (IH Hin)]. }
  destruct (run_queries flights queries []) as [rs|e']; [|now exists e'].
  now contradiction (Hno rs).
Qed.

Lemma responses_follow_the_queries_witness :
  exists e', run_queries [flight_a; flight_b] [cheap_since_march; date_only_query] []
             = Raise e'.
Proof.
  apply (proj2 (responses_follow_the_queries
                  [flight_a; flight_b] [cheap_since_march; date_only_query])
           date_only_query ValueError).
  - right. left. reflexivity.
  - vm_compute. reflexivity.
Defined.

End BatchTheorems.

(** ** The header line *)

Module HeaderTheorems.

Import PyStr Flight FlightFacts ValidatorTheorems Ingest IngestTheorems.
Import IngestMore ValidatorMore.

(** A character that is neither white space nor the separator. *)
Definition plain (c : ascii) : bool := negb (isspace c) && negb (Ascii.eqb c ",").

Ltac by_cases_on_ascii c :=
  destruct c as [[] [] [] [] [] [] [] []]; vm_compute; reflexivity.

Lemma plain_lower_char c : plain (lower_char c) = plain c.
Proof. by_cases_on_ascii c. Qed.

Lemma hash_lower_char c : Ascii.eqb "#" (lower_char c) = Ascii.eqb "#" c.
Proof. by_cases_on_ascii c. Qed.

Lemma comma_lower_char c : Ascii.eqb "," (lower_char c) = Ascii.eqb c ",".
Proof. by_cases_on_ascii c. Qed.

Lemma length_lower s : String.length (lower s) = String.length s.
Proof. induction s as [|c r IH]; cbn [lower String.length]; [reflexivity | now rewrite IH]. Qed.

Lemma plain_lower s : all_chars plain (lower s) = all_chars plain s.
Proof.
  induction s as [|c r IH]; cbn [lower all_chars]; [reflexivity|].
  now rewrite plain_lower_char, IH.
Qed.

Lemma startswith_app_l a b s : startswith (a +:+ b) s = true -> startswith a s = true.
Proof.
  revert s. induction a as [|x a IH]; intros s; [reflexivity|].
  change (String x a +:+ b) with (String x (a +:+ b)).
  destruct s as [|c r]; cbn [startswith]; [discriminate|].
  rewrite !andb_true_iff. intros [Hx H]. split; [exact Hx | exact (IH _ H)].
Qed.

(** Stripping on the right only shortens: a prefix of the stripped text
    is a prefix of the text. *)
Lemma startswith_rstrip q p s :
  startswith p (lower (rstrip_by q s)) = true -> startswith p (lower s) = true.
Proof.
  revert p. induction s as [|c r IH]; intros p; [exact id|].
  destruct p as [|x p]; [reflexivity|].
  cbn [rstrip_by]. destruct (rstrip_by q r) as [|c' r'] eqn:Hr.
  - destruct (q c); cbn [lower startswith]; [discriminate|].
    rewrite !andb_true_iff. intros [Hx Hp]. split; [exact Hx|].
    destruct p; [reflexivity | discriminate Hp].
  - cbn [lower startswith]. rewrite !andb_true_iff. intros [Hx Hp].
    split; [exact Hx|]. apply IH. exact Hp.
Qed.

(** Leading white space stays in the first field and leaves the others as
    they are. *)
Lemma split_lstrip s :
  exists h t, split "," s = h :: t /\
              split "," (lstrip_by isspace s) = lstrip_by isspace h :: t.
Proof.
  induction s as [|c r IH]; [now exists EmptyString, []|].
  destruct IH as (h & t & Hs & Hl).
  cbn [lstrip_by]. destruct (isspace c) eqn:Hc.
  - assert (Hcomma : Ascii.eqb c "," = false).
    { destruct (Ascii.eqb c ",") eqn:E; [|reflexivity].
      apply Ascii.eqb_eq in E. subst c. discriminate Hc. }
    cbn [split]. rewrite Hcomma, Hs. exists (String c h), t.
    split; [reflexivity|]. cbn [lstrip_by]. now rewrite Hc.
  - cbn [split]. destruct (Ascii.eqb c ",").
    + now exists EmptyString, (split "," r).
    + rewrite Hs. exists (String c h), t. split; [reflexivity|].
      cbn [lstrip_by]. now rewrite Hc.
Qed.

(** A text that starts, in any case, with plain characters and then a
    comma has those characters as its first field. *)
Lemma split_plain_prefix p s :
  all_chars plain p = true ->
  startswith (p +:+ ",") (lower s) = true ->
  exists h t, split "," s = h :: t /\ lower h = p.
Proof.
  revert s. induction p as [|x p IH]; intros s Hp.
  - change (EmptyString +:+ ",") with ",".
    destruct s as [|c r]; cbn [lower startswith]; [discriminate|].
    rewrite andb_true_r, comma_lower_char. intros Hc.
    cbn [split]. rewrite Hc. now exists EmptyString, (split "," r).
  - change (String x p +:+ ",") with (String x (p +:+ ",")).
    cbn [all_chars] in Hp. apply andb_true_iff in Hp as [Hx Hp].
    destruct s as [|c r]; cbn [lower startswith]; [discriminate|].
    rewrite andb_true_iff. intros [Hc Hr]. apply Ascii.eqb_eq in Hc. subst x.
    rewrite plain_lower_char in Hx. unfold plain in Hx.
    apply andb_true_iff in Hx as [_ Hx]. apply negb_true_iff in Hx.
    destruct (IH r Hp Hr) as (h & t & Hs & Hl).
    cbn [split]. rewrite Hx, Hs. exists (String c h), t.
    split; [reflexivity|]. cbn [lower]. now rewrite Hl.
Qed.

Lemma rstrip_plain s : all_chars plain s = true -> rstrip_by isspace s = s.
Proof.
  induction s as [|c r IH]; [reflexivity|].
  cbn [all_chars]. rewrite andb_true_iff. intros [Hc Hr].
  unfold plain in Hc. apply andb_true_iff in Hc as [Hc _]. apply negb_true_iff in Hc.
  cbn [rstrip_by]. rewrite (IH Hr), Hc. now destruct r.
Qed.

(** The first field of a line that starts like the header is the nine
    characters of its first column name. *)
Lemma header_first_field line :
  startswith HEADER (lower (strip line)) = true ->
  exists fid rest, map strip (split "," line) = fid :: rest /\ String.length fid = 9.
Proof.
  intros H. unfold strip in H. apply startswith_rstrip in H.
  change HEADER with (("flight_id" +:+ ",") +:+
    "origin,destination,departure_datetime,arrival_datetime,price") in H.
  apply startswith_app_l in H.
  destruct (split_plain_prefix "flight_id" _ eq_refl H) as (h & t & Hs & Hl).
  destruct (split_lstrip line) as (h0 & t0 & Hs0 & Hl0).
  rewrite Hs in Hl0. injection Hl0 as Hh Ht.
  exists (strip h0), (map strip t0). split; [now rewrite Hs0|].
  unfold strip. rewrite <- Hh, rstrip_plain.
  - now rewrite <- length_lower, Hl.
  - now rewrite <- plain_lower, Hl.
Qed.

Lemma header_never_valid line lineno :
  startswith HEADER (lower (strip line)) = true ->
  fst (validate_and_build_flight line lineno) = None.
Proof.
  intros H. destruct (header_first_field line H) as (fid & rest & Hparts & Hlen).
  destruct (fst (validate_and_build_flight line lineno)) as [fl|] eqn:Hv; [|reflexivity].
  apply validate_some in Hv as (fid' & org & dst & dep & arr & pr & Hp & _ & Hok & _).
  rewrite Hparts in Hp. injection Hp as <- _.
  unfold all_fields_ok in Hok. do 5 (apply andb_true_iff in Hok as [Hok _]).
  unfold flight_id_ok in Hok. rewrite Hlen in Hok. discriminate Hok.
Qed.

(** X20: a line that starts like the header, in any letter case and with
    white space around it, is never a record.  On line 1 it is skipped and
    leaves no trace, so skipping it loses nothing; on any other line it is
    treated as data, rejected, and leaves exactly one diagnostic. *)
Theorem header_is_silent_on_line_1_only lineno raw_line (st : state) :
  startswith HEADER (lower (strip (rstrip_newline raw_line))) = true ->
  fst (validate_and_build_flight (rstrip_newline raw_line) lineno) = None /\
  (lineno = 1 -> process_line lineno raw_line st = st) /\
  (lineno <> 1 ->
     exists e, process_line lineno raw_line st = (fst st, snd st ++ [e])).
Proof.
  intros H. pose proof (header_never_valid _ lineno H) as Hnone.
  assert (Hshape : is_blank raw_line = false /\ is_comment raw_line = false).
  { unfold is_blank, is_comment.
    destruct (strip (rstrip_newline raw_line)) as [|c r]; [discriminate H|].
    split; [reflexivity|]. cbn [startswith]. rewrite andb_true_r.
    unfold HEADER in H. cbn [lower startswith] in H.
    apply andb_true_iff in H as [Hc _]. apply Ascii.eqb_eq in Hc.
    rewrite <- hash_lower_char, <- Hc. reflexivity. }
  destruct Hshape as [Hb Hc].
  split; [exact Hnone|]. split.
  - intros ->. apply process_header; [exact Hb|]. unfold is_header. now rewrite H.
  - intros Hn.
    assert (Hd : is_data lineno raw_line = true).
    { unfold is_data, is_header. rewrite Hb, Hc.
      apply Nat.eqb_neq in Hn. now rewrite Hn. }
    rewrite (process_data _ _ _ Hd).
    destruct (validate_outcome (rstrip_newline raw_line) lineno) as [[fl Hv] | [e Hv]];
      rewrite Hv in *; [discriminate Hnone|].
    now exists e.
Qed.

Lemma header_is_silent_on_line_1_only_witness :
  exists e,
    process_line 7 "  Flight_ID,origin,destination,departure_datetime,arrival_datetime,price,x"
      ([], []) = ([], [] ++ [e]).
Proof.
  apply (proj2 (proj2 (header_is_silent_on_line_1_only 7
    "  Flight_ID,origin,destination,departure_datetime,arrival_datetime,price,x"
    ([], []) eq_refl))).
  discriminate.
Defined.

End HeaderTheorems.
